(** * PDFMD browser clients: file selection, dispatch and status polling

    The repository ships three page scripts:
    - the quick-process page (whole document, one job, one poll slot
      [statusPollInterval]);
    - the batch page that uploads a document and dispatches all of its
      pending batches automatically ([currentDocument], [pollIntervals]);
    - the workbench page ([documents], [pollIntervals], manual dispatch).

    JavaScript runs each handler to its next [await]; everything between two
    awaits is one atomic step.  Each script is embedded as a step function
    over an explicit page state: the script's globals, the DOM properties it
    writes, the table of live interval timers, the continuations of the
    requests in flight and the history of effects (requests, console and
    alert calls, completion signals).  The environment (user, clock,
    server) chooses the events: which handler fires, which live timer
    ticks, which request is answered and with what body.  Time itself is
    not modelled: a timer records its period, and a live timer may tick at
    any step. *)

From Stdlib Require Import PrimFloat SpecFloat FloatOps.
From stdpp Require Import base strings gmap list numbers pretty.
From Stdlib Require Import Ascii QArith Qcanon Sorted.
Close Scope Qc_scope.
Close Scope Q_scope.

Local Open Scope string_scope.
Local Open Scope nat_scope.
Local Open Scope list_scope.
Local Open Scope stdpp_scope.

(** ** Runtime shared by the three scripts *)
Module Js.

(** A [File] object as the handlers read it. *)
Record File := { file_name : string; file_type : string }.

(** Numbers.  A JavaScript number is an IEEE-754 binary64 value, here a
    primitive [float]; its operations round to nearest, ties to even, and
    division by zero yields [NaN] or an infinity.  Page counts come from
    JSON as integers: [js_number z] is the number that parsing the
    integer [z] gives, [z] itself up to [2^53] in magnitude and the
    nearest binary64 value beyond. *)
Definition js_number (z : Z) : float :=
  SF2Prim (binary_normalize prec emax z 0 false).

(** The same quotients in exact arithmetic, for the range properties of
    the percentages (rounding is monotone and keeps 0 and 100); division
    by zero yields the non-finite values. *)
Inductive jsnum :=
| JNum (q : Qc)
| JNaN
| JInf (negative : bool).

Definition js_div (a b : Z) : jsnum :=
  if decide (b = 0)%Z then
    if decide (a = 0)%Z then JNaN else JInf (bool_decide (a < 0)%Z)
  else JNum (Qc_of_Z a / Qc_of_Z b)%Qc.

(** [x * 100] *)
Definition js_times100 (x : jsnum) : jsnum :=
  match x with
  | JNum q => JNum (q * Qc_of_Z 100)%Qc
  | other => other
  end.

(** DOM property values. [H] is the type of structured markup a script
    assigns to [innerHTML]. *)
Inductive value (H : Type) :=
| VBool (b : bool)
| VStr (s : string)
| VPct (n : float)
| VHtml (h : H).
Arguments VBool {H} b.
Arguments VStr {H} s.
Arguments VPct {H} n.
Arguments VHtml {H} h.

(** An interval timer: the closure it runs and its period in ms. *)
Record timer (cb : Type) := Timer { callback : cb; delay : nat }.
Arguments Timer {cb} callback delay.
Arguments callback {cb} t.
Arguments delay {cb} t.

(** [clearInterval(x)]: [x] may be [undefined]/[null] (no effect), or a
    handle; clearing a handle that is not live has no effect either. *)
Definition clearInterval {cb} (x : option nat) (ts : gmap nat (timer cb))
  : gmap nat (timer cb) :=
  match x with
  | Some h => delete h ts
  | None => ts
  end.

(** [a || b] on possibly-missing strings: the empty string is falsy. *)
Definition truthy (o : option string) : option string :=
  match o with
  | Some s => if decide (s = "") then None else Some s
  | None => None
  end.

(** Interpolation of a possibly-undefined string into a template. *)
Definition interp (o : option string) : string := default "undefined" o.

(** The key under which a batch's timer is stored:
    [`${docId}_${batchIndex}`]. *)
Definition pollId (docId : string) (batchIndex : nat) : string :=
  docId +:+ "_" +:+ pretty batchIndex.

Definition PDF : string := "application/pdf".
Definition is_pdf (f : File) : bool := bool_decide (file_type f = PDF).

(** The job statuses after which a poller stops. *)
Definition terminal (st : string) : Prop := st = "complete" ∨ st = "error".

(** Character occurrence in a string. *)
Fixpoint occurs (c : ascii) (s : string) : bool :=
  match s with
  | EmptyString => false
  | String a s' => bool_decide (a = c) || occurs c s'
  end.

End Js.

(** ** Documents and batches as the server serialises them *)
Module Doc.

Record Batch := {
  start : Z;
  end_ : Z;
  status : string;
  job_id : option string;
  result_file : option string }.

Record Document := {
  doc_id : string;
  filename : string;
  total_pages : Z;
  batch_size : option Z;
  batches : list Batch }.

Definition with_status (st : string) (b : Batch) : Batch :=
  {| start := start b; end_ := end_ b; status := st;
     job_id := job_id b; result_file := result_file b |}.

Definition with_batches (bs : list Batch) (d : Document) : Document :=
  {| doc_id := doc_id d; filename := filename d;
     total_pages := total_pages d; batch_size := batch_size d;
     batches := bs |}.

(** [documents.find(d => d.doc_id === docId)] *)
Definition find_doc (docId : string) (docs : list Document) : option Document :=
  list_find (λ d, doc_id d = docId) docs ≫= λ p, Some p.2.

(** [batches.every(b => b.status === 'completed')] *)
Definition all_completed (bs : list Batch) : bool :=
  forallb (λ b, bool_decide (status b = "completed")) bs.

End Doc.

(** ** Response bodies of the endpoints *)
Module Api.

(** [GET /status/<job_id>] *)
Module Status.
Record t := {
  status : string;
  current_page : Z;
  total_pages : Z;
  message : string;
  filename : option string }.
End Status.

(** [POST /process] and [POST /workbench/process-batch/<doc>/<index>] *)
Module Job.
Record t := {
  success : bool;
  job_id : option string;
  error : option string }.
End Job.

(** [POST /workbench/upload] *)
Module Upload.
Record t := {
  success : bool;
  doc_id : string;
  filename : string;
  total_pages : Z;
  batches : list Doc.Batch;
  error : option string }.
End Upload.

End Api.

(** ** The quick-process page (whole document, single job) *)
Module Quick.
Import Js.

(** What a request can come back with; [RThrow] is a rejected [fetch] or
    an unparsable body. *)
Inductive response :=
| RProcess (r : Api.Job.t)
| RStatus (st : Api.Status.t)
| RThrow.

(** The suspended rest of an async function at its [await]. *)
Inductive cont :=
| KProcess
| KStatus (jobId : string).

Inductive request :=
| ReqProcess (f : File)
| ReqStatus (jobId : string).

Inductive action :=
| Fetch (rid : nat) (q : request)
| ConsoleError.

Record State := {
  selectedFile : option File;
  statusPollInterval : option nat;
  currentResultFilename : option string;
  dom : gmap (string * string) (value Empty_set);
  timers : gmap nat (timer string);
  next_handle : nat;
  pending : gmap nat cont;
  next_req : nat;
  trace : list action }.

Definition set_selectedFile (f : option File) (s : State) : State :=
  {| selectedFile := f; statusPollInterval := statusPollInterval s;
     currentResultFilename := currentResultFilename s; dom := dom s;
     timers := timers s; next_handle := next_handle s;
     pending := pending s; next_req := next_req s; trace := trace s |}.

Definition set_currentResultFilename (f : option string) (s : State) : State :=
  {| selectedFile := selectedFile s; statusPollInterval := statusPollInterval s;
     currentResultFilename := f; dom := dom s;
     timers := timers s; next_handle := next_handle s;
     pending := pending s; next_req := next_req s; trace := trace s |}.

Definition set_dom (d : gmap (string * string) (value Empty_set)) (s : State) : State :=
  {| selectedFile := selectedFile s; statusPollInterval := statusPollInterval s;
     currentResultFilename := currentResultFilename s; dom := d;
     timers := timers s; next_handle := next_handle s;
     pending := pending s; next_req := next_req s; trace := trace s |}.

Definition set_timers (ts : gmap nat (timer string)) (s : State) : State :=
  {| selectedFile := selectedFile s; statusPollInterval := statusPollInterval s;
     currentResultFilename := currentResultFilename s; dom := dom s;
     timers := ts; next_handle := next_handle s;
     pending := pending s; next_req := next_req s; trace := trace s |}.

Definition set_pending (p : gmap nat cont) (s : State) : State :=
  {| selectedFile := selectedFile s; statusPollInterval := statusPollInterval s;
     currentResultFilename := currentResultFilename s; dom := dom s;
     timers := timers s; next_handle := next_handle s;
     pending := p; next_req := next_req s; trace := trace s |}.

Definition log (a : action) (s : State) : State :=
  {| selectedFile := selectedFile s; statusPollInterval := statusPollInterval s;
     currentResultFilename := currentResultFilename s; dom := dom s;
     timers := timers s; next_handle := next_handle s;
     pending := pending s; next_req := next_req s; trace := trace s ++ [a] |}.

(** [document.getElementById(el).prop = v] *)
Definition setp (el prop : string) (v : value Empty_set) (s : State) : State :=
  set_dom (<[(el, prop) := v]> (dom s)) s.

(** [fetch(q)] followed by [await]: the request goes out and the rest of
    the function is parked under a fresh request id. *)
Definition fetch (q : request) (k : cont) (s : State) : State :=
  {| selectedFile := selectedFile s; statusPollInterval := statusPollInterval s;
     currentResultFilename := currentResultFilename s; dom := dom s;
     timers := timers s; next_handle := next_handle s;
     pending := <[next_req s := k]> (pending s); next_req := S (next_req s);
     trace := trace s ++ [Fetch (next_req s) q] |}.

(** [statusPollInterval = setInterval(() => pollStatus(jobId), 500)] *)
Definition start_polling (jobId : string) (s : State) : State :=
  {| selectedFile := selectedFile s; statusPollInterval := Some (next_handle s);
     currentResultFilename := currentResultFilename s; dom := dom s;
     timers := <[next_handle s := Timer jobId 500]> (timers s);
     next_handle := S (next_handle s);
     pending := pending s; next_req := next_req s; trace := trace s |}.

Definition showSelectedFile (fileName : string) (s : State) : State :=
  setp "fileSelected" "style.display" (VStr "flex")
    (setp "fileName" "textContent" (VStr fileName) s).

Definition handleFileSelect (files : list File) (s : State) : State :=
  match files !! 0 with
  | Some file =>
      if is_pdf file then
        setp "processBtn" "disabled" (VBool false)
          (showSelectedFile (file_name file) (set_selectedFile (Some file) s))
      else s
  | None => s
  end.

Definition handleDragOver (s : State) : State :=
  setp "dropZone" "class.drag-over" (VBool true) s.

Definition handleDragLeave (s : State) : State :=
  setp "dropZone" "class.drag-over" (VBool false) s.

Definition handleDrop (files : list File) (s : State) : State :=
  let s := setp "dropZone" "class.drag-over" (VBool false) s in
  match files with
  | file :: _ =>
      if is_pdf file then
        setp "processBtn" "disabled" (VBool false)
          (showSelectedFile (file_name file) (set_selectedFile (Some file) s))
      else s
  | [] => s
  end.

Definition hideStatusMessages (s : State) : State :=
  setp "statusError" "style.display" (VStr "none")
    (setp "statusSuccess" "style.display" (VStr "none")
      (setp "statusProcessing" "style.display" (VStr "none") s)).

(** [pollStatus(jobId)] up to its [await]. *)
Definition pollStatus (jobId : string) (s : State) : State :=
  fetch (ReqStatus jobId) (KStatus jobId) s.

(** [(status.current_page / status.total_pages) * 100], as the script
    computes it. *)
Definition progress64 (st : Api.Status.t) : float :=
  PrimFloat.mul
    (PrimFloat.div (js_number (Api.Status.current_page st))
                   (js_number (Api.Status.total_pages st)))
    (js_number 100).

(** The same percentage in exact arithmetic. *)
Definition progress (st : Api.Status.t) : jsnum :=
  js_times100 (js_div (Api.Status.current_page st) (Api.Status.total_pages st)).

(** [pollStatus] from the parsed body on. *)
Definition pollStatus_body (st : Api.Status.t) (s : State) : State :=
  if decide (Api.Status.status st = "processing") then
    setp "pageStatus" "textContent"
         (VStr ("Page " +:+ pretty (Api.Status.current_page st) +:+ " of "
                +:+ pretty (Api.Status.total_pages st)))
      (setp "processingMessage" "textContent" (VStr (Api.Status.message st))
        (setp "progressBar" "style.width" (VPct (progress64 st)) s))
  else if decide (Api.Status.status st = "complete") then
    let s := set_timers (clearInterval (statusPollInterval s) (timers s)) s in
    let s := hideStatusMessages s in
    let s := set_currentResultFilename (Api.Status.filename st) s in
    let s := setp "downloadLink" "href"
               (VStr ("/download/" +:+ interp (Api.Status.filename st))) s in
    let s := setp "statusSuccess" "style.display" (VStr "flex") s in
    setp "processBtn" "disabled" (VBool false) s
  else if decide (Api.Status.status st = "error") then
    let s := set_timers (clearInterval (statusPollInterval s) (timers s)) s in
    let s := hideStatusMessages s in
    let s := setp "errorMessage" "textContent" (VStr (Api.Status.message st)) s in
    let s := setp "statusError" "style.display" (VStr "flex") s in
    setp "processBtn" "disabled" (VBool false) s
  else s.

Definition show_error (msg : string) (s : State) : State :=
  let s := hideStatusMessages s in
  let s := setp "errorMessage" "textContent" (VStr msg) s in
  let s := setp "statusError" "style.display" (VStr "flex") s in
  setp "processBtn" "disabled" (VBool false) s.

(** [processFile()] up to its [await]. *)
Definition processFile (s : State) : State :=
  match selectedFile s with
  | None => s
  | Some f =>
      let s := hideStatusMessages s in
      let s := setp "statusProcessing" "style.display" (VStr "flex") s in
      let s := setp "processBtn" "disabled" (VBool true) s in
      let s := setp "progressBar" "style.width" (VPct (js_number 0)) s in
      let s := setp "processingMessage" "textContent"
                 (VStr "Starting processing...") s in
      let s := setp "pageStatus" "textContent" (VStr "Page 0 of 0") s in
      fetch (ReqProcess f) KProcess s
  end.

(** [processFile] from the parsed body on. *)
Definition processFile_body (r : Api.Job.t) (s : State) : State :=
  match Api.Job.success r, truthy (Api.Job.job_id r) with
  | true, Some j => start_polling j s
  | _, _ => show_error (default "Processing failed" (truthy (Api.Job.error r))) s
  end.

(** Resumption of a parked continuation with the answer to its request.
    A body of the wrong shape for the continuation is not an event of the
    page. *)
Definition resume (k : cont) (r : response) (s : State) : option State :=
  match k, r with
  | KProcess, RProcess res => Some (processFile_body res s)
  | KProcess, RThrow => Some (show_error "Network error occurred" s)
  | KStatus _, RStatus st => Some (pollStatus_body st s)
  | KStatus _, RThrow => Some (log ConsoleError s)
  | _, _ => None
  end.

Inductive event :=
| FileSelect (files : list File)
| DragOver
| DragLeave
| Drop (files : list File)
| ProcessFile
| Tick (h : nat)
| Response (rid : nat) (r : response).

Definition step (s : State) (e : event) : State :=
  match e with
  | FileSelect files => handleFileSelect files s
  | DragOver => handleDragOver s
  | DragLeave => handleDragLeave s
  | Drop files => handleDrop files s
  | ProcessFile => processFile s
  | Tick h =>
      match timers s !! h with
      | Some t => pollStatus (callback t) s
      | None => s
      end
  | Response rid r =>
      match pending s !! rid with
      | Some k =>
          default s (resume k r (set_pending (delete rid (pending s)) s))
      | None => s
      end
  end.

Definition run (s : State) (es : list event) : State := foldl step s es.

(** The page as loaded: no file, no timer, nothing in flight.  The markup
    decides the initial DOM, so it is a parameter. *)
Definition init (d : gmap (string * string) (value Empty_set)) : State :=
  {| selectedFile := None; statusPollInterval := None;
     currentResultFilename := None; dom := d;
     timers := ∅; next_handle := 1;
     pending := ∅; next_req := 0; trace := [] |}.

Definition reachable (s : State) : Prop := ∃ d es, s = run (init d) es.

(** Status queries issued, oldest first. *)
Definition status_queries (tr : list action) : list string :=
  omap (λ a, match a with Fetch _ (ReqStatus j) => Some j | _ => None end) tr.

(** Only PDFs are selected and only PDFs are sent for processing. *)
Definition pdf_only (s : State) : Prop :=
  (∀ f, selectedFile s = Some f → file_type f = PDF)
  ∧ (∀ rid f, Fetch rid (ReqProcess f) ∈ trace s → file_type f = PDF).

(** A status panel is on screen. *)
Definition shown (el : string) (s : State) : Prop :=
  dom s !! (el, "style.display") = Some (VStr "flex").

(** No two of the three status panels are on screen together. *)
Definition panels_exclusive (s : State) : Prop :=
  ¬ (shown "statusProcessing" s ∧ shown "statusSuccess" s)
  ∧ ¬ (shown "statusProcessing" s ∧ shown "statusError" s)
  ∧ ¬ (shown "statusSuccess" s ∧ shown "statusError" s).

(** Every handle in use was handed out by [setInterval] before. *)
Definition handles_ok (s : State) : Prop :=
  (∀ h t, timers s !! h = Some t → h < next_handle s)
  ∧ (∀ h, statusPollInterval s = Some h → h < next_handle s).

(** The download link points at the file the preview would fetch. *)
Definition link_ok (s : State) : Prop :=
  ∀ f, currentResultFilename s = Some f →
       dom s !! ("downloadLink", "href") = Some (VStr ("/download/" +:+ f)).

(** The range of the binary64 width on one pair of counts: between 0 and
    100, and 100 exactly on the last page. *)
Definition width64_ok (cur tot : Z) : bool :=
  let w := PrimFloat.mul (PrimFloat.div (js_number cur) (js_number tot))
                         (js_number 100) in
  PrimFloat.leb (js_number 0) w && PrimFloat.leb w (js_number 100)
  && bool_decide (PrimFloat.eqb w (js_number 100) = bool_decide (cur = tot)).

(** The same on every [0 ≤ cur ≤ tot] for [1 ≤ tot ≤ n]. *)
Definition width64_ok_upto (n : Z) : bool :=
  forallb (λ tot, forallb (λ cur, width64_ok cur tot) (seqZ 0 (tot + 1)))
          (seqZ 1 n).

End Quick.

(** ** The batch page: upload, automatic dispatch, per-batch polling *)
Module Batch.
Import Js.

(** The closure of one interval callback of [pollBatchStatus]. *)
Record Poll := {
  docId : string;
  batchIndex : nat;
  jobId : option string }.

Definition key (p : Poll) : string := pollId (docId p) (batchIndex p).

Inductive response :=
| RUpload (r : Api.Upload.t)
| RJob (r : Api.Job.t)
| RStatus (st : Api.Status.t)
| RDocuments (docs : list Doc.Document)
| RThrow.

Inductive cont :=
| KUpload
| KProcessBatch (docId : string) (batchIndex : nat)
| KStatus (p : Poll)
| KDocuments (p : Poll).

Inductive request :=
| ReqUpload (f : File) (batch_size model : string)
| ReqProcessBatch (docId : string) (batchIndex : nat) (model : string)
| ReqStatus (jobId : string)
| ReqDocuments.

Inductive action :=
| Fetch (rid : nat) (q : request)
| ConsoleError
| ShowCompletion.

(** Markup assigned to [innerHTML]: the batch list is a function of the
    document id and its batches; the completion message is fixed. *)
Inductive Html :=
| HBatchList (docId : string) (bs : list Doc.Batch)
| HCompletion.

Record State := {
  selectedFile : option File;
  currentDocument : option Doc.Document;
  pollIntervals : gmap string nat;
  dom : gmap (string * string) (value Html);
  timers : gmap nat (timer Poll);
  next_handle : nat;
  pending : gmap nat cont;
  next_req : nat;
  trace : list action }.

Definition set_selectedFile (f : option File) (s : State) : State :=
  {| selectedFile := f; currentDocument := currentDocument s;
     pollIntervals := pollIntervals s; dom := dom s;
     timers := timers s; next_handle := next_handle s;
     pending := pending s; next_req := next_req s; trace := trace s |}.

Definition set_currentDocument (d : option Doc.Document) (s : State) : State :=
  {| selectedFile := selectedFile s; currentDocument := d;
     pollIntervals := pollIntervals s; dom := dom s;
     timers := timers s; next_handle := next_handle s;
     pending := pending s; next_req := next_req s; trace := trace s |}.

Definition set_dom (d : gmap (string * string) (value Html)) (s : State) : State :=
  {| selectedFile := selectedFile s; currentDocument := currentDocument s;
     pollIntervals := pollIntervals s; dom := d;
     timers := timers s; next_handle := next_handle s;
     pending := pending s; next_req := next_req s; trace := trace s |}.

Definition set_timers (ts : gmap nat (timer Poll)) (s : State) : State :=
  {| selectedFile := selectedFile s; currentDocument := currentDocument s;
     pollIntervals := pollIntervals s; dom := dom s;
     timers := ts; next_handle := next_handle s;
     pending := pending s; next_req := next_req s; trace := trace s |}.

Definition set_pending (p : gmap nat cont) (s : State) : State :=
  {| selectedFile := selectedFile s; currentDocument := currentDocument s;
     pollIntervals := pollIntervals s; dom := dom s;
     timers := timers s; next_handle := next_handle s;
     pending := p; next_req := next_req s; trace := trace s |}.

Definition log (a : action) (s : State) : State :=
  {| selectedFile := selectedFile s; currentDocument := currentDocument s;
     pollIntervals := pollIntervals s; dom := dom s;
     timers := timers s; next_handle := next_handle s;
     pending := pending s; next_req := next_req s; trace := trace s ++ [a] |}.

Definition setp (el prop : string) (v : value Html) (s : State) : State :=
  set_dom (<[(el, prop) := v]> (dom s)) s.

(** [document.getElementById(el).value] of an input or select. *)
Definition getv (el : string) (s : State) : string :=
  match dom s !! (el, "value") with
  | Some (VStr v) => v
  | _ => ""
  end.

Definition fetch (q : request) (k : cont) (s : State) : State :=
  {| selectedFile := selectedFile s; currentDocument := currentDocument s;
     pollIntervals := pollIntervals s; dom := dom s;
     timers := timers s; next_handle := next_handle s;
     pending := <[next_req s := k]> (pending s); next_req := S (next_req s);
     trace := trace s ++ [Fetch (next_req s) q] |}.

Definition showSelectedFile (fileName : string) (s : State) : State :=
  setp "fileSelected" "style.display" (VStr "flex")
    (setp "fileName" "textContent" (VStr fileName) s).

Definition handleFileSelect (files : list File) (s : State) : State :=
  match files !! 0 with
  | Some file =>
      if is_pdf file then
        setp "processBtn" "disabled" (VBool false)
          (showSelectedFile (file_name file) (set_selectedFile (Some file) s))
      else s
  | None => s
  end.

Definition handleDragOver (s : State) : State :=
  setp "dropZone" "class.drag-over" (VBool true) s.

Definition handleDragLeave (s : State) : State :=
  setp "dropZone" "class.drag-over" (VBool false) s.

Definition handleDrop (files : list File) (s : State) : State :=
  let s := setp "dropZone" "class.drag-over" (VBool false) s in
  match files with
  | file :: _ =>
      if is_pdf file then
        setp "processBtn" "disabled" (VBool false)
          (showSelectedFile (file_name file) (set_selectedFile (Some file) s))
      else s
  | [] => s
  end.

Definition hideStatusMessages (s : State) : State :=
  setp "statusError" "style.display" (VStr "none")
    (setp "statusSuccess" "style.display" (VStr "none")
      (setp "statusProcessing" "style.display" (VStr "none") s)).

Definition renderBatchProgress (s : State) : State :=
  match currentDocument s with
  | None => s
  | Some d =>
      let s := setp "batchProgress" "style.display" (VStr "block") s in
      let s := setp "batchDocTitle" "textContent" (VStr (Doc.filename d)) s in
      let s := setp "batchDocMeta" "textContent"
                 (VStr (pretty (Doc.total_pages d) +:+ " pages • "
                        +:+ pretty (length (Doc.batches d)) +:+ " batches")) s in
      setp "batchList" "innerHTML"
           (VHtml (HBatchList (Doc.doc_id d) (Doc.batches d))) s
  end.

(** [currentDocument.batches[i].status = st]; [None] is the [TypeError]
    raised when there is no current document or no batch at [i]. *)
Definition set_status (i : nat) (st : string) (s : State) : option State :=
  match currentDocument s with
  | Some d =>
      match Doc.batches d !! i with
      | Some b =>
          Some (set_currentDocument
                  (Some (Doc.with_batches
                           (<[i := Doc.with_status st b]> (Doc.batches d)) d)) s)
      | None => None
      end
  | None => None
  end.

(** [pollIntervals[pollId] = setInterval(async () => {...}, 500)] *)
Definition pollBatchStatus (p : Poll) (s : State) : State :=
  {| selectedFile := selectedFile s; currentDocument := currentDocument s;
     pollIntervals := <[key p := next_handle s]> (pollIntervals s);
     dom := dom s;
     timers := <[next_handle s := Timer p 500]> (timers s);
     next_handle := S (next_handle s);
     pending := pending s; next_req := next_req s; trace := trace s |}.

(** [processBatch(docId, batchIndex)] up to its [await]. *)
Definition processBatch (docId : string) (batchIndex : nat) (s : State) : State :=
  fetch (ReqProcessBatch docId batchIndex (getv "modelSelect" s))
        (KProcessBatch docId batchIndex) s.

(** The index of the first batch at or after [i] whose status is
    ['pending']; [bs] is the list from position [i] on. *)
Fixpoint find_pending (bs : list Doc.Batch) (i : nat) : option nat :=
  match bs with
  | [] => None
  | b :: bs' =>
      if decide (Doc.status b = "pending") then Some i
      else find_pending bs' (S i)
  end.

(** The loop of [processAllBatches] from index [i] to its next [await]
    (or to its end). *)
Definition loop_from (i : nat) (s : State) : State :=
  match currentDocument s with
  | Some d =>
      match find_pending (drop i (Doc.batches d)) i with
      | Some j => processBatch (Doc.doc_id d) j s
      | None => s
      end
  | None => s
  end.

Definition processAllBatches (s : State) : State :=
  match currentDocument s with
  | None => s
  | Some _ => loop_from 0 s
  end.

(** The [catch] block of [processBatch]; the flag tells whether
    [processBatch] returned (the handler can itself throw). *)
Definition processBatch_catch (i : nat) (s : State) : State * bool :=
  match set_status i "error" s with
  | Some s' => (renderBatchProgress s', true)
  | None => (s, false)
  end.

(** [processBatch] from the answer on. *)
Definition processBatch_body (docId : string) (i : nat) (r : option Api.Job.t)
    (s : State) : State * bool :=
  match r with
  | Some res =>
      if Api.Job.success res then
        match set_status i "processing" s with
        | Some s' =>
            (pollBatchStatus
               {| docId := docId; batchIndex := i; jobId := Api.Job.job_id res |}
               (renderBatchProgress s'), true)
        | None => processBatch_catch i s
        end
      else
        match set_status i "error" s with
        | Some s' => (renderBatchProgress s', true)
        | None => processBatch_catch i s
        end
  | None => processBatch_catch i s
  end.

(** [processBatch] resumes, and when it returns the loop of
    [processAllBatches] goes on with the next index; when it throws, the
    loop is abandoned. *)
Definition processBatch_resume (docId : string) (i : nat) (r : option Api.Job.t)
    (s : State) : State :=
  let '(s', returned) := processBatch_body docId i r s in
  if returned then loop_from (S i) s' else s'.

Definition showCompletionMessage (s : State) : State :=
  log ShowCompletion
    (setp "statusSuccess.span" "innerHTML" (VHtml HCompletion)
      (setp "statusSuccess" "style.display" (VStr "flex") s)).

(** The interval callback from the parsed status on. *)
Definition poll_body (p : Poll) (st : Api.Status.t) (s : State) : State :=
  if decide (Api.Status.status st = "complete") then
    let s := set_timers (clearInterval (pollIntervals s !! key p) (timers s)) s in
    fetch ReqDocuments (KDocuments p) s
  else if decide (Api.Status.status st = "error") then
    let s := set_timers (clearInterval (pollIntervals s !! key p) (timers s)) s in
    match set_status (batchIndex p) "error" s with
    | Some s' => renderBatchProgress s'
    | None => log ConsoleError s
    end
  else s.

(** The interval callback from the parsed document list on. *)
Definition refresh_body (p : Poll) (docs : list Doc.Document) (s : State) : State :=
  match Doc.find_doc (docId p) docs with
  | Some updatedDoc =>
      let s := set_currentDocument (Some updatedDoc) s in
      let s := renderBatchProgress s in
      if Doc.all_completed (Doc.batches updatedDoc) then
        showCompletionMessage (setp "processBtn" "disabled" (VBool false) s)
      else s
  | None => s
  end.

Definition show_error (msg : string) (s : State) : State :=
  let s := hideStatusMessages s in
  let s := setp "errorMessage" "textContent" (VStr msg) s in
  let s := setp "statusError" "style.display" (VStr "flex") s in
  setp "processBtn" "disabled" (VBool false) s.

(** [processFile()] up to its [await]. *)
Definition processFile (s : State) : State :=
  match selectedFile s with
  | None => s
  | Some f =>
      let s := hideStatusMessages s in
      let s := setp "batchProgress" "style.display" (VStr "none") s in
      let s := setp "processBtn" "disabled" (VBool true) s in
      fetch (ReqUpload f (getv "batchSize" s) (getv "modelSelect" s)) KUpload s
  end.

(** [processFile] from the parsed body on. *)
Definition processFile_body (r : Api.Upload.t) (s : State) : State :=
  if Api.Upload.success r then
    let d := {| Doc.doc_id := Api.Upload.doc_id r;
                Doc.filename := Api.Upload.filename r;
                Doc.total_pages := Api.Upload.total_pages r;
                Doc.batch_size := None;
                Doc.batches := Api.Upload.batches r |} in
    processAllBatches (renderBatchProgress (set_currentDocument (Some d) s))
  else
    show_error (default "Upload failed" (truthy (Api.Upload.error r))) s.

Definition resume (k : cont) (r : response) (s : State) : option State :=
  match k, r with
  | KUpload, RUpload res => Some (processFile_body res s)
  | KUpload, RThrow => Some (show_error "Network error occurred" s)
  | KProcessBatch d i, RJob res => Some (processBatch_resume d i (Some res) s)
  | KProcessBatch d i, RThrow => Some (processBatch_resume d i None s)
  | KStatus p, RStatus st => Some (poll_body p st s)
  | KStatus _, RThrow => Some (log ConsoleError s)
  | KDocuments p, RDocuments docs => Some (refresh_body p docs s)
  | KDocuments _, RThrow => Some (log ConsoleError s)
  | _, _ => None
  end.

Inductive event :=
| FileSelect (files : list File)
| DragOver
| DragLeave
| Drop (files : list File)
| Input (el v : string)
| ProcessFile
| Tick (h : nat)
| Response (rid : nat) (r : response).

Definition step (s : State) (e : event) : State :=
  match e with
  | FileSelect files => handleFileSelect files s
  | DragOver => handleDragOver s
  | DragLeave => handleDragLeave s
  | Drop files => handleDrop files s
  | Input el v => setp el "value" (VStr v) s
  | ProcessFile => processFile s
  | Tick h =>
      match timers s !! h with
      | Some t =>
          fetch (ReqStatus (interp (jobId (callback t)))) (KStatus (callback t)) s
      | None => s
      end
  | Response rid r =>
      match pending s !! rid with
      | Some k =>
          default s (resume k r (set_pending (delete rid (pending s)) s))
      | None => s
      end
  end.

Definition run (s : State) (es : list event) : State := foldl step s es.

Definition init (d : gmap (string * string) (value Html)) : State :=
  {| selectedFile := None; currentDocument := None; pollIntervals := ∅;
     dom := d; timers := ∅; next_handle := 1;
     pending := ∅; next_req := 0; trace := [] |}.

Definition reachable (s : State) : Prop := ∃ d es, s = run (init d) es.

(** Batch dispatches requested, oldest first. *)
Definition dispatches (tr : list action) : list (string * nat) :=
  omap (λ a, match a with
             | Fetch _ (ReqProcessBatch d i _) => Some (d, i)
             | _ => None
             end) tr.

(** Indices (counted from [i]) of the batches whose status is
    ['pending'], in list order. *)
Fixpoint pending_from (bs : list Doc.Batch) (i : nat) : list nat :=
  match bs with
  | [] => []
  | b :: bs' =>
      if decide (Doc.status b = "pending") then i :: pending_from bs' (S i)
      else pending_from bs' (S i)
  end.

(** Number of requests for the document list. *)
Definition document_loads (tr : list action) : nat :=
  length (omap (λ a, match a with
                     | Fetch _ ReqDocuments => Some ()
                     | _ => None
                     end) tr).

(** Files uploaded, oldest first. *)
Definition uploads (tr : list action) : list File :=
  omap (λ a, match a with
             | Fetch _ (ReqUpload f _ _) => Some f
             | _ => None
             end) tr.

(** Only PDFs are selected and only PDFs are uploaded. *)
Definition pdf_only (s : State) : Prop :=
  (∀ f, selectedFile s = Some f → file_type f = PDF)
  ∧ Forall (λ f, file_type f = PDF) (uploads (trace s)).

(** The server answers the request issued last. *)
Definition answer (s : State) (r : response) : State :=
  step s (Response (pred (next_req s)) r).

Definition answers (s : State) (rs : list response) : State :=
  foldl answer s rs.

(** What a dispatch can come back with. *)
Definition is_job_answer (r : response) : Prop :=
  match r with
  | RJob _ | RThrow => True
  | _ => False
  end.

(** The states a run goes through, the first one included. *)
Fixpoint states (s : State) (es : list event) : list State :=
  match es with
  | [] => [s]
  | e :: es' => s :: states (step s e) es'
  end.

(** Status of the batch at index [i] of the current document. *)
Definition status_at (i : nat) (s : State) : option string :=
  currentDocument s ≫= λ d, Doc.status <$> Doc.batches d !! i.

(** What the page never writes of a document: its identity and, for each
    batch, everything but the status. *)
Definition layout (d : Doc.Document)
  : string * string * Z * option Z * list Doc.Batch :=
  (Doc.doc_id d, Doc.filename d, Doc.total_pages d, Doc.batch_size d,
   Doc.with_status "" <$> Doc.batches d).

(** The batch list on screen is the rendering of the current document. *)
Definition rendered_ok (s : State) : Prop :=
  ∀ d, currentDocument s = Some d →
       dom s !! ("batchList", "innerHTML")
       = Some (VHtml (HBatchList (Doc.doc_id d) (Doc.batches d))).

(** Number of times the completion message was shown. *)
Definition completions (tr : list action) : nat :=
  length (omap (λ a, match a with
                     | ShowCompletion => Some ()
                     | _ => None
                     end) tr).

End Batch.

(** ** The workbench page: document list, manual dispatch, polling *)
Module Workbench.
Import Js.

Record Poll := {
  docId : string;
  batchIndex : nat;
  jobId : option string }.

Definition key (p : Poll) : string := pollId (docId p) (batchIndex p).

(** What an interval timer of this page runs. *)
Inductive Callback :=
| CbLoadDocuments
| CbPoll (p : Poll).

Inductive response :=
| RUpload (r : Api.Upload.t)
| RJob (r : Api.Job.t)
| RStatus (st : Api.Status.t)
| RDocuments (docs : list Doc.Document)
| RThrow (message : string).

Inductive cont :=
| KLoad
| KUpload
| KProcessBatch (docId : string) (batchIndex : nat)
| KStatus (p : Poll).

Inductive request :=
| ReqUpload (f : File) (batch_size : string)
| ReqProcessBatch (docId : string) (batchIndex : nat)
| ReqStatus (jobId : string)
| ReqDocuments.

Inductive action :=
| Fetch (rid : nat) (q : request)
| ConsoleError
| Alert (msg : string)
| FormReset.

(** [documentsList.innerHTML] *)
Inductive Html :=
| HEmptyState
| HDocuments (docs : list Doc.Document).

Record State := {
  documents : list Doc.Document;
  pollIntervals : gmap string nat;
  documentsList : option Html;
  (** the progress containers now in the page, by element id: width of
      the fill and text *)
  progress : gmap string (jsnum * string);
  timers : gmap nat (timer Callback);
  next_handle : nat;
  pending : gmap nat cont;
  next_req : nat;
  trace : list action }.

Definition set_timers (ts : gmap nat (timer Callback)) (s : State) : State :=
  {| documents := documents s; pollIntervals := pollIntervals s;
     documentsList := documentsList s; progress := progress s;
     timers := ts; next_handle := next_handle s;
     pending := pending s; next_req := next_req s; trace := trace s |}.

Definition set_pending (p : gmap nat cont) (s : State) : State :=
  {| documents := documents s; pollIntervals := pollIntervals s;
     documentsList := documentsList s; progress := progress s;
     timers := timers s; next_handle := next_handle s;
     pending := p; next_req := next_req s; trace := trace s |}.

Definition set_progress (p : gmap string (jsnum * string)) (s : State) : State :=
  {| documents := documents s; pollIntervals := pollIntervals s;
     documentsList := documentsList s; progress := p;
     timers := timers s; next_handle := next_handle s;
     pending := pending s; next_req := next_req s; trace := trace s |}.

Definition log (a : action) (s : State) : State :=
  {| documents := documents s; pollIntervals := pollIntervals s;
     documentsList := documentsList s; progress := progress s;
     timers := timers s; next_handle := next_handle s;
     pending := pending s; next_req := next_req s; trace := trace s ++ [a] |}.

Definition fetch (q : request) (k : cont) (s : State) : State :=
  {| documents := documents s; pollIntervals := pollIntervals s;
     documentsList := documentsList s; progress := progress s;
     timers := timers s; next_handle := next_handle s;
     pending := <[next_req s := k]> (pending s); next_req := S (next_req s);
     trace := trace s ++ [Fetch (next_req s) q] |}.

(** [setInterval(f, ms)] whose handle is dropped. *)
Definition setInterval (f : Callback) (ms : nat) (s : State) : State :=
  {| documents := documents s; pollIntervals := pollIntervals s;
     documentsList := documentsList s; progress := progress s;
     timers := <[next_handle s := Timer f ms]> (timers s);
     next_handle := S (next_handle s);
     pending := pending s; next_req := next_req s; trace := trace s |}.

Definition progress_id (docId : string) (index : nat) : string :=
  "progress_" +:+ docId +:+ "_" +:+ pretty index.

(** The progress containers [renderBatch] emits for one document: one per
    batch whose status is ['processing'], at 0% and with the batch's page
    bounds as text. *)
Definition containers_of_doc (d : Doc.Document)
  : list (string * (jsnum * string)) :=
  omap (λ ib : nat * Doc.Batch,
          if decide (Doc.status ib.2 = "processing") then
            Some (progress_id (Doc.doc_id d) ib.1,
                  (JNum (Qc_of_Z 0),
                   "Page " +:+ pretty (Doc.start ib.2) +:+ " of "
                   +:+ pretty (Doc.end_ ib.2)))
          else None)
       (imap (λ i b, (i, b)) (Doc.batches d)).

(** [getElementById] finds the first element in document order. *)
Definition containers (docs : list Doc.Document) : gmap string (jsnum * string) :=
  foldr (λ kv m, <[kv.1 := kv.2]> m) ∅ (docs ≫= containers_of_doc).

Definition renderDocuments (s : State) : State :=
  {| documents := documents s; pollIntervals := pollIntervals s;
     documentsList :=
       Some (match documents s with
             | [] => HEmptyState
             | _ => HDocuments (documents s)
             end);
     progress := containers (documents s);
     timers := timers s; next_handle := next_handle s;
     pending := pending s; next_req := next_req s; trace := trace s |}.

Definition set_documents (docs : list Doc.Document) (s : State) : State :=
  {| documents := docs; pollIntervals := pollIntervals s;
     documentsList := documentsList s; progress := progress s;
     timers := timers s; next_handle := next_handle s;
     pending := pending s; next_req := next_req s; trace := trace s |}.

(** [loadDocuments()] up to its [await]. *)
Definition loadDocuments (s : State) : State := fetch ReqDocuments KLoad s.

(** [uploadDocument(event)] up to its [await]; the event carries what the
    form holds. *)
Definition uploadDocument (files : list File) (batchSize : string) (s : State)
  : State :=
  match files !! 0 with
  | Some f => fetch (ReqUpload f batchSize) KUpload s
  | None => s
  end.

(** [processBatch(docId, batchIndex)] up to its [await]. *)
Definition processBatch (docId : string) (batchIndex : nat) (s : State) : State :=
  fetch (ReqProcessBatch docId batchIndex) (KProcessBatch docId batchIndex) s.

(** [pollIntervals[pollId] = setInterval(async () => {...}, 500)] *)
Definition pollBatchStatus (p : Poll) (s : State) : State :=
  {| documents := documents s;
     pollIntervals := <[key p := next_handle s]> (pollIntervals s);
     documentsList := documentsList s; progress := progress s;
     timers := <[next_handle s := Timer (CbPoll p) 500]> (timers s);
     next_handle := S (next_handle s);
     pending := pending s; next_req := next_req s; trace := trace s |}.

(** The percentage shown for a batch in progress: pages done within the
    batch over the batch's length, in exact arithmetic (only the range
    of this value is used below). *)
Definition batch_progress (st : Api.Status.t) (b : Doc.Batch) : jsnum :=
  js_times100
    (js_div (Api.Status.current_page st - Doc.start b)
            (Doc.end_ b - Doc.start b + 1)).

(** The interval callback from the parsed status on. *)
Definition poll_body (p : Poll) (st : Api.Status.t) (s : State) : State :=
  if decide (Api.Status.status st = "processing") then
    match Doc.find_doc (docId p) (documents s) with
    | Some doc =>
        match Doc.batches doc !! batchIndex p with
        | Some batch =>
            let id := progress_id (docId p) (batchIndex p) in
            match progress s !! id with
            | Some _ =>
                set_progress
                  (<[id := (batch_progress st batch,
                            "Page " +:+ pretty (Api.Status.current_page st)
                            +:+ " of " +:+ pretty (Doc.end_ batch))]>
                     (progress s)) s
            | None => s
            end
        | None => log ConsoleError s
        end
    | None => s
    end
  else if decide (Api.Status.status st = "complete"
                  ∨ Api.Status.status st = "error") then
    loadDocuments
      (set_timers (clearInterval (pollIntervals s !! key p) (timers s)) s)
  else s.

Definition resume (k : cont) (r : response) (s : State) : option State :=
  match k, r with
  | KLoad, RDocuments docs => Some (renderDocuments (set_documents docs s))
  | KLoad, RThrow _ => Some (log ConsoleError s)
  | KUpload, RUpload res =>
      Some (if Api.Upload.success res then loadDocuments (log FormReset s)
            else log (Alert ("Upload failed: " +:+ interp (Api.Upload.error res))) s)
  | KUpload, RThrow m => Some (log (Alert ("Upload error: " +:+ m)) s)
  | KProcessBatch d i, RJob res =>
      Some (if Api.Job.success res then
              pollBatchStatus
                {| docId := d; batchIndex := i; jobId := Api.Job.job_id res |} s
            else log (Alert ("Processing failed: " +:+ interp (Api.Job.error res))) s)
  | KProcessBatch _ _, RThrow m => Some (log (Alert ("Processing error: " +:+ m)) s)
  | KStatus p, RStatus st => Some (poll_body p st s)
  | KStatus _, RThrow _ => Some (log ConsoleError s)
  | _, _ => None
  end.

Inductive event :=
| DOMContentLoaded
| UploadDocument (files : list File) (batchSize : string)
| ClickProcess (docId : string) (batchIndex : nat)
| Tick (h : nat)
| Response (rid : nat) (r : response).

(** One firing of a live timer. *)
Definition fire (f : Callback) (s : State) : State :=
  match f with
  | CbLoadDocuments => loadDocuments s
  | CbPoll p => fetch (ReqStatus (interp (jobId p))) (KStatus p) s
  end.

Definition step (s : State) (e : event) : State :=
  match e with
  | DOMContentLoaded => setInterval CbLoadDocuments 5000 (loadDocuments s)
  | UploadDocument files batchSize => uploadDocument files batchSize s
  | ClickProcess d i => processBatch d i s
  | Tick h =>
      match timers s !! h with
      | Some t => fire (callback t) s
      | None => s
      end
  | Response rid r =>
      match pending s !! rid with
      | Some k =>
          default s (resume k r (set_pending (delete rid (pending s)) s))
      | None => s
      end
  end.

Definition run (s : State) (es : list event) : State := foldl step s es.

Definition init : State :=
  {| documents := []; pollIntervals := ∅; documentsList := None;
     progress := ∅; timers := ∅; next_handle := 1;
     pending := ∅; next_req := 0; trace := [] |}.

Definition reachable (s : State) : Prop := ∃ es, s = run init es.

(** The poll timers: those whose callback is the closure of
    [pollBatchStatus]. *)
Definition is_poll (t : timer Callback) : Prop :=
  match callback t with CbPoll _ => True | CbLoadDocuments => False end.

Definition document_loads (tr : list action) : nat :=
  length (omap (λ a, match a with
                     | Fetch _ ReqDocuments => Some ()
                     | _ => None
                     end) tr).

(** Status queries issued, oldest first. *)
Definition status_queries (tr : list action) : list string :=
  omap (λ a, match a with Fetch _ (ReqStatus j) => Some j | _ => None end) tr.

(** Handles are allocated in increasing order, and no handle is stored
    under two keys. *)
Definition handles_ok (s : State) : Prop :=
  (∀ h t, timers s !! h = Some t → h < next_handle s)
  ∧ (∀ k h, pollIntervals s !! k = Some h → h < next_handle s)
  ∧ (∀ k k' h, pollIntervals s !! k = Some h →
               pollIntervals s !! k' = Some h → k = k').

(** The list on screen is the rendering of the cached documents. *)
Definition rendered_ok (s : State) : Prop :=
  ∀ h, documentsList s = Some h →
       h = match documents s with
           | [] => HEmptyState
           | _ => HDocuments (documents s)
           end.

(** Every progress container on the page belongs to the rendering of the
    cached documents. *)
Definition progress_ok (s : State) : Prop :=
  ∀ id, is_Some (progress s !! id) →
        is_Some (containers (documents s) !! id).

End Workbench.

(** ** The sign-in page (second script of [workbench.js]) *)
Module Auth.
Import Js.

(** [POST /auth/login] *)
Module Login.
Record session := {
  access_token : option string;
  refresh_token : option string }.
Record t := {
  success : bool;
  session_ : option session;
  error : option string }.
End Login.

(** [POST /auth/signup] *)
Module Signup.
Record t := {
  success : bool;
  message : option string;
  error : option string }.
End Signup.

(** The second argument of [showMessage]: ['success'] or ['error']. *)
Inductive kind := Success | Error.

(** What a one-shot timer runs: the redirect after a login, or the switch
    to the login tab after a signup (the closure keeps the email). *)
Inductive Callback :=
| CbRedirect
| CbToLogin (email : string).

Inductive response :=
| RLogin (d : Login.t)
| RSignup (d : Signup.t)
| RThrow.

Inductive cont :=
| KLogin
| KSignup (email : string).

Inductive request :=
| ReqLogin (email password : string)
| ReqSignup (email password full_name : string).

Inductive action :=
| Fetch (rid : nat) (q : request).

Record State := {
  (** elements that carry the class ['active'] *)
  active : gset string;
  loginForm_hidden : bool;
  signupForm_hidden : bool;
  message_text : string;
  message_kind : option kind;
  message_show : bool;
  (** values of the form fields, by element id *)
  inputs : gmap string string;
  localStorage : gmap string string;
  (** last value assigned to [window.location.href] *)
  location : option string;
  timeouts : gmap nat (timer Callback);
  next_handle : nat;
  pending : gmap nat cont;
  next_req : nat;
  trace : list action }.

Definition getv (el : string) (s : State) : string :=
  default "" (inputs s !! el).

Definition showMessage (text : string) (k : kind) (s : State) : State :=
  {| active := active s; loginForm_hidden := loginForm_hidden s;
     signupForm_hidden := signupForm_hidden s;
     message_text := text; message_kind := Some k; message_show := true;
     inputs := inputs s; localStorage := localStorage s;
     location := location s; timeouts := timeouts s;
     next_handle := next_handle s; pending := pending s;
     next_req := next_req s; trace := trace s |}.

Definition hideMessage (s : State) : State :=
  {| active := active s; loginForm_hidden := loginForm_hidden s;
     signupForm_hidden := signupForm_hidden s;
     message_text := message_text s; message_kind := message_kind s;
     message_show := false;
     inputs := inputs s; localStorage := localStorage s;
     location := location s; timeouts := timeouts s;
     next_handle := next_handle s; pending := pending s;
     next_req := next_req s; trace := trace s |}.

Definition set_active (a : gset string) (s : State) : State :=
  {| active := a; loginForm_hidden := loginForm_hidden s;
     signupForm_hidden := signupForm_hidden s;
     message_text := message_text s; message_kind := message_kind s;
     message_show := message_show s;
     inputs := inputs s; localStorage := localStorage s;
     location := location s; timeouts := timeouts s;
     next_handle := next_handle s; pending := pending s;
     next_req := next_req s; trace := trace s |}.

Definition set_forms (login_hidden signup_hidden : bool) (s : State) : State :=
  {| active := active s; loginForm_hidden := login_hidden;
     signupForm_hidden := signup_hidden;
     message_text := message_text s; message_kind := message_kind s;
     message_show := message_show s;
     inputs := inputs s; localStorage := localStorage s;
     location := location s; timeouts := timeouts s;
     next_handle := next_handle s; pending := pending s;
     next_req := next_req s; trace := trace s |}.

Definition set_input (el v : string) (s : State) : State :=
  {| active := active s; loginForm_hidden := loginForm_hidden s;
     signupForm_hidden := signupForm_hidden s;
     message_text := message_text s; message_kind := message_kind s;
     message_show := message_show s;
     inputs := <[el := v]> (inputs s); localStorage := localStorage s;
     location := location s; timeouts := timeouts s;
     next_handle := next_handle s; pending := pending s;
     next_req := next_req s; trace := trace s |}.

(** [localStorage.setItem(k, v)] *)
Definition setItem (k v : string) (s : State) : State :=
  {| active := active s; loginForm_hidden := loginForm_hidden s;
     signupForm_hidden := signupForm_hidden s;
     message_text := message_text s; message_kind := message_kind s;
     message_show := message_show s;
     inputs := inputs s; localStorage := <[k := v]> (localStorage s);
     location := location s; timeouts := timeouts s;
     next_handle := next_handle s; pending := pending s;
     next_req := next_req s; trace := trace s |}.

Definition set_location (l : string) (s : State) : State :=
  {| active := active s; loginForm_hidden := loginForm_hidden s;
     signupForm_hidden := signupForm_hidden s;
     message_text := message_text s; message_kind := message_kind s;
     message_show := message_show s;
     inputs := inputs s; localStorage := localStorage s;
     location := Some l; timeouts := timeouts s;
     next_handle := next_handle s; pending := pending s;
     next_req := next_req s; trace := trace s |}.

(** [setTimeout(f, ms)] *)
Definition setTimeout (f : Callback) (ms : nat) (s : State) : State :=
  {| active := active s; loginForm_hidden := loginForm_hidden s;
     signupForm_hidden := signupForm_hidden s;
     message_text := message_text s; message_kind := message_kind s;
     message_show := message_show s;
     inputs := inputs s; localStorage := localStorage s;
     location := location s;
     timeouts := <[next_handle s := Timer f ms]> (timeouts s);
     next_handle := S (next_handle s); pending := pending s;
     next_req := next_req s; trace := trace s |}.

Definition set_timeouts (ts : gmap nat (timer Callback)) (s : State) : State :=
  {| active := active s; loginForm_hidden := loginForm_hidden s;
     signupForm_hidden := signupForm_hidden s;
     message_text := message_text s; message_kind := message_kind s;
     message_show := message_show s;
     inputs := inputs s; localStorage := localStorage s;
     location := location s; timeouts := ts;
     next_handle := next_handle s; pending := pending s;
     next_req := next_req s; trace := trace s |}.

Definition set_pending (p : gmap nat cont) (s : State) : State :=
  {| active := active s; loginForm_hidden := loginForm_hidden s;
     signupForm_hidden := signupForm_hidden s;
     message_text := message_text s; message_kind := message_kind s;
     message_show := message_show s;
     inputs := inputs s; localStorage := localStorage s;
     location := location s; timeouts := timeouts s;
     next_handle := next_handle s; pending := p;
     next_req := next_req s; trace := trace s |}.

Definition fetch (q : request) (k : cont) (s : State) : State :=
  {| active := active s; loginForm_hidden := loginForm_hidden s;
     signupForm_hidden := signupForm_hidden s;
     message_text := message_text s; message_kind := message_kind s;
     message_show := message_show s;
     inputs := inputs s; localStorage := localStorage s;
     location := location s; timeouts := timeouts s;
     next_handle := next_handle s;
     pending := <[next_req s := k]> (pending s); next_req := S (next_req s);
     trace := trace s ++ [Fetch (next_req s) q] |}.

(** [switchTab(tab)].  [tabs] are the elements of class ['tab'] (the
    markup decides them).  The function reads the global [event], that is
    [window.event]: the event being dispatched, [ev = Some target], or
    [undefined] when no handler is running, [ev = None]; then
    [event.target] throws after the tabs have lost ['active'] and before
    anything else is done.  The flag tells whether the call returned. *)
Definition switchTab (tabs : gset string) (ev : option string) (tab : string)
    (s : State) : State * bool :=
  let s := set_active (active s ∖ tabs) s in
  match ev with
  | None => (s, false)
  | Some target =>
      let s := set_active ({[target]} ∪ active s) s in
      let s := set_forms (bool_decide (tab ≠ "login"))
                         (bool_decide (tab ≠ "signup")) s in
      (hideMessage s, true)
  end.

(** [handleLogin(event)] up to its [await]. *)
Definition handleLogin (s : State) : State :=
  let s := hideMessage s in
  fetch (ReqLogin (getv "loginEmail" s) (getv "loginPassword" s)) KLogin s.

(** [handleLogin] from the parsed body on; a successful body without
    [session] throws at [data.session.access_token] and lands in [catch]. *)
Definition handleLogin_body (d : Login.t) (s : State) : State :=
  if Login.success d then
    match Login.session_ d with
    | Some sess =>
        let s := setItem "access_token" (interp (Login.access_token sess)) s in
        let s := setItem "refresh_token" (interp (Login.refresh_token sess)) s in
        let s := showMessage "Login successful! Redirecting..." Success s in
        setTimeout CbRedirect 1000 s
    | None => showMessage "An error occurred. Please try again." Error s
    end
  else showMessage (default "Login failed" (truthy (Login.error d))) Error s.

(** [handleSignup(event)] up to its [await]. *)
Definition handleSignup (s : State) : State :=
  let s := hideMessage s in
  fetch (ReqSignup (getv "signupEmail" s) (getv "signupPassword" s)
                   (getv "signupName" s))
        (KSignup (getv "signupEmail" s)) s.

(** [handleSignup] from the parsed body on. *)
Definition handleSignup_body (email : string) (d : Signup.t) (s : State) : State :=
  if Signup.success d then
    let s := showMessage
               (default "Account created! Please check your email."
                        (truthy (Signup.message d))) Success s in
    setTimeout (CbToLogin email) 2000 s
  else showMessage (default "Signup failed" (truthy (Signup.error d))) Error s.

Definition resume (k : cont) (r : response) (s : State) : option State :=
  match k, r with
  | KLogin, RLogin d => Some (handleLogin_body d s)
  | KLogin, RThrow =>
      Some (showMessage "An error occurred. Please try again." Error s)
  | KSignup email, RSignup d => Some (handleSignup_body email d s)
  | KSignup _, RThrow =>
      Some (showMessage "An error occurred. Please try again." Error s)
  | _, _ => None
  end.

(** A timer callback; no event is being dispatched while it runs. *)
Definition fire (tabs : gset string) (f : Callback) (s : State) : State :=
  match f with
  | CbRedirect => set_location "/" s
  | CbToLogin email =>
      let '(s', returned) := switchTab tabs None "login" s in
      if returned then set_input "loginEmail" email s' else s'
  end.

Inductive event :=
| ClickTab (target tab : string)
| Type_ (el v : string)
| SubmitLogin
| SubmitSignup
| Timeout (h : nat)
| Response (rid : nat) (r : response).

Definition step (tabs : gset string) (s : State) (e : event) : State :=
  match e with
  | ClickTab target tab => (switchTab tabs (Some target) tab s).1
  | Type_ el v => set_input el v s
  | SubmitLogin => handleLogin s
  | SubmitSignup => handleSignup s
  | Timeout h =>
      match timeouts s !! h with
      | Some t => fire tabs (callback t) (set_timeouts (delete h (timeouts s)) s)
      | None => s
      end
  | Response rid r =>
      match pending s !! rid with
      | Some k =>
          default s (resume k r (set_pending (delete rid (pending s)) s))
      | None => s
      end
  end.

Definition run (tabs : gset string) (s : State) (es : list event) : State :=
  foldl (step tabs) s es.

(** The page as loaded: the markup decides tabs and forms, the browser
    keeps [localStorage] from earlier visits. *)
Definition init (act : gset string) (login_hidden signup_hidden : bool)
    (store : gmap string string) : State :=
  {| active := act; loginForm_hidden := login_hidden;
     signupForm_hidden := signup_hidden;
     message_text := ""; message_kind := None; message_show := false;
     inputs := ∅; localStorage := store; location := None;
     timeouts := ∅; next_handle := 1; pending := ∅; next_req := 0;
     trace := [] |}.

(** The two token entries of the store. *)
Definition tokens (s : State) : option string * option string :=
  (localStorage s !! "access_token", localStorage s !! "refresh_token").

(** Every scheduled redirect, and every redirect made, has both tokens in
    the store. *)
Definition redirect_ok (s : State) : Prop :=
  ((∃ h ms, timeouts s !! h = Some (Timer CbRedirect ms))
   ∨ is_Some (location s)) →
  is_Some (localStorage s !! "access_token")
  ∧ is_Some (localStorage s !! "refresh_token").

End Auth.

(** ** The preview modal of the quick-process page *)
Module QuickView.
Import Js.

(** What a preview request comes back with: the markdown text, or a
    failure with its message. *)
Inductive answer :=
| Text (markdown : string)
| Failed (message : string).

(** [previewContent.innerHTML]: the output of [marked.parse]. *)
Inductive content :=
| Marked (markdown : string).

Record State := {
  page : Quick.State;
  previewContent : option content;
  previewModal_display : option string;
  (** preview requests in flight and the URLs requested so far *)
  previews : gset nat;
  next_preview : nat;
  requested : list string;
  alerts : list string }.

Definition with_page (q : Quick.State) (s : State) : State :=
  {| page := q; previewContent := previewContent s;
     previewModal_display := previewModal_display s;
     previews := previews s; next_preview := next_preview s;
     requested := requested s; alerts := alerts s |}.

(** [previewResult(event)] up to its [await]; an empty or missing file name
    is falsy and returns at once. *)
Definition previewResult (s : State) : State :=
  match truthy (Quick.currentResultFilename (page s)) with
  | None => s
  | Some f =>
      {| page := page s; previewContent := previewContent s;
         previewModal_display := previewModal_display s;
         previews := {[next_preview s]} ∪ previews s;
         next_preview := S (next_preview s);
         requested := requested s ++ ["/download/" +:+ f];
         alerts := alerts s |}
  end.

(** [previewResult] from the answer on. *)
Definition previewResult_body (a : answer) (s : State) : State :=
  match a with
  | Text markdown =>
      {| page := page s; previewContent := Some (Marked markdown);
         previewModal_display := Some "flex";
         previews := previews s; next_preview := next_preview s;
         requested := requested s; alerts := alerts s |}
  | Failed m =>
      {| page := page s; previewContent := previewContent s;
         previewModal_display := previewModal_display s;
         previews := previews s; next_preview := next_preview s;
         requested := requested s;
         alerts := alerts s ++ ["Preview error: " +:+ m] |}
  end.

Definition closePreview (s : State) : State :=
  {| page := page s; previewContent := previewContent s;
     previewModal_display := Some "none";
     previews := previews s; next_preview := next_preview s;
     requested := requested s; alerts := alerts s |}.

Inductive event :=
| Page (e : Quick.event)
| PreviewResult
| ClosePreview
| PreviewAnswer (rid : nat) (a : answer).

Definition step (s : State) (e : event) : State :=
  match e with
  | Page e => with_page (Quick.step (page s) e) s
  | PreviewResult => previewResult s
  | ClosePreview => closePreview s
  | PreviewAnswer rid a =>
      if decide (rid ∈ previews s) then
        previewResult_body a
          {| page := page s; previewContent := previewContent s;
             previewModal_display := previewModal_display s;
             previews := previews s ∖ {[rid]};
             next_preview := next_preview s;
             requested := requested s; alerts := alerts s |}
      else s
  end.

Definition run (s : State) (es : list event) : State := foldl step s es.

Definition init (d : gmap (string * string) (value Empty_set)) : State :=
  {| page := Quick.init d; previewContent := None;
     previewModal_display := None; previews := ∅; next_preview := 0;
     requested := []; alerts := [] |}.

End QuickView.

(** * Scenarios *)

(** Concrete inputs used to exercise the pages. *)
Module Scenario.
Import Js.

Definition paper : File := {| file_name := "paper.pdf"; file_type := PDF |}.
Definition notes : File := {| file_name := "notes.pdf"; file_type := PDF |}.
Definition photo : File := {| file_name := "photo.png"; file_type := "image/png" |}.

Definition job_status (st : string) (cur tot : Z) : Api.Status.t :=
  {| Api.Status.status := st; Api.Status.current_page := cur;
     Api.Status.total_pages := tot; Api.Status.message := "";
     Api.Status.filename := None |}.

Definition job_ok (j : string) : Api.Job.t :=
  {| Api.Job.success := true; Api.Job.job_id := Some j; Api.Job.error := None |}.

Definition job_refused : Api.Job.t :=
  {| Api.Job.success := false; Api.Job.job_id := None;
     Api.Job.error := Some "busy" |}.

Definition batch (a b : Z) (st : string) : Doc.Batch :=
  {| Doc.start := a; Doc.end_ := b; Doc.status := st;
     Doc.job_id := None; Doc.result_file := None |}.

(** Quick page: a second document is submitted while the first job is
    still being polled; then the first job is seen complete. *)
Definition quick_two_jobs : list Quick.event :=
  [ Quick.FileSelect [paper];
    Quick.ProcessFile;
    Quick.Response 0 (Quick.RProcess (job_ok "jobA"));
    Quick.FileSelect [notes];
    Quick.ProcessFile;
    Quick.Response 1 (Quick.RProcess (job_ok "jobB"));
    Quick.Tick 1;
    Quick.Response 2 (Quick.RStatus (job_status "complete" 10 10)) ].

(** A 20-page document split in two batches of 10. *)
Definition upload_two : Api.Upload.t :=
  {| Api.Upload.success := true; Api.Upload.doc_id := "d1";
     Api.Upload.filename := "paper.pdf"; Api.Upload.total_pages := 20;
     Api.Upload.batches := [batch 1 10 "pending"; batch 11 20 "pending"];
     Api.Upload.error := None |}.

(** Batch page: upload, both batches dispatched and accepted, then the
    timer of batch 0 fires once (request 3 is its status query). *)
Definition batch_two_polling : Batch.State :=
  Batch.run (Batch.init ∅)
    [ Batch.FileSelect [paper];
      Batch.ProcessFile;
      Batch.Response 0 (Batch.RUpload upload_two);
      Batch.Response 1 (Batch.RJob (job_ok "j0"));
      Batch.Response 2 (Batch.RJob (job_ok "j1"));
      Batch.Tick 1 ].

(** Batch page: upload, then the dispatch of batch 0 is in flight
    (request 1). *)
Definition batch_dispatching : Batch.State :=
  Batch.run (Batch.init ∅)
    [ Batch.FileSelect [paper];
      Batch.ProcessFile;
      Batch.Response 0 (Batch.RUpload upload_two) ].

(** Batch page: the dispatch of batch 0 is refused by the server. *)
Definition batch_refused : list Batch.event :=
  [ Batch.FileSelect [paper];
    Batch.ProcessFile;
    Batch.Response 0 (Batch.RUpload upload_two);
    Batch.Response 1 (Batch.RJob job_refused) ].

Definition doc_one (st : string) : Doc.Document :=
  {| Doc.doc_id := "d1"; Doc.filename := "paper.pdf"; Doc.total_pages := 10;
     Doc.batch_size := Some 10%Z; Doc.batches := [batch 1 10 st] |}.

(** Workbench: the Process button of the same pending batch is clicked
    twice before the list is refreshed, both dispatches are accepted, and
    the first job is then seen complete. *)
Definition workbench_double_click : list Workbench.event :=
  [ Workbench.DOMContentLoaded;
    Workbench.Response 0 (Workbench.RDocuments [doc_one "pending"]);
    Workbench.ClickProcess "d1" 0;
    Workbench.ClickProcess "d1" 0;
    Workbench.Response 1 (Workbench.RJob (job_ok "jobA"));
    Workbench.Response 2 (Workbench.RJob (job_ok "jobB"));
    Workbench.Tick 2;
    Workbench.Response 3 (Workbench.RStatus (job_status "complete" 10 10)) ].

(** Workbench: one batch dispatched and its status query in flight
    (request 2). *)
Definition workbench_polling : Workbench.State :=
  Workbench.run Workbench.init
    [ Workbench.DOMContentLoaded;
      Workbench.Response 0 (Workbench.RDocuments [doc_one "pending"]);
      Workbench.ClickProcess "d1" 0;
      Workbench.Response 1 (Workbench.RJob (job_ok "jobA"));
      Workbench.Tick 2 ].

(** Workbench: batch 0 dispatched, the list refreshed so that the cache
    shows it as processing, and a status query in flight (request 3). *)
Definition workbench_processing : Workbench.State :=
  Workbench.run Workbench.init
    [ Workbench.DOMContentLoaded;
      Workbench.Response 0 (Workbench.RDocuments [doc_one "pending"]);
      Workbench.ClickProcess "d1" 0;
      Workbench.Response 1 (Workbench.RJob (job_ok "jobA"));
      Workbench.Tick 1;
      Workbench.Response 2 (Workbench.RDocuments [doc_one "processing"]);
      Workbench.Tick 2 ].

(** A login answer with a session. *)
Definition login_ok : Auth.Login.t :=
  {| Auth.Login.success := true;
     Auth.Login.session_ :=
       Some {| Auth.Login.access_token := Some "tokA";
               Auth.Login.refresh_token := Some "tokR" |};
     Auth.Login.error := None |}.

Definition signup_ok : Auth.Signup.t :=
  {| Auth.Signup.success := true; Auth.Signup.message := None;
     Auth.Signup.error := None |}.

(** The sign-in page as loaded: login tab active, login form visible. *)
Definition auth_loaded : Auth.State :=
  Auth.init {["tabLogin"]} false true ∅.

Definition auth_tabs : gset string := {["tabLogin"; "tabSignup"]}.

(** The quick page with its preview modal, after the job of [quick_done]. *)
Definition quick_view_done : list QuickView.event :=
  [ QuickView.Page (Quick.FileSelect [paper]);
    QuickView.Page Quick.ProcessFile;
    QuickView.Page (Quick.Response 0 (Quick.RProcess (job_ok "jobA")));
    QuickView.Page (Quick.Tick 1);
    QuickView.Page
      (Quick.Response 1
         (Quick.RStatus
            {| Api.Status.status := "complete"; Api.Status.current_page := 10;
               Api.Status.total_pages := 10; Api.Status.message := "done";
               Api.Status.filename := Some "paper.md" |})) ].

(** A one-batch document. *)
Definition upload_one : Api.Upload.t :=
  {| Api.Upload.success := true; Api.Upload.doc_id := "d2";
     Api.Upload.filename := "notes.pdf"; Api.Upload.total_pages := 5;
     Api.Upload.batches := [batch 1 5 "pending"];
     Api.Upload.error := None |}.

(** Batch page: while the dispatch of batch 1 of "d1" is in flight
    (request 2), a second, one-batch document is uploaded and becomes the
    current document. *)
Definition batch_superseded : Batch.State :=
  Batch.run (Batch.init ∅)
    [ Batch.FileSelect [paper];
      Batch.ProcessFile;
      Batch.Response 0 (Batch.RUpload upload_two);
      Batch.Response 1 (Batch.RJob (job_ok "j0"));
      Batch.FileSelect [notes];
      Batch.ProcessFile;
      Batch.Response 3 (Batch.RUpload upload_one) ].

(** A second 20-page document, also split in two batches of 10. *)
Definition upload_two_b : Api.Upload.t :=
  {| Api.Upload.success := true; Api.Upload.doc_id := "d2";
     Api.Upload.filename := "notes.pdf"; Api.Upload.total_pages := 20;
     Api.Upload.batches := [batch 1 10 "pending"; batch 11 20 "pending"];
     Api.Upload.error := None |}.

(** Batch page: while the dispatch of batch 0 of "d1" is in flight
    (request 1), a second file is selected, which enables the Process
    button again, and uploaded (request 2); it becomes the current
    document "d2".  Every dispatch is then accepted, in the order the
    requests went out. *)
Definition batch_second_upload : list Batch.event :=
  [ Batch.FileSelect [paper];
    Batch.ProcessFile;
    Batch.Response 0 (Batch.RUpload upload_two);
    Batch.FileSelect [notes];
    Batch.ProcessFile;
    Batch.Response 2 (Batch.RUpload upload_two_b);
    Batch.Response 1 (Batch.RJob (job_ok "j0"));
    Batch.Response 3 (Batch.RJob (job_ok "k0"));
    Batch.Response 4 (Batch.RJob (job_ok "k1"));
    Batch.Response 5 (Batch.RJob (job_ok "k1b")) ].

(** The quick page after a job has been seen complete with result file
    "paper.md". *)
Definition quick_done : Quick.State :=
  Quick.run (Quick.init ∅)
    [ Quick.FileSelect [paper];
      Quick.ProcessFile;
      Quick.Response 0 (Quick.RProcess (job_ok "jobA"));
      Quick.Tick 1;
      Quick.Response 1
        (Quick.RStatus
           {| Api.Status.status := "complete"; Api.Status.current_page := 10;
              Api.Status.total_pages := 10; Api.Status.message := "done";
              Api.Status.filename := Some "paper.md" |}) ].

(** The quick page with one status query for job "j1" in flight. *)
Definition quick_polling : Quick.State :=
  Quick.pollStatus "j1" (Quick.init ∅).

End Scenario.

(** * Properties *)

(** ** Poll keys *)
Section PollKeys.
Import Js.

Lemma pretty_N_go_no_underscore (x : N) (s : string) :
  occurs "_" (pretty_N_go x s) = occurs "_" s.
Proof.
  revert s. induction (N.lt_wf_0 x) as [x _ IH]; intros s.
  destruct (decide (x = 0)%N) as [->|Hx].
  - by rewrite pretty_N_go_0.
  - rewrite pretty_N_go_step by lia.
    rewrite IH by (apply N.div_lt; lia).
    simpl. unfold pretty_N_char.
    by repeat case_match.
Qed.

Lemma pretty_nat_no_underscore (n : nat) : occurs "_" (pretty n) = false.
Proof.
  unfold pretty, pretty_nat, pretty, pretty_N.
  case_decide; [done|]. by rewrite pretty_N_go_no_underscore.
Qed.

Lemma occurs_app (c : ascii) (a b : string) :
  occurs c (a +:+ b) = occurs c a || occurs c b.
Proof.
  induction a as [|x a IH]; [done|].
  change (occurs c (String x a +:+ b))
    with (bool_decide (x = c) || occurs c (a +:+ b)).
  rewrite IH. simpl. by rewrite orb_assoc.
Qed.

(** Splitting at the last underscore is unambiguous. *)
Lemma underscore_split (d1 d2 t1 t2 : string) :
  occurs "_" t1 = false → occurs "_" t2 = false →
  d1 +:+ "_" +:+ t1 = d2 +:+ "_" +:+ t2 → d1 = d2 ∧ t1 = t2.
Proof.
  intros H1 H2. revert d2.
  induction d1 as [|c d1 IH]; intros [|c' d2]; intros Heq.
  - by injection Heq.
  - injection Heq as Hc Ht. change ("" +:+ t1) with t1 in Ht. subst t1.
    rewrite occurs_app in H1.
    change (occurs "_" ("_" +:+ t2)) with true in H1.
    by rewrite orb_true_r in H1.
  - injection Heq as Hc Ht. change ("" +:+ t2) with t2 in Ht. subst t2.
    rewrite occurs_app in H2.
    change (occurs "_" ("_" +:+ t1)) with true in H2.
    by rewrite orb_true_r in H2.
  - injection Heq as -> Heq. destruct (IH _ Heq) as [-> ->]. done.
Qed.

Lemma pollId_inj (d1 d2 : string) (i1 i2 : nat) :
  pollId d1 i1 = pollId d2 i2 → d1 = d2 ∧ i1 = i2.
Proof.
  unfold pollId. intros Heq.
  apply underscore_split in Heq as [-> Hp];
    [|apply pretty_nat_no_underscore..].
  split; [done|]. by apply (inj pretty).
Qed.

End PollKeys.

(** ** The quick-process page *)
Section QuickPage.
Import Js Quick.

Lemma quick_response_eq (s : State) (rid : nat) (k : cont) (r : response) :
  pending s !! rid = Some k →
  step s (Response rid r)
  = default s (resume k r (set_pending (delete rid (pending s)) s)).
Proof. intros Hk. simpl. by rewrite Hk. Qed.

(** C7: while the job is ['processing'], the width given to the progress
    bar is [(current_page / total_pages) * 100] percent, the quotient and
    the product taken in binary64 as the script takes them, of the two
    page counts of the status body (the whole document): nothing else of
    the body or of the page enters it.  The text beside the bar shows the
    same two counts, and polling goes on. *)
Theorem C7_whole_document_progress
    (s : State) (rid : nat) (j : string) (st : Api.Status.t)
    (Hk : pending s !! rid = Some (KStatus j))
    (Hst : Api.Status.status st = "processing") :
  let s' := step s (Response rid (RStatus st)) in
  dom s' !! ("progressBar", "style.width")
    = Some (VPct (PrimFloat.mul
                    (PrimFloat.div (js_number (Api.Status.current_page st))
                                   (js_number (Api.Status.total_pages st)))
                    (js_number 100)))
  ∧ dom s' !! ("pageStatus", "textContent")
    = Some (VStr ("Page " +:+ pretty (Api.Status.current_page st)
                  +:+ " of " +:+ pretty (Api.Status.total_pages st)))
  ∧ timers s' = timers s
  ∧ statusPollInterval s' = statusPollInterval s.
Proof.
  intros s'. subst s'. rewrite (quick_response_eq _ _ _ _ Hk). simpl.
  unfold pollStatus_body. rewrite decide_True by done. simpl.
  repeat split.
  - rewrite !lookup_insert_ne by done. by rewrite lookup_insert_eq.
  - by rewrite lookup_insert_eq.
Qed.

(** Page 29 of 100: the quotient 0.29 is not a binary64 value and the
    width is the number JavaScript prints as 28.999999999999996. *)
Lemma C7_whole_document_progress_witness :
  Quick.dom (Quick.step Scenario.quick_polling
               (Response 0 (RStatus (Scenario.job_status "processing" 29 100))))
    !! ("progressBar", "style.width")
  = Some (VPct 0x1.cffffffffffffp+4%float).
Proof.
  destruct (C7_whole_document_progress Scenario.quick_polling 0 "j1"
              (Scenario.job_status "processing" 29 100) eq_refl eq_refl)
    as (Hw & _).
  rewrite Hw. vm_compute. reflexivity.
Defined.

(** The width on some status bodies: a quarter and the last page are
    exact, a third is rounded, and a body without pages gives [NaN] or an
    infinity. *)
Example progress64_values :
  progress64 (Scenario.job_status "processing" 3 12) = 25%float
  ∧ progress64 (Scenario.job_status "processing" 12 12) = 100%float
  ∧ progress64 (Scenario.job_status "processing" 0 12) = 0%float
  ∧ progress64 (Scenario.job_status "processing" 1 3)
    = 0x1.0aaaaaaaaaaaap+5%float
  ∧ progress64 (Scenario.job_status "processing" 0 0) = nan
  ∧ progress64 (Scenario.job_status "processing" 5 0) = infinity.
Proof. vm_compute. repeat split; reflexivity. Qed.

(** *** File selection *)

Lemma is_pdf_true (f : File) : is_pdf f = true → file_type f = PDF.
Proof. unfold is_pdf. apply bool_decide_eq_true. Qed.

Lemma is_pdf_false (f : File) : file_type f ≠ PDF → is_pdf f = false.
Proof. unfold is_pdf. apply bool_decide_eq_false. Qed.

Lemma quick_handleFileSelect_reject (files : list File) (s : State) :
  (∀ f, head files = Some f → file_type f ≠ PDF) →
  handleFileSelect files s = s.
Proof.
  intros Hnp. unfold handleFileSelect. rewrite <-head_lookup.
  destruct (head files) as [f|] eqn:Hf; [|done].
  by rewrite (is_pdf_false f (Hnp f eq_refl)).
Qed.

Lemma quick_handleDrop_reject (files : list File) (s : State) :
  (∀ f, head files = Some f → file_type f ≠ PDF) →
  handleDrop files s = handleDragLeave s.
Proof.
  intros Hnp. unfold handleDrop. destruct files as [|f files]; [done|].
  by rewrite (is_pdf_false f (Hnp f eq_refl)).
Qed.

Lemma quick_pdf_only_init d : pdf_only (init d).
Proof. split; simpl; [done|]. intros ?? H. by apply elem_of_nil in H. Qed.

Lemma quick_pdf_only_step (s : State) (e : event) :
  pdf_only s → pdf_only (step s e).
Proof.
  intros Hinv. pose proof Hinv as [Hsel Htr].
  destruct e as [files| | |files| |h|rid r]; simpl.
  - unfold handleFileSelect. destruct (files !! 0) as [f|]; [|done].
    destruct (is_pdf f) eqn:Hp; [|done]. split; simpl; [|done].
    intros ? [= <-]. by apply is_pdf_true.
  - done.
  - done.
  - unfold handleDrop. destruct files as [|f files]; [by split|].
    destruct (is_pdf f) eqn:Hp; [|by split]. split; simpl; [|done].
    intros ? [= <-]. by apply is_pdf_true.
  - unfold processFile. destruct (selectedFile s) as [f|] eqn:Hf; [|done].
    split; simpl; [by rewrite Hf|].
    intros rid f' [H|H%list_elem_of_singleton]%elem_of_app; [by eauto|].
    injection H as _ ->. by apply Hsel.
  - destruct (timers s !! h); [|done]. split; simpl; [done|].
    intros rid f' [H|H%list_elem_of_singleton]%elem_of_app; [by eauto|done].
  - destruct (pending s !! rid) as [k|]; [|done].
    destruct k, r as [res|st|]; simpl; try done.
    + unfold processFile_body.
      destruct (Api.Job.success res), (truthy (Api.Job.job_id res)); done.
    + unfold pollStatus_body. repeat case_decide; done.
    + split; simpl; [done|].
      intros ?? [H|H%list_elem_of_singleton]%elem_of_app; [by eauto|done].
Qed.

Lemma quick_reachable_pdf_only (s : State) : reachable s → pdf_only s.
Proof.
  intros (d & es & ->). induction es as [|e es IH] using rev_ind.
  - apply quick_pdf_only_init.
  - unfold run. rewrite foldl_app. simpl. by apply quick_pdf_only_step.
Qed.

(** *** Polling *)

Lemma quick_tick_live (s : State) (h : nat) (t : timer string) :
  timers s !! h = Some t →
  step s (Tick h) = pollStatus (callback t) s.
Proof. intros Ht. simpl. by rewrite Ht. Qed.

Lemma quick_tick_dead (s : State) (h : nat) :
  timers s !! h = None → step s (Tick h) = s.
Proof. intros Ht. simpl. by rewrite Ht. Qed.

Lemma quick_poll_failure (s : State) (rid : nat) (j : string) :
  pending s !! rid = Some (KStatus j) →
  step s (Response rid RThrow)
  = log ConsoleError (set_pending (delete rid (pending s)) s).
Proof. intros Hk. by rewrite (quick_response_eq _ _ _ _ Hk). Qed.

(** A live timer disappears only in the step that reads a terminal status
    out of a status body. *)
Lemma quick_stop_only_terminal (s : State) (e : event) (h : nat) :
  is_Some (timers s !! h) → timers (step s e) !! h = None →
  ∃ rid st j, e = Response rid (RStatus st)
              ∧ pending s !! rid = Some (KStatus j)
              ∧ terminal (Api.Status.status st).
Proof.
  intros [t Ht] Hgone.
  destruct e as [files| | |files| |h'|rid r]; simpl in Hgone.
  - unfold handleFileSelect in Hgone. repeat case_match; simpl in *; congruence.
  - congruence.
  - congruence.
  - unfold handleDrop in Hgone. repeat case_match; simpl in *; congruence.
  - unfold processFile in Hgone. repeat case_match; simpl in *; congruence.
  - repeat case_match; simpl in *; congruence.
  - destruct (pending s !! rid) as [k|] eqn:Hk; [|congruence].
    destruct k as [|j], r as [res|st|]; simpl in Hgone; try congruence.
    + unfold processFile_body in Hgone.
      destruct (Api.Job.success res), (truthy (Api.Job.job_id res));
        simpl in Hgone; try congruence.
      destruct (decide (next_handle s = h)) as [Heq|Hne].
      * subst h. by rewrite lookup_insert_eq in Hgone.
      * rewrite lookup_insert_ne in Hgone by done. congruence.
    + exists rid, st, j. split; [done|]. split; [done|].
      unfold pollStatus_body, terminal in *.
      repeat case_decide; simpl in Hgone; try congruence; auto.
Qed.

(** When the slot still holds the handle of the polling timer, the first
    terminal status read clears that timer. *)
Lemma quick_stop_when_slot_kept (s : State) (rid h : nat) (j : string)
    (st : Api.Status.t) :
  pending s !! rid = Some (KStatus j) →
  statusPollInterval s = Some h →
  terminal (Api.Status.status st) →
  timers (step s (Response rid (RStatus st))) = delete h (timers s).
Proof.
  intros Hk Hslot Hterm. rewrite (quick_response_eq _ _ _ _ Hk). simpl.
  unfold pollStatus_body. destruct Hterm as [Hc|He].
  - rewrite decide_False by (rewrite Hc; discriminate).
    rewrite decide_True by done. simpl. by rewrite Hslot.
  - rewrite decide_False by (rewrite He; discriminate).
    rewrite decide_False by (rewrite He; discriminate).
    rewrite decide_True by done. simpl. by rewrite Hslot.
Qed.

(** A timer whose handle is not the one in the slot survives every status
    answer, terminal or not. *)
Lemma quick_unslotted_timer_survives (s : State) (rid h : nat) (j : string)
    (st : Api.Status.t) (t : timer string) :
  pending s !! rid = Some (KStatus j) →
  timers s !! h = Some t →
  statusPollInterval s ≠ Some h →
  timers (step s (Response rid (RStatus st))) !! h = Some t.
Proof.
  intros Hk Ht Hslot. rewrite (quick_response_eq _ _ _ _ Hk). simpl.
  unfold pollStatus_body.
  repeat case_decide; simpl; try done;
    (destruct (statusPollInterval s) as [h'|]; simpl; [|done];
     rewrite lookup_delete_ne by congruence; done).
Qed.

(** Every timer of the page is a status poll with a period of 500 ms. *)
Lemma quick_timers_500 (s : State) (h : nat) (t : timer string) :
  reachable s → timers s !! h = Some t → delay t = 500.
Proof.
  intros (d & es & ->). revert h t.
  induction es as [|e es IH] using rev_ind; intros h t.
  - simpl. by rewrite lookup_empty.
  - unfold run. rewrite foldl_app. simpl. fold (run (init d) es).
    set (s := run (init d) es) in *. clearbody s.
    destruct e as [files| | |files| |h'|rid r]; simpl.
    + unfold handleFileSelect. repeat case_match; simpl; eauto.
    + eauto.
    + eauto.
    + unfold handleDrop. repeat case_match; simpl; eauto.
    + unfold processFile. repeat case_match; simpl; eauto.
    + repeat case_match; simpl; eauto.
    + destruct (pending s !! rid) as [k|]; [|by eauto].
      destruct k as [|j], r as [res|st|]; simpl; eauto.
      * unfold processFile_body.
        destruct (Api.Job.success res), (truthy (Api.Job.job_id res));
          simpl; eauto.
        intros [[_ <-]|[_ ?]]%lookup_insert_Some; [done|eauto].
      * unfold pollStatus_body. repeat case_decide; simpl; eauto;
          destruct (statusPollInterval s); simpl; eauto;
          intros [_ ?]%lookup_delete_Some; eauto.
Qed.

End QuickPage.

(** ** The batch page *)
Section BatchPage.
Import Js Batch.

Lemma batch_response_eq (s : State) (rid : nat) (k : cont) (r : response) :
  pending s !! rid = Some k →
  step s (Response rid r)
  = default s (resume k r (set_pending (delete rid (pending s)) s)).
Proof. intros Hk. simpl. by rewrite Hk. Qed.


Lemma batch_docs_response (s : State) (rid : nat) (p : Poll)
    (docs : list Doc.Document) :
  pending s !! rid = Some (KDocuments p) →
  step s (Response rid (RDocuments docs))
  = refresh_body p docs (set_pending (delete rid (pending s)) s).
Proof. intros Hk. by rewrite (batch_response_eq _ _ _ _ Hk). Qed.

(** *** What each piece of a handler leaves alone *)

Lemma set_status_Some (i : nat) (st : string) (s s' : State) :
  set_status i st s = Some s' →
  ∃ d b, currentDocument s = Some d ∧ Doc.batches d !! i = Some b
         ∧ s' = set_currentDocument
                  (Some (Doc.with_batches
                           (<[i := Doc.with_status st b]> (Doc.batches d)) d)) s.
Proof.
  unfold set_status. destruct (currentDocument s) as [d|]; [|done].
  destruct (Doc.batches d !! i) as [b|] eqn:Hb; [|done].
  intros [= <-]. by exists d, b.
Qed.

Lemma status_at_set_status (i j : nat) (st : string) (s s' : State) :
  set_status j st s = Some s' →
  status_at i s' = if decide (i = j) then Some st else status_at i s.
Proof.
  intros (d & b & Hd & Hb & ->)%set_status_Some.
  unfold status_at. rewrite Hd. simpl. case_decide as Hij.
  - subst i. rewrite list_lookup_insert_eq; [done|].
    by eapply lookup_lt_Some.
  - by rewrite list_lookup_insert_ne.
Qed.

Lemma renderBatchProgress_frame (s : State) :
  let s' := renderBatchProgress s in
  selectedFile s' = selectedFile s ∧ currentDocument s' = currentDocument s
  ∧ pollIntervals s' = pollIntervals s ∧ timers s' = timers s
  ∧ next_handle s' = next_handle s ∧ pending s' = pending s
  ∧ next_req s' = next_req s ∧ trace s' = trace s.
Proof.
  unfold renderBatchProgress.
  destruct (currentDocument s) eqn:E; simpl; rewrite ?E; done.
Qed.

Lemma loop_from_cases (k : nat) (s : State) :
  loop_from k s = s
  ∨ ∃ d j, currentDocument s = Some d
           ∧ find_pending (drop k (Doc.batches d)) k = Some j
           ∧ loop_from k s = processBatch (Doc.doc_id d) j s.
Proof.
  unfold loop_from. destruct (currentDocument s) as [d|]; [|by left].
  destruct (find_pending _ _) as [j|] eqn:Hj; [|by left].
  right. by exists d, j.
Qed.

Lemma loop_from_frame (k : nat) (s : State) :
  let s' := loop_from k s in
  selectedFile s' = selectedFile s ∧ currentDocument s' = currentDocument s
  ∧ pollIntervals s' = pollIntervals s ∧ timers s' = timers s
  ∧ next_handle s' = next_handle s ∧ dom s' = dom s.
Proof.
  destruct (loop_from_cases k s) as [->|(d & j & _ & _ & ->)]; done.
Qed.

Lemma find_pending_Some (bs : list Doc.Batch) (k j : nat) :
  find_pending bs k = Some j →
  (k ≤ j)%nat
  ∧ (∃ b, bs !! (j - k) = Some b ∧ Doc.status b = "pending")
  ∧ ∀ m b, (m < j - k)%nat → bs !! m = Some b → Doc.status b ≠ "pending".
Proof.
  revert k. induction bs as [|b bs IH]; intros k; simpl; [done|].
  case_decide as Hb.
  - intros [= <-]. rewrite Nat.sub_diag. split; [lia|].
    split; [by exists b|]. intros; lia.
  - intros (Hle & (b' & Hb' & Hp) & Hbefore)%IH.
    split; [lia|]. replace (j - k) with (S (j - S k)) by lia.
    split; [by exists b'|].
    intros [|m] b''; simpl; [by intros _ [= <-]|].
    intros Hm. apply Hbefore. lia.
Qed.

Lemma find_pending_None (bs : list Doc.Batch) (k : nat) :
  find_pending bs k = None → ∀ b, b ∈ bs → Doc.status b ≠ "pending".
Proof.
  revert k. induction bs as [|b bs IH]; intros k; simpl.
  - intros _ b Hb. by apply elem_of_nil in Hb.
  - case_decide as Hb; [done|]. intros Hn b' [->|Hin]%elem_of_cons; eauto.
Qed.

(** *** File selection *)

Lemma batch_handleFileSelect_reject (files : list File) (s : State) :
  (∀ f, head files = Some f → file_type f ≠ PDF) →
  handleFileSelect files s = s.
Proof.
  intros Hnp. unfold handleFileSelect. rewrite <-head_lookup.
  destruct (head files) as [f|] eqn:Hf; [|done].
  by rewrite (is_pdf_false f (Hnp f eq_refl)).
Qed.

Lemma batch_handleDrop_reject (files : list File) (s : State) :
  (∀ f, head files = Some f → file_type f ≠ PDF) →
  handleDrop files s = handleDragLeave s.
Proof.
  intros Hnp. unfold handleDrop. destruct files as [|f files]; [done|].
  by rewrite (is_pdf_false f (Hnp f eq_refl)).
Qed.

Lemma uploads_snoc_other (tr : list action) (a : action) :
  (∀ rid f bs m, a ≠ Fetch rid (ReqUpload f bs m)) →
  uploads (tr ++ [a]) = uploads tr.
Proof.
  intros Ha. unfold uploads. rewrite omap_app. simpl.
  destruct a as [rid [f bs m| | |]| |]; simpl; rewrite ?app_nil_r; try done.
  by destruct (Ha rid f bs m).
Qed.

Lemma loop_from_files (k : nat) (s : State) :
  selectedFile (loop_from k s) = selectedFile s
  ∧ uploads (trace (loop_from k s)) = uploads (trace s).
Proof.
  destruct (loop_from_cases k s) as [->|(d & j & _ & _ & ->)]; [done|].
  split; [done|]. simpl. by apply uploads_snoc_other.
Qed.

Lemma set_status_files (i : nat) (st : string) (s s' : State) :
  set_status i st s = Some s' →
  selectedFile s' = selectedFile s ∧ trace s' = trace s.
Proof. by intros (d & b & _ & _ & ->)%set_status_Some. Qed.

Lemma render_files (s : State) :
  selectedFile (renderBatchProgress s) = selectedFile s
  ∧ trace (renderBatchProgress s) = trace s.
Proof.
  by destruct (renderBatchProgress_frame s) as (H1 & _ & _ & _ & _ & _ & _ & H8).
Qed.

Lemma processBatch_body_files (d : string) (i : nat) (r : option Api.Job.t)
    (s : State) :
  selectedFile (processBatch_body d i r s).1 = selectedFile s
  ∧ trace (processBatch_body d i r s).1 = trace s.
Proof.
  assert (Hcatch : selectedFile (processBatch_catch i s).1 = selectedFile s
                   ∧ trace (processBatch_catch i s).1 = trace s).
  { unfold processBatch_catch.
    destruct (set_status i "error" s) as [s1|] eqn:H1; simpl; [|done].
    destruct (set_status_files _ _ _ _ H1) as [<- <-]. apply render_files. }
  unfold processBatch_body. destruct r as [res|]; [|done].
  destruct (Api.Job.success res).
  - destruct (set_status i "processing" s) as [s1|] eqn:H1; [|done]. simpl.
    destruct (set_status_files _ _ _ _ H1) as [<- <-]. apply render_files.
  - destruct (set_status i "error" s) as [s1|] eqn:H1; [|done]. simpl.
    destruct (set_status_files _ _ _ _ H1) as [<- <-]. apply render_files.
Qed.

Lemma processBatch_resume_files (d : string) (i : nat) (r : option Api.Job.t)
    (s : State) :
  selectedFile (processBatch_resume d i r s) = selectedFile s
  ∧ uploads (trace (processBatch_resume d i r s)) = uploads (trace s).
Proof.
  unfold processBatch_resume.
  pose proof (processBatch_body_files d i r s) as [Hs Ht].
  destruct (processBatch_body d i r s) as [s1 [|]]; simpl in *.
  - destruct (loop_from_files (S i) s1) as [-> ->]. by rewrite Hs, Ht.
  - by rewrite Hs, Ht.
Qed.

Lemma resume_files (k : cont) (r : response) (s s' : State) :
  resume k r s = Some s' →
  selectedFile s' = selectedFile s ∧ uploads (trace s') = uploads (trace s).
Proof.
  destruct k as [|d i|p|p], r as [res|res|st|docs|]; simpl; try done;
    intros [= <-].
  - unfold processFile_body. destruct (Api.Upload.success res); [|done].
    unfold processAllBatches.
    set (s1 := renderBatchProgress _).
    assert (selectedFile s1 = selectedFile s ∧ trace s1 = trace s) as [H1 H2].
    { subst s1. by destruct (render_files (set_currentDocument
        (Some {| Doc.doc_id := Api.Upload.doc_id res;
                 Doc.filename := Api.Upload.filename res;
                 Doc.total_pages := Api.Upload.total_pages res;
                 Doc.batch_size := None;
                 Doc.batches := Api.Upload.batches res |}) s)). }
    destruct (currentDocument s1); [|by rewrite H1, H2].
    destruct (loop_from_files 0 s1) as [-> ->]. by rewrite H1, H2.
  - done.
  - apply processBatch_resume_files.
  - apply processBatch_resume_files.
  - unfold poll_body. repeat case_decide; simpl; [| |done].
    + split; [done|]. by apply uploads_snoc_other.
    + destruct (set_status _ _ _) as [s1|] eqn:H1.
      * destruct (set_status_files _ _ _ _ H1) as [Ha Hb].
        destruct (render_files s1) as [Hc Hd]. simpl in *.
        split; [congruence|]. by rewrite Hd, Hb.
      * split; [done|]. by apply uploads_snoc_other.
  - split; [done|]. by apply uploads_snoc_other.
  - unfold refresh_body. destruct (Doc.find_doc _ _) as [u|]; [|done].
    set (s1 := renderBatchProgress _).
    assert (selectedFile s1 = selectedFile s ∧ trace s1 = trace s) as [H1 H2].
    { subst s1. by destruct (render_files (set_currentDocument (Some u) s)). }
    clearbody s1.
    destruct (Doc.all_completed _); simpl; [|by rewrite H1, H2].
    split; [done|]. rewrite H2. by apply uploads_snoc_other.
  - split; [done|]. by apply uploads_snoc_other.
Qed.

Lemma batch_pdf_only_init d : pdf_only (init d).
Proof. split; simpl; [done|]. constructor. Qed.

Lemma batch_pdf_only_step (s : State) (e : event) :
  pdf_only s → pdf_only (step s e).
Proof.
  intros Hinv. pose proof Hinv as [Hsel Htr].
  destruct e as [files| | |files|el v| |h|rid r]; simpl.
  - unfold handleFileSelect. destruct (files !! 0) as [f|]; [|done].
    destruct (is_pdf f) eqn:Hp; [|done]. split; simpl; [|done].
    intros ? [= <-]. by apply is_pdf_true.
  - done.
  - done.
  - unfold handleDrop. destruct files as [|f files]; [by split|].
    destruct (is_pdf f) eqn:Hp; [|by split]. split; simpl; [|done].
    intros ? [= <-]. by apply is_pdf_true.
  - done.
  - unfold processFile. destruct (selectedFile s) as [f|] eqn:Hf; [|done].
    split; simpl; [by rewrite Hf|].
    unfold uploads. rewrite omap_app. simpl. apply Forall_app. split; [done|].
    constructor; [|constructor]. by apply Hsel.
  - destruct (timers s !! h); [|done]. split; simpl; [done|].
    by rewrite uploads_snoc_other.
  - destruct (pending s !! rid) as [k|]; [|done].
    destruct (resume k r _) as [s'|] eqn:Hr; [|done]. simpl.
    apply resume_files in Hr as [Hs Ht]. simpl in *.
    split; [by rewrite Hs|by rewrite Ht].
Qed.

Lemma batch_reachable_pdf_only (s : State) : reachable s → pdf_only s.
Proof.
  intros (d & es & ->). induction es as [|e es IH] using rev_ind.
  - apply batch_pdf_only_init.
  - unfold run. rewrite foldl_app. simpl. by apply batch_pdf_only_step.
Qed.

(** *** Reconciliation after a job ends *)

Lemma all_completed_Forall (bs : list Doc.Batch) :
  Doc.all_completed bs = true
  ↔ Forall (λ b, Doc.status b = "completed") bs.
Proof.
  unfold Doc.all_completed. induction bs as [|b bs IH]; simpl.
  - split; [constructor|done].
  - rewrite andb_true_iff, Forall_cons, IH, bool_decide_eq_true. done.
Qed.

Lemma find_doc_Some (id : string) (docs : list Doc.Document) (u : Doc.Document) :
  Doc.find_doc id docs = Some u → Doc.doc_id u = id ∧ u ∈ docs.
Proof.
  unfold Doc.find_doc.
  destruct (list_find _ docs) as [[i x]|] eqn:Hf; simpl; [|done].
  intros [= <-]. apply list_find_Some in Hf as (Hl & Hid & _).
  split; [done|]. by eapply list_elem_of_lookup_2.
Qed.

Lemma snoc_ne {A} (l : list A) (x : A) : l ++ [x] ≠ l.
Proof.
  intros H. apply (f_equal length) in H. rewrite length_app in H.
  simpl in H. lia.
Qed.

(** C3: when the refreshed document list contains the document, it
    becomes the current document, and that step shows the completion
    message and re-enables the process button exactly when every batch
    of it has status ['completed']. *)
Theorem C3_completion_iff_all_completed
    (s : State) (rid : nat) (p : Poll) (docs : list Doc.Document)
    (u : Doc.Document)
    (Hk : pending s !! rid = Some (KDocuments p))
    (Hu : Doc.find_doc (docId p) docs = Some u) :
  let s' := step s (Response rid (RDocuments docs)) in
  let done_ := Forall (λ b, Doc.status b = "completed") (Doc.batches u) in
  currentDocument s' = Some u
  ∧ (trace s' = trace s ++ [ShowCompletion] ↔ done_)
  ∧ (trace s' = trace s ∨ trace s' = trace s ++ [ShowCompletion])
  ∧ (done_ →
     dom s' !! ("processBtn", "disabled") = Some (VBool false)
     ∧ dom s' !! ("statusSuccess", "style.display") = Some (VStr "flex")
     ∧ dom s' !! ("statusSuccess.span", "innerHTML") = Some (VHtml HCompletion))
  ∧ (¬ done_ →
     dom s' !! ("processBtn", "disabled") = dom s !! ("processBtn", "disabled")
     ∧ dom s' !! ("statusSuccess", "style.display")
       = dom s !! ("statusSuccess", "style.display")
     ∧ dom s' !! ("statusSuccess.span", "innerHTML")
       = dom s !! ("statusSuccess.span", "innerHTML")).
Proof.
  intros s' done_. subst s' done_.
  rewrite (batch_response_eq _ _ _ _ Hk). simpl.
  unfold refresh_body. rewrite Hu. unfold renderBatchProgress. simpl.
  destruct (Doc.all_completed (Doc.batches u)) eqn:Hall; simpl.
  - apply all_completed_Forall in Hall.
    split; [done|]. split; [done|]. split; [by right|].
    split; [|done]. intros _.
    rewrite !lookup_insert_ne by done. rewrite lookup_insert_eq.
    rewrite (lookup_insert_ne _ ("statusSuccess.span", "innerHTML")) by done.
    rewrite !lookup_insert_eq. done.
  - assert (Hn : ¬ Forall (λ b, Doc.status b = "completed") (Doc.batches u)).
    { intros H%all_completed_Forall. congruence. }
    split; [done|]. split.
    { split; [|done]. intros H. symmetry in H. by apply snoc_ne in H. }
    split; [by left|]. split; [done|]. intros _.
    by rewrite !lookup_insert_ne by done.
Qed.

Lemma C3_completion_iff_all_completed_witness :
  let docs := [ {| Doc.doc_id := "d1"; Doc.filename := "paper.pdf";
                   Doc.total_pages := 20; Doc.batch_size := Some 10%Z;
                   Doc.batches := [Scenario.batch 1 10 "completed";
                                   Scenario.batch 11 20 "completed"] |} ] in
  let s := step Scenario.batch_two_polling
             (Response 3 (RStatus (Scenario.job_status "complete" 10 10))) in
  trace (step s (Response 4 (RDocuments docs))) = trace s ++ [ShowCompletion].
Proof.
  intros docs s.
  pose proof (C3_completion_iff_all_completed s 4
                {| docId := "d1"; batchIndex := 0; jobId := Some "j0" |}
                docs _ eq_refl eq_refl) as (_ & Hiff & _).
  apply Hiff. repeat constructor.
Defined.

(** When the refreshed list does not contain the document, or the refresh
    fails, nothing is installed and nothing is shown. *)
Lemma refresh_not_found (s : State) (rid : nat) (p : Poll)
    (docs : list Doc.Document) :
  pending s !! rid = Some (KDocuments p) →
  Doc.find_doc (docId p) docs = None →
  step s (Response rid (RDocuments docs))
  = set_pending (delete rid (pending s)) s.
Proof.
  intros Hk Hnone. rewrite (batch_docs_response _ _ _ _ Hk).
  unfold refresh_body. by rewrite Hnone.
Qed.

(** *** A job that ends in error *)

Lemma poll_body_error (p : Poll) (st : Api.Status.t) (s : State) :
  Api.Status.status st = "error" →
  poll_body p st s
  = let s1 := set_timers (clearInterval (pollIntervals s !! key p) (timers s)) s in
    match set_status (batchIndex p) "error" s1 with
    | Some s2 => renderBatchProgress s2
    | None => log ConsoleError s1
    end.
Proof.
  intros Hst. unfold poll_body.
  rewrite decide_False by (rewrite Hst; discriminate).
  by rewrite decide_True.
Qed.


(** The frame of the error branch: when a status body says ['error'],
    the step rewrites nothing of the current document but the status of
    the batch at the job's index, which becomes ['error']; every other
    batch and every other field of that batch stay as they were, the key
    map is untouched, and the one timer cleared is the one stored under
    the job's key.  Whether the current document is the job's, and whether
    the stored handle is the job's own timer, is another matter. *)
Lemma batch_error_write_frame
    (s : State) (rid : nat) (p : Poll) (st : Api.Status.t) (d : Doc.Document)
    (Hk : pending s !! rid = Some (KStatus p))
    (Hst : Api.Status.status st = "error")
    (Hd : currentDocument s = Some d) :
  let s' := step s (Response rid (RStatus st)) in
  (∃ d', currentDocument s' = Some d'
     ∧ Doc.doc_id d' = Doc.doc_id d ∧ Doc.filename d' = Doc.filename d
     ∧ Doc.total_pages d' = Doc.total_pages d
     ∧ Doc.batch_size d' = Doc.batch_size d
     ∧ length (Doc.batches d') = length (Doc.batches d)
     ∧ (∀ j, j ≠ batchIndex p → Doc.batches d' !! j = Doc.batches d !! j)
     ∧ (∀ b, Doc.batches d !! batchIndex p = Some b →
          ∃ b', Doc.batches d' !! batchIndex p = Some b'
                ∧ Doc.status b' = "error"
                ∧ Doc.start b' = Doc.start b ∧ Doc.end_ b' = Doc.end_ b
                ∧ Doc.job_id b' = Doc.job_id b
                ∧ Doc.result_file b' = Doc.result_file b))
  ∧ pollIntervals s' = pollIntervals s
  ∧ timers s' = clearInterval (pollIntervals s !! key p) (timers s)
  ∧ (∀ h, pollIntervals s !! key p ≠ Some h → timers s' !! h = timers s !! h)
  ∧ selectedFile s' = selectedFile s.
Proof.
  intros s'. subst s'. rewrite (batch_response_eq _ _ _ _ Hk). simpl.
  rewrite poll_body_error by done. simpl.
  unfold set_status. simpl. rewrite Hd.
  assert (Hframe : ∀ h, pollIntervals s !! key p ≠ Some h →
            clearInterval (pollIntervals s !! key p) (timers s) !! h
            = timers s !! h).
  { intros h Hh. destruct (pollIntervals s !! key p) as [h'|]; simpl; [|done].
    apply lookup_delete_ne. congruence. }
  destruct (Doc.batches d !! batchIndex p) as [b|] eqn:Hb.
  - unfold renderBatchProgress. simpl.
    split; [|done].
    eexists. split; [done|]. simpl. do 4 (split; [done|]).
    split; [by rewrite length_insert|].
    split; [by intros j Hj; rewrite list_lookup_insert_ne|].
    intros ? [= <-]. eexists.
    split; [apply list_lookup_insert_eq; by eapply lookup_lt_Some|done].
  - simpl. split; [|done]. exists d. by repeat split.
Qed.

Lemma batch_error_write_frame_example :
  let s' := step Scenario.batch_two_polling
              (Response 3 (RStatus (Scenario.job_status "error" 4 10))) in
  pollIntervals s' = pollIntervals Scenario.batch_two_polling
  ∧ (∀ h, pollIntervals Scenario.batch_two_polling
            !! key {| docId := "d1"; batchIndex := 0; jobId := Some "j0" |}
          ≠ Some h →
          timers s' !! h = timers Scenario.batch_two_polling !! h).
Proof.
  assert (Hk : pending Scenario.batch_two_polling !! 3
               = Some (KStatus {| docId := "d1"; batchIndex := 0;
                                  jobId := Some "j0" |})).
  { vm_compute. reflexivity. }
  assert (Hd : currentDocument Scenario.batch_two_polling
               = Some {| Doc.doc_id := "d1"; Doc.filename := "paper.pdf";
                         Doc.total_pages := 20; Doc.batch_size := None;
                         Doc.batches := [Scenario.batch 1 10 "processing";
                                         Scenario.batch 11 20 "processing"] |}).
  { vm_compute. reflexivity. }
  destruct (batch_error_write_frame _ _ _ (Scenario.job_status "error" 4 10) _
              Hk eq_refl Hd) as (_ & Hkeys & _ & Hothers & _).
  exact (conj Hkeys Hothers).
Defined.

(** The same step evaluated: batch 0 is marked, batch 1 is not, and only
    timer 1 is gone. *)
Example batch_error_step :
  let s' := step Scenario.batch_two_polling
              (Response 3 (RStatus (Scenario.job_status "error" 4 10))) in
  status_at 0 s' = Some "error" ∧ status_at 1 s' = Some "processing"
  ∧ timers s' !! 1 = None
  ∧ timers s' !! 2
    = Some (Timer {| docId := "d1"; batchIndex := 1; jobId := Some "j1" |} 500).
Proof. vm_compute. done. Qed.

(** *** Status writes made by the page *)

Lemma status_at_frame (s s' : State) (i : nat) :
  currentDocument s' = currentDocument s → status_at i s' = status_at i s.
Proof. unfold status_at. by intros ->. Qed.

Lemma processBatch_body_status (d : string) (j : nat) (r : option Api.Job.t)
    (s : State) (i : nat) :
  status_at i (processBatch_body d j r s).1 = status_at i s
  ∨ (i = j ∧ is_Some (status_at i s)
     ∧ status_at i (processBatch_body d j r s).1
       = Some (match r with
               | Some res => if Api.Job.success res then "processing" else "error"
               | None => "error"
               end)).
Proof.
  assert (Hset : ∀ st s1, set_status j st s = Some s1 →
            status_at i (renderBatchProgress s1) = status_at i s
            ∨ (i = j ∧ is_Some (status_at i s)
               ∧ status_at i (renderBatchProgress s1) = Some st)).
  { intros st s1 H1.
    rewrite (status_at_frame _ (renderBatchProgress s1))
      by apply renderBatchProgress_frame.
    rewrite (status_at_set_status _ _ _ _ _ H1). case_decide; [|by left].
    right. subst i. split; [done|]. split; [|done].
    apply set_status_Some in H1 as (d0 & b & Hd0 & Hb & _).
    unfold status_at. rewrite Hd0. simpl. rewrite Hb. by eexists. }
  assert (Hcatch : status_at i (processBatch_catch j s).1 = status_at i s
                   ∨ (i = j ∧ is_Some (status_at i s)
                      ∧ status_at i (processBatch_catch j s).1 = Some "error")).
  { unfold processBatch_catch.
    destruct (set_status j "error" s) as [s1|] eqn:H1; simpl; [eauto|by left]. }
  unfold processBatch_body. destruct r as [res|]; [|done].
  destruct (Api.Job.success res).
  - destruct (set_status j "processing" s) as [s1|] eqn:H1.
    + simpl. rewrite (status_at_frame (renderBatchProgress s1)) by done. eauto.
    + unfold processBatch_catch.
      apply (f_equal (λ o, match o with Some _ => true | None => false end)) in H1.
      unfold set_status in *. destruct (currentDocument s) as [d0|]; [|by left].
      destruct (Doc.batches d0 !! j); [done|by left].
  - destruct (set_status j "error" s) as [s1|] eqn:H1; [simpl; eauto|done].
Qed.

Lemma processBatch_resume_status (d : string) (j : nat) (r : option Api.Job.t)
    (s : State) (i : nat) :
  status_at i (processBatch_resume d j r s)
  = status_at i (processBatch_body d j r s).1.
Proof.
  unfold processBatch_resume.
  destruct (processBatch_body d j r s) as [s1 [|]]; simpl; [|done].
  apply status_at_frame, loop_from_frame.
Qed.

Lemma processFile_body_failure_doc (res : Api.Upload.t) (s : State) :
  Api.Upload.success res = false →
  currentDocument (processFile_body res s) = currentDocument s.
Proof. intros H. unfold processFile_body. by rewrite H. Qed.

(** C2 (as the page implements it): a step that changes the status of
    the batch at index [i] of the current document either installs a
    document supplied by the server (answer to the upload, or to the
    refresh of the document list), or is one of the page's own writes:
    ['processing'] when the dispatch of batch [i] is accepted, ['error']
    when that dispatch is refused or fails, ['error'] when a status body
    for a job of index [i] says ['error'].  The page never writes
    ['pending'] or ['completed'].  A refused or failed dispatch takes the
    batch from ['pending'] to ['error'] in one step. *)
Theorem C2_client_status_writes :
  (∀ (s : State) (e : event) (i : nat) (st st' : string),
     status_at i s = Some st →
     status_at i (step s e) = Some st' →
     st' ≠ st →
     (∃ rid res, e = Response rid (RUpload res)
                 ∧ pending s !! rid = Some KUpload)
     ∨ (∃ rid p docs, e = Response rid (RDocuments docs)
                      ∧ pending s !! rid = Some (KDocuments p))
     ∨ (st' = "processing"
        ∧ ∃ rid d res, e = Response rid (RJob res)
                       ∧ Api.Job.success res = true
                       ∧ pending s !! rid = Some (KProcessBatch d i))
     ∨ (st' = "error"
        ∧ ∃ rid d r, e = Response rid r
                     ∧ pending s !! rid = Some (KProcessBatch d i)
                     ∧ (r = RThrow
                        ∨ ∃ res, r = RJob res ∧ Api.Job.success res = false))
     ∨ (st' = "error"
        ∧ ∃ rid p stj, e = Response rid (RStatus stj)
                       ∧ Api.Status.status stj = "error"
                       ∧ pending s !! rid = Some (KStatus p)
                       ∧ batchIndex p = i))
  ∧ (∀ (s : State) (rid : nat) (d : string) (i : nat) (r : response),
       pending s !! rid = Some (KProcessBatch d i) →
       status_at i s = Some "pending" →
       (r = RThrow ∨ ∃ res, r = RJob res ∧ Api.Job.success res = false) →
       status_at i (step s (Response rid r)) = Some "error").
Proof.
  split.
  - intros s e i st st' Hb Ha Hne.
    assert (Hsame : status_at i (step s e) = status_at i s → False).
    { intros H. rewrite H, Hb in Ha. congruence. }
    destruct e as [files| | |files|el v| |h|rid r].
    + destruct Hsame. simpl. unfold handleFileSelect.
      by repeat case_match.
    + by destruct Hsame.
    + by destruct Hsame.
    + destruct Hsame. simpl. unfold handleDrop. by repeat case_match.
    + by destruct Hsame.
    + destruct Hsame. simpl. unfold processFile. by repeat case_match.
    + destruct Hsame. simpl. by repeat case_match.
    + destruct (pending s !! rid) as [k|] eqn:Hk;
        [|destruct Hsame; simpl; by rewrite Hk].
      rewrite (batch_response_eq _ _ _ _ Hk) in Ha, Hsame.
      set (s0 := set_pending (delete rid (pending s)) s) in *.
      assert (H0 : ∀ j, status_at j s0 = status_at j s) by done.
      destruct k as [|d j|p|p], r as [res|res|stj|docs|];
        simpl in Ha, Hsame; try (by destruct Hsame).
      * left. by exists rid, res.
      * rewrite processBatch_resume_status in Ha, Hsame.
        destruct (processBatch_body_status d j (Some res) s0 i)
          as [H|(-> & _ & H)]; [destruct Hsame; by rewrite H|].
        rewrite H in Ha. injection Ha as <-.
        destruct (Api.Job.success res) eqn:Hs.
        -- right; right; left. split; [done|]. by exists rid, d, res.
        -- right; right; right; left. split; [done|].
           exists rid, d, (RJob res). split; [done|]. split; [done|].
           right. by exists res.
      * rewrite processBatch_resume_status in Ha, Hsame.
        destruct (processBatch_body_status d j None s0 i)
          as [H|(-> & _ & H)]; [destruct Hsame; by rewrite H|].
        rewrite H in Ha. injection Ha as <-.
        right; right; right; left. split; [done|].
        exists rid, d, RThrow. split; [done|]. split; [done|]. by left.
      * unfold poll_body in Ha, Hsame.
        destruct (decide (Api.Status.status stj = "complete"));
          [by destruct Hsame|].
        destruct (decide (Api.Status.status stj = "error")) as [He|];
          [|by destruct Hsame].
        set (s1 := set_timers _ s0) in *.
        destruct (set_status (batchIndex p) "error" s1) as [s2|] eqn:H2;
          [|by destruct Hsame].
        rewrite (status_at_frame _ (renderBatchProgress s2)) in Ha, Hsame
          by apply renderBatchProgress_frame.
        rewrite (status_at_set_status _ _ _ _ _ H2) in Ha, Hsame.
        case_decide as Hi; [|by destruct Hsame].
        injection Ha as <-. right; right; right; right. split; [done|].
        by exists rid, p, stj.
      * right; left. by exists rid, p, docs.
  - intros s rid d i r Hk Hp Hr.
    rewrite (batch_response_eq _ _ _ _ Hk).
    set (s0 := set_pending (delete rid (pending s)) s).
    assert (H0 : status_at i s0 = Some "pending") by done.
    assert (Hset : ∃ s1, set_status i "error" s0 = Some s1) .
    { unfold status_at in H0. unfold set_status.
      destruct (currentDocument s0) as [d0|]; [|done]. simpl in H0.
      destruct (Doc.batches d0 !! i); [by eexists|done]. }
    destruct Hset as [s1 H1].
    assert (Herr : status_at i (renderBatchProgress s1) = Some "error").
    { rewrite (status_at_frame _ (renderBatchProgress s1))
        by apply renderBatchProgress_frame.
      rewrite (status_at_set_status _ _ _ _ _ H1). by rewrite decide_True. }
    destruct Hr as [->|(res & -> & Hs)]; simpl;
      rewrite processBatch_resume_status; unfold processBatch_body.
    + unfold processBatch_catch. by rewrite H1.
    + rewrite Hs. by rewrite H1.
Qed.

Lemma C2_client_status_writes_witness :
  status_at 0 (step Scenario.batch_dispatching
                 (Response 1 (RJob Scenario.job_refused)))
  = Some "error".
Proof.
  destruct C2_client_status_writes as [_ Hfail].
  apply (Hfail Scenario.batch_dispatching 1 "d1" 0 (RJob Scenario.job_refused)).
  - vm_compute. reflexivity.
  - vm_compute. reflexivity.
  - right. exists Scenario.job_refused. split; reflexivity.
Defined.

(** C2 as stated fails: batch 0 is created ['pending'] by the upload and
    the refused dispatch makes it ['error']; it is never ['processing']. *)
Lemma C2_skips_processing :
  status_at 0 <$> states (init ∅) Scenario.batch_refused
  = [None; None; None; Some "pending"; Some "error"].
Proof. vm_compute. reflexivity. Qed.

(** *** Automatic dispatch *)

Lemma pending_from_None (bs : list Doc.Batch) (k : nat) :
  find_pending bs k = None → pending_from bs k = [].
Proof.
  revert k. induction bs as [|b bs IH]; intros k; simpl; [done|].
  case_decide; [done|]. apply IH.
Qed.

Lemma pending_from_Some (bs : list Doc.Batch) (k j : nat) :
  find_pending bs k = Some j →
  pending_from bs k = j :: pending_from (drop (S (j - k)) bs) (S j).
Proof.
  revert k. induction bs as [|b bs IH]; intros k; simpl; [done|].
  case_decide.
  - intros [= <-]. by rewrite Nat.sub_diag, drop_0.
  - intros Hj. pose proof (find_pending_Some _ _ _ Hj) as [Hle _].
    rewrite (IH _ Hj). by replace (j - k) with (S (j - S k)) by lia.
Qed.

Lemma pending_from_elem (bs : list Doc.Batch) (k j : nat) :
  j ∈ pending_from bs k
  ↔ k ≤ j ∧ ∃ b, bs !! (j - k) = Some b ∧ Doc.status b = "pending".
Proof.
  revert k. induction bs as [|b bs IH]; intros k; simpl.
  - split; [by intros ?%elem_of_nil|]. by intros (_ & ? & ? & _).
  - assert (Hrec : j ∈ pending_from bs (S k)
                   ↔ k < j ∧ ∃ b', (b :: bs) !! (j - k) = Some b'
                                   ∧ Doc.status b' = "pending").
    { rewrite IH. split.
      - intros (Hle & b' & Hb' & Hp). split; [lia|]. exists b'.
        by replace (j - k) with (S (j - S k)) by lia.
      - intros (Hlt & b' & Hb' & Hp). split; [lia|]. exists b'.
        by replace (j - k) with (S (j - S k)) in Hb' by lia. }
    case_decide as Hb.
    + rewrite elem_of_cons, Hrec. split.
      * intros [->|[Hlt Hex]]; [|split; [lia|done]].
        split; [lia|]. exists b. by rewrite Nat.sub_diag.
      * intros [Hle Hex]. destruct (decide (j = k)) as [->|]; [by left|].
        right. split; [lia|done].
    + rewrite Hrec. split.
      * intros [Hlt Hex]. split; [lia|done].
      * intros [Hle (b' & Hb' & Hp)].
        destruct (decide (j = k)) as [->|].
        { rewrite Nat.sub_diag in Hb'. by injection Hb' as ->. }
        split; [lia|by exists b'].
Qed.

Lemma pending_from_sorted (bs : list Doc.Batch) (k : nat) :
  StronglySorted lt (pending_from bs k).
Proof.
  revert k. induction bs as [|b bs IH]; intros k; simpl; [constructor|].
  case_decide; [|done]. constructor; [done|].
  apply Forall_forall. intros j [Hle _]%pending_from_elem. lia.
Qed.

Lemma dispatches_snoc_other (tr : list action) (a : action) :
  (∀ rid d i m, a ≠ Fetch rid (ReqProcessBatch d i m)) →
  dispatches (tr ++ [a]) = dispatches tr.
Proof.
  intros Ha. unfold dispatches. rewrite omap_app. simpl.
  destruct a as [rid [f bs m|d i m| |]| |]; simpl; rewrite ?app_nil_r; try done.
  by destruct (Ha rid d i m).
Qed.

Lemma dispatches_processBatch (d : string) (j : nat) (s : State) :
  dispatches (trace (processBatch d j s)) = dispatches (trace s) ++ [(d, j)].
Proof. simpl. unfold dispatches. by rewrite omap_app. Qed.

Lemma answers_idle (s : State) (rs : list response) :
  pending s = ∅ → answers s rs = s.
Proof.
  intros He. induction rs as [|r rs IH]; [done|].
  unfold answers in *. simpl. unfold answer at 2. simpl.
  rewrite He, lookup_empty. done.
Qed.

(** An answered dispatch of an existing batch: [processBatch] returns,
    with the batch rewritten and nothing requested. *)
Lemma processBatch_body_returns (d : string) (j : nat) (r : option Api.Job.t)
    (s : State) (doc : Doc.Document) (b : Doc.Batch) :
  currentDocument s = Some doc → Doc.batches doc !! j = Some b →
  ∃ s' st,
    processBatch_body d j r s = (s', true)
    ∧ currentDocument s'
      = Some (Doc.with_batches
                (<[j := Doc.with_status st b]> (Doc.batches doc)) doc)
    ∧ pending s' = pending s ∧ trace s' = trace s ∧ next_req s' = next_req s.
Proof.
  intros Hd Hb.
  assert (Hset : ∀ st, set_status j st s
            = Some (set_currentDocument
                      (Some (Doc.with_batches
                               (<[j := Doc.with_status st b]> (Doc.batches doc))
                               doc)) s)).
  { intros st. unfold set_status. by rewrite Hd, Hb. }
  unfold processBatch_body, processBatch_catch.
  destruct r as [res|]; [destruct (Api.Job.success res)|].
  - rewrite (Hset "processing"). eexists _, "processing".
    split; [done|]. unfold renderBatchProgress. by simpl.
  - rewrite (Hset "error"). eexists _, "error".
    split; [done|]. unfold renderBatchProgress. by simpl.
  - rewrite (Hset "error"). eexists _, "error".
    split; [done|]. unfold renderBatchProgress. by simpl.
Qed.

(** The loop run alone: with nothing else in flight and only its own
    dispatches answered, it requests the pending batches from [k] on, one
    per answer, in index order. *)
Lemma loop_from_run (rs : list response) :
  Forall is_job_answer rs →
  ∀ (s : State) (k : nat) (doc : Doc.Document),
    pending s = ∅ → currentDocument s = Some doc →
    dispatches (trace (answers (loop_from k s) rs))
    = dispatches (trace s)
      ++ (pair (Doc.doc_id doc)
          <$> take (S (length rs)) (pending_from (drop k (Doc.batches doc)) k)).
Proof.
  induction 1 as [|r rs Hr Hrs IH]; intros s k doc He Hd.
  - unfold loop_from. rewrite Hd.
    destruct (find_pending _ k) as [j|] eqn:Hj.
    + rewrite (pending_from_Some _ _ _ Hj).
      change (answers ?x []) with x. by rewrite dispatches_processBatch.
    + rewrite (pending_from_None _ _ Hj). simpl. by rewrite app_nil_r.
  - unfold loop_from. rewrite Hd.
    destruct (find_pending _ k) as [j|] eqn:Hj.
    2:{ rewrite (pending_from_None _ _ Hj), answers_idle by done.
        simpl. by rewrite app_nil_r. }
    rewrite (pending_from_Some _ _ _ Hj).
    pose proof (find_pending_Some _ _ _ Hj) as (Hle & (b & Hb & _) & _).
    rewrite lookup_drop in Hb. replace (k + (j - k)) with j in Hb by lia.
    rewrite drop_drop. replace (k + S (j - k)) with (S j) by lia.
    set (d := Doc.doc_id doc) in *.
    unfold answers. simpl. fold (answers (answer (processBatch d j s) r) rs).
    set (s0 := set_pending ∅ (processBatch d j s)).
    assert (Hd0 : currentDocument s0 = Some doc) by done.
    assert (Hstep : ∀ o : option Api.Job.t,
              (match r with RJob res => Some res = o | RThrow => None = o
               | _ => False end) →
              answer (processBatch d j s) r = processBatch_resume d j o s0).
    { intros o Ho. unfold answer. simpl. rewrite lookup_insert_eq.
      rewrite delete_insert_eq, He.
      rewrite delete_empty. destruct r; simpl in *; try done; by subst o. }
    assert (∃ o, answer (processBatch d j s) r = processBatch_resume d j o s0)
      as [o ->].
    { destruct r as [ | res | | | ]; simpl in Hr; try done;
        eexists; by apply Hstep. }
    destruct (processBatch_body_returns d j o s0 doc b Hd0 Hb)
      as (s1 & st & Hbody & Hd1 & Hp1 & Ht1 & _).
    unfold processBatch_resume. rewrite Hbody.
    rewrite (IH s1 (S j) _ Hp1 Hd1). simpl.
    rewrite drop_insert_lt by lia.
    rewrite Ht1. simpl. unfold dispatches at 1. rewrite omap_app. simpl.
    by rewrite <-app_assoc.
Qed.

Lemma loop_from_dispatch (k : nat) (s : State) :
  ∃ new, dispatches (trace (loop_from k s)) = dispatches (trace s) ++ new
         ∧ ∀ d i, (d, i) ∈ new →
             ∃ doc, currentDocument (loop_from k s) = Some doc
                    ∧ Doc.doc_id doc = d
                    ∧ status_at i (loop_from k s) = Some "pending".
Proof.
  destruct (loop_from_cases k s) as [->|(doc & j & Hd & Hj & ->)].
  - exists []. rewrite app_nil_r. split; [done|]. by intros ?? ?%elem_of_nil.
  - exists [(Doc.doc_id doc, j)]. split; [apply dispatches_processBatch|].
    intros d i [= -> ->]%list_elem_of_singleton.
    exists doc. split; [exact Hd|]. split; [done|].
    apply find_pending_Some in Hj as (Hle & (b & Hb & Hp) & _).
    rewrite lookup_drop in Hb. replace (k + (j - k)) with j in Hb by lia.
    unfold status_at. simpl. rewrite Hd. simpl. rewrite Hb. simpl.
    by rewrite Hp.
Qed.

Lemma resume_dispatch (k : cont) (r : response) (s s' : State) :
  resume k r s = Some s' →
  ∃ new, dispatches (trace s') = dispatches (trace s) ++ new
         ∧ ∀ d i, (d, i) ∈ new →
             ∃ doc, currentDocument s' = Some doc ∧ Doc.doc_id doc = d
                    ∧ status_at i s' = Some "pending".
Proof.
  assert (Hnone : ∀ t : State, dispatches (trace t) = dispatches (trace s) →
            ∃ new, dispatches (trace t) = dispatches (trace s) ++ new
                   ∧ ∀ d i, (d, i) ∈ new →
                       ∃ doc, currentDocument t = Some doc ∧ Doc.doc_id doc = d
                              ∧ status_at i t = Some "pending").
  { intros t Ht. exists []. rewrite app_nil_r. split; [done|].
    by intros ?? ?%elem_of_nil. }
  assert (Hloop : ∀ (t : State) j, trace t = trace s →
            ∃ new, dispatches (trace (loop_from j t)) = dispatches (trace s) ++ new
                   ∧ ∀ d i, (d, i) ∈ new →
                       ∃ doc, currentDocument (loop_from j t) = Some doc
                              ∧ Doc.doc_id doc = d
                              ∧ status_at i (loop_from j t) = Some "pending").
  { intros t j Ht. rewrite <-Ht. apply loop_from_dispatch. }
  assert (Hresume : ∀ d j o,
            ∃ new, dispatches (trace (processBatch_resume d j o s))
                   = dispatches (trace s) ++ new
                   ∧ ∀ d' i, (d', i) ∈ new →
                       ∃ doc, currentDocument (processBatch_resume d j o s) = Some doc
                              ∧ Doc.doc_id doc = d'
                              ∧ status_at i (processBatch_resume d j o s)
                                = Some "pending").
  { intros d j o. unfold processBatch_resume.
    pose proof (processBatch_body_files d j o s) as [_ Ht].
    destruct (processBatch_body d j o s) as [s1 [|]]; simpl in *.
    - by apply Hloop.
    - apply Hnone. by rewrite Ht. }
  destruct k as [|d j|p|p], r as [res|res|st|docs|]; simpl; try done;
    intros [= <-]; try (by apply Hresume); try (by apply Hnone).
  - unfold processFile_body.
    destruct (Api.Upload.success res); [|by apply Hnone].
    unfold processAllBatches.
    set (s1 := renderBatchProgress _).
    assert (trace s1 = trace s) as H1.
    { subst s1. by destruct (render_files (set_currentDocument
        (Some {| Doc.doc_id := Api.Upload.doc_id res;
                 Doc.filename := Api.Upload.filename res;
                 Doc.total_pages := Api.Upload.total_pages res;
                 Doc.batch_size := None;
                 Doc.batches := Api.Upload.batches res |}) s)). }
    clearbody s1.
    destruct (currentDocument s1); [by apply Hloop|apply Hnone; by rewrite H1].
  - apply Hnone. unfold poll_body. repeat case_decide; simpl; [| |done].
    + by apply dispatches_snoc_other.
    + destruct (set_status _ _ _) as [s1|] eqn:H1.
      * destruct (set_status_files _ _ _ _ H1) as [_ Hb].
        destruct (render_files s1) as [_ Hd]. simpl in *. by rewrite Hd, Hb.
      * by apply dispatches_snoc_other.
  - apply Hnone. by apply dispatches_snoc_other.
  - apply Hnone. unfold refresh_body.
    destruct (Doc.find_doc _ _) as [u|]; [|done].
    set (s1 := renderBatchProgress _).
    assert (trace s1 = trace s) as H1.
    { subst s1. by destruct (render_files (set_currentDocument (Some u) s)). }
    clearbody s1.
    destruct (Doc.all_completed _); simpl; [|by rewrite H1].
    rewrite H1. by apply dispatches_snoc_other.
  - apply Hnone. by apply dispatches_snoc_other.
Qed.

(** In any interleaving, a step requests the dispatch of a batch only if
    that batch of the current document is ['pending'] at that moment. *)
Lemma batch_dispatch_only_pending (s : State) (e : event) :
  ∃ new, dispatches (trace (step s e)) = dispatches (trace s) ++ new
         ∧ ∀ d i, (d, i) ∈ new →
             ∃ doc, currentDocument (step s e) = Some doc
                    ∧ Doc.doc_id doc = d
                    ∧ status_at i (step s e) = Some "pending".
Proof.
  assert (Hnone : ∀ t : State, dispatches (trace t) = dispatches (trace s) →
            ∃ new, dispatches (trace t) = dispatches (trace s) ++ new
                   ∧ ∀ d i, (d, i) ∈ new →
                       ∃ doc, currentDocument t = Some doc ∧ Doc.doc_id doc = d
                              ∧ status_at i t = Some "pending").
  { intros t Ht. exists []. rewrite app_nil_r. split; [done|].
    by intros ?? ?%elem_of_nil. }
  destruct e as [files| | |files|el v| |h|rid r].
  - apply Hnone. simpl. unfold handleFileSelect. by repeat case_match.
  - by apply Hnone.
  - by apply Hnone.
  - apply Hnone. simpl. unfold handleDrop. by repeat case_match.
  - by apply Hnone.
  - apply Hnone. simpl. unfold processFile.
    destruct (selectedFile s); [|done]. simpl. by apply dispatches_snoc_other.
  - apply Hnone. simpl. destruct (timers s !! h); [|done].
    simpl. by apply dispatches_snoc_other.
  - destruct (pending s !! rid) as [k|] eqn:Hk;
      [|apply Hnone; simpl; by rewrite Hk].
    rewrite (batch_response_eq _ _ _ _ Hk).
    destruct (resume k r _) as [s'|] eqn:Hr; [|by apply Hnone].
    simpl. by apply resume_dispatch in Hr.
Qed.

(** One stretch of the loop, in any state: from index [k] it either ends
    because no batch from [k] on is ['pending'], or requests the dispatch
    of the first pending batch from [k] on and of no other. *)
Lemma loop_from_exact (k : nat) (s : State) (doc : Doc.Document) :
  currentDocument s = Some doc →
  (loop_from k s = s
   ∧ ∀ j b, k ≤ j → Doc.batches doc !! j = Some b → Doc.status b ≠ "pending")
  ∨ (∃ j, loop_from k s = processBatch (Doc.doc_id doc) j s
          ∧ k ≤ j ∧ status_at j s = Some "pending"
          ∧ ∀ m b, k ≤ m < j → Doc.batches doc !! m = Some b →
                   Doc.status b ≠ "pending").
Proof.
  intros Hd. unfold loop_from, status_at. rewrite Hd. simpl.
  destruct (find_pending _ k) as [j|] eqn:Hj.
  - right. exists j. split; [done|].
    apply find_pending_Some in Hj as (Hle & (b & Hb & Hp) & Hbefore).
    rewrite lookup_drop in Hb. replace (k + (j - k)) with j in Hb by lia.
    split; [done|]. split; [by rewrite Hb; simpl; rewrite Hp|].
    intros m b' [Hkm Hmj] Hm. apply (Hbefore (m - k) b'); [lia|].
    rewrite lookup_drop. by replace (k + (m - k)) with m by lia.
  - left. split; [done|]. intros j b Hkj Hb.
    apply (find_pending_None _ _ Hj). apply list_elem_of_lookup.
    exists (j - k). rewrite lookup_drop. by replace (k + (j - k)) with j by lia.
Qed.

(** The loop left alone: after a successful upload, with nothing else in
    flight and the dispatches answered one by one, the page requests the dispatch of
    exactly the batches of the uploaded document whose status is
    ['pending'], in ascending index order, one per answer; and in any
    interleaving, each stretch of the loop requests the first pending
    batch at or after its index and skips only batches that are not
    pending, and no step of the page requests the dispatch of a batch
    whose status is not ['pending'] when the request is made. *)
Lemma batch_loop_alone_in_order
    (s : State) (rid : nat) (res : Api.Upload.t) (rs : list response)
    (Hk : pending s = {[rid := KUpload]})
    (Hs : Api.Upload.success res = true)
    (Hrs : Forall is_job_answer rs) :
  let bs := Api.Upload.batches res in
  let s1 := step s (Response rid (RUpload res)) in
  dispatches (trace (answers s1 rs))
  = dispatches (trace s)
    ++ (pair (Api.Upload.doc_id res)
        <$> take (S (length rs)) (pending_from bs 0))
  ∧ (length (pending_from bs 0) ≤ S (length rs) →
     dispatches (trace (answers s1 rs))
     = dispatches (trace s)
       ++ (pair (Api.Upload.doc_id res) <$> pending_from bs 0))
  ∧ StronglySorted lt (pending_from bs 0)
  ∧ (∀ j, j ∈ pending_from bs 0
          ↔ ∃ b, bs !! j = Some b ∧ Doc.status b = "pending")
  ∧ (∀ (t : State) (k : nat) (doc : Doc.Document),
       currentDocument t = Some doc →
       (loop_from k t = t
        ∧ ∀ j b, k ≤ j → Doc.batches doc !! j = Some b →
                 Doc.status b ≠ "pending")
       ∨ (∃ j, loop_from k t = processBatch (Doc.doc_id doc) j t
               ∧ k ≤ j ∧ status_at j t = Some "pending"
               ∧ ∀ m b, k ≤ m < j → Doc.batches doc !! m = Some b →
                        Doc.status b ≠ "pending"))
  ∧ (∀ (t : State) (e : event) (d : string) (i : nat),
       (d, i) ∈ drop (length (dispatches (trace t)))
                    (dispatches (trace (step t e))) →
       status_at i (step t e) = Some "pending").
Proof.
  intros bs s1.
  assert (Hrun : dispatches (trace (answers s1 rs))
                 = dispatches (trace s)
                   ++ (pair (Api.Upload.doc_id res)
                       <$> take (S (length rs)) (pending_from bs 0))).
  { subst s1. simpl. rewrite Hk, lookup_singleton_eq. simpl.
    rewrite delete_singleton_eq.
    unfold processFile_body. rewrite Hs. unfold processAllBatches.
    set (d := {| Doc.doc_id := Api.Upload.doc_id res;
                 Doc.filename := Api.Upload.filename res;
                 Doc.total_pages := Api.Upload.total_pages res;
                 Doc.batch_size := None;
                 Doc.batches := Api.Upload.batches res |}).
    set (s0 := set_currentDocument (Some d) (set_pending ∅ s)).
    destruct (renderBatchProgress_frame s0)
      as (_ & Hd & _ & _ & _ & Hp & _ & Ht).
    rewrite Hd. simpl.
    rewrite (loop_from_run rs Hrs (renderBatchProgress s0) 0 d Hp Hd).
    by rewrite Ht, drop_0. }
  split; [done|]. split.
  { intros Hlen. rewrite Hrun. by rewrite take_ge. }
  split; [apply pending_from_sorted|]. split; [|].
  - intros j. rewrite pending_from_elem, Nat.sub_0_r. split.
    + by intros [_ ?].
    + intros ?. split; [lia|done].
  - split; [intros t k doc; apply loop_from_exact|].
    intros t e d i Hin.
    destruct (batch_dispatch_only_pending t e) as (new & Heq & Hnew).
    rewrite Heq, drop_app_length in Hin.
    by destruct (Hnew d i Hin) as (doc & _ & _ & ?).
Qed.

Lemma batch_loop_alone_in_order_example :
  dispatches
    (trace (answers
              (step (processFile (handleFileSelect [Scenario.paper] (init ∅)))
                    (Response 0 (RUpload Scenario.upload_two)))
              [RJob (Scenario.job_ok "j0"); RThrow]))
  = [("d1", 0); ("d1", 1)].
Proof.
  destruct (batch_loop_alone_in_order
              (processFile (handleFileSelect [Scenario.paper] (init ∅)))
              0 Scenario.upload_two
              [RJob (Scenario.job_ok "j0"); RThrow]) as (_ & Hall & _).
  - vm_compute. reflexivity.
  - reflexivity.
  - repeat constructor.
  - rewrite Hall; [|vm_compute; lia]. vm_compute. reflexivity.
Defined.

(** C5: evaluation of the run in which a second document is uploaded
    while the loop over the first is suspended at its [await].  Selecting
    the second file enables the Process button that [processFile] had
    disabled.  Both documents have their two batches ['pending'].  When
    the first loop resumes it reads [currentDocument] again, which is now
    the second document, and goes on with that one: batch 1 of "d1" is
    never dispatched, and batch 1 of "d2" is dispatched twice, by the
    first loop and by the second, each time while its status still reads
    ['pending'].  Nothing is left in flight at the end. *)
Theorem C5_second_upload_breaks_dispatch :
  let s := run (init ∅) Scenario.batch_second_upload in
  dom (run (init ∅) (take 3 Scenario.batch_second_upload))
    !! ("processBtn", "disabled") = Some (VBool true)
  ∧ dom (run (init ∅) (take 4 Scenario.batch_second_upload))
      !! ("processBtn", "disabled") = Some (VBool false)
  ∧ pending_from (Api.Upload.batches Scenario.upload_two) 0 = [0; 1]
  ∧ pending_from (Api.Upload.batches Scenario.upload_two_b) 0 = [0; 1]
  ∧ dispatches (trace s) = [("d1", 0); ("d2", 0); ("d2", 1); ("d2", 1)]
  ∧ (("d1", 1) ∉ dispatches (trace s))
  ∧ status_at 1 (run (init ∅) (take 7 Scenario.batch_second_upload))
    = Some "pending"
  ∧ dispatches (trace (run (init ∅) (take 7 Scenario.batch_second_upload)))
    = [("d1", 0); ("d2", 0); ("d2", 1)]
  ∧ pending s = ∅.
Proof.
  vm_compute. repeat split; try reflexivity.
  intros H. repeat (apply elem_of_cons in H as [H|H]; [discriminate H|]).
  by apply elem_of_nil in H.
Qed.

(** C6: evaluation of two error reports after the same run.  The current
    document is "d2"; timer 1 polls job "j0", dispatched for batch 0 of
    "d1".  When "j0" is reported in error, the status written is that of
    batch 0 of "d2", whose own job "k0" is still being polled.  Timers 3
    and 4 poll the two jobs dispatched for batch 1 of "d2" and the key
    holds handle 4: when "k1", polled by timer 3, is reported in error, it
    is timer 4 that is cleared; timer 3 stays live and its next tick
    queries "k1" again. *)
Theorem C6_error_marks_other_batch :
  let s := run (init ∅) Scenario.batch_second_upload in
  let failed := RStatus (Scenario.job_status "error" 4 10) in
  (let a := run s [Tick 1; Response 6 failed] in
   timers s !! 1
   = Some (Timer {| docId := "d1"; batchIndex := 0; jobId := Some "j0" |} 500)
   ∧ timers s !! 2
     = Some (Timer {| docId := "d2"; batchIndex := 0; jobId := Some "k0" |} 500)
   ∧ (Doc.doc_id <$> currentDocument s) = Some "d2"
   ∧ status_at 0 s = Some "processing"
   ∧ (Doc.doc_id <$> currentDocument a) = Some "d2"
   ∧ status_at 0 a = Some "error"
   ∧ timers a !! 2 = timers s !! 2)
  ∧ (let b := run s [Tick 3; Response 6 failed] in
     timers s !! 3
     = Some (Timer {| docId := "d2"; batchIndex := 1; jobId := Some "k1" |} 500)
     ∧ timers s !! 4
       = Some (Timer {| docId := "d2"; batchIndex := 1; jobId := Some "k1b" |} 500)
     ∧ pollIntervals s !! pollId "d2" 1 = Some 4
     ∧ timers b !! 3 = timers s !! 3
     ∧ timers b !! 4 = None
     ∧ trace (step b (Tick 3)) = trace b ++ [Fetch 7 (ReqStatus "k1")]).
Proof. vm_compute. repeat split; reflexivity. Qed.

End BatchPage.

(** ** The workbench page *)
Section WorkbenchPage.
Import Js Workbench.

Lemma wb_response_eq (s : State) (rid : nat) (k : cont) (r : response) :
  pending s !! rid = Some k →
  step s (Response rid r)
  = default s (resume k r (set_pending (delete rid (pending s)) s)).
Proof. intros Hk. simpl. by rewrite Hk. Qed.

Lemma wb_poll_body_terminal (p : Poll) (st : Api.Status.t) (s : State) :
  terminal (Api.Status.status st) →
  poll_body p st s
  = loadDocuments
      (set_timers (clearInterval (pollIntervals s !! key p) (timers s)) s).
Proof.
  intros Hterm. unfold poll_body.
  rewrite decide_False by (destruct Hterm as [-> | ->]; discriminate).
  by rewrite decide_True.
Qed.

Lemma wb_poll_body_other (p : Poll) (st : Api.Status.t) (s : State) :
  ¬ terminal (Api.Status.status st) →
  timers (poll_body p st s) = timers s
  ∧ pollIntervals (poll_body p st s) = pollIntervals s
  ∧ next_handle (poll_body p st s) = next_handle s.
Proof.
  intros Hterm. unfold poll_body.
  rewrite (decide_False (P := _ ∨ _)) by done.
  repeat case_match; done.
Qed.

Lemma wb_resume_handles (k : cont) (r : response) (s s' : State) :
  resume k r s = Some s' →
  (timers s' = timers s ∧ pollIntervals s' = pollIntervals s
   ∧ next_handle s' = next_handle s)
  ∨ (∃ p, k = KStatus p ∧ pollIntervals s' = pollIntervals s
          ∧ next_handle s' = next_handle s
          ∧ timers s' = clearInterval (pollIntervals s !! key p) (timers s)
          ∧ ∃ st, r = RStatus st ∧ terminal (Api.Status.status st))
  ∨ (∃ p, pollIntervals s' = <[key p := next_handle s]> (pollIntervals s)
          ∧ timers s' = <[next_handle s := Timer (CbPoll p) 500]> (timers s)
          ∧ next_handle s' = S (next_handle s)).
Proof.
  destruct k as [| |d i|p], r as [res|res|st|docs|m]; simpl; try done;
    intros [= <-]; try (by left).
  - left. by destruct (Api.Upload.success res).
  - destruct (Api.Job.success res); [|by left]. right; right. by eexists.
  - destruct (decide (terminal (Api.Status.status st))) as [Ht|Ht].
    + right; left. exists p. rewrite wb_poll_body_terminal by done.
      repeat split; try done. by exists st.
    + left. by apply wb_poll_body_other.
Qed.

Lemma wb_step_handles (s : State) (e : event) :
  (timers (step s e) = timers s ∧ pollIntervals (step s e) = pollIntervals s
   ∧ next_handle (step s e) = next_handle s)
  ∨ (∃ rid p st, e = Response rid (RStatus st)
          ∧ pending s !! rid = Some (KStatus p)
          ∧ terminal (Api.Status.status st)
          ∧ pollIntervals (step s e) = pollIntervals s
          ∧ next_handle (step s e) = next_handle s
          ∧ timers (step s e)
            = clearInterval (pollIntervals s !! key p) (timers s))
  ∨ (∃ f ms, pollIntervals (step s e) = pollIntervals s
          ∧ timers (step s e) = <[next_handle s := Timer f ms]> (timers s)
          ∧ next_handle (step s e) = S (next_handle s)
          ∧ (ms = 500 ∨ f = CbLoadDocuments))
  ∨ (∃ p, pollIntervals (step s e) = <[key p := next_handle s]> (pollIntervals s)
          ∧ timers (step s e)
            = <[next_handle s := Timer (CbPoll p) 500]> (timers s)
          ∧ next_handle (step s e) = S (next_handle s)).
Proof.
  destruct e as [|files bsz|d i|h|rid r].
  - right; right; left. exists CbLoadDocuments, 5000. simpl. auto.
  - left. simpl. unfold uploadDocument. by destruct (files !! 0).
  - by left.
  - left. simpl. destruct (timers s !! h) as [[[|p] ms]|]; done.
  - destruct (pending s !! rid) as [k|] eqn:Hk; [|left; simpl; by rewrite Hk].
    rewrite (wb_response_eq _ _ _ _ Hk).
    destruct (resume k r _) as [s'|] eqn:Hr; [|by left]. simpl.
    apply wb_resume_handles in Hr
      as [?|[(p & -> & ? & ? & ? & st & -> & ?)|(p & ? & ? & ?)]].
    + by left.
    + right; left. by exists rid, p, st.
    + right; right; right. by exists p.
Qed.

Lemma wb_handles_ok_step (s : State) (e : event) :
  handles_ok s → handles_ok (step s e).
Proof.
  unfold handles_ok. intros (Ht & Hp & Hinj).
  destruct (wb_step_handles s e)
    as [(-> & -> & ->)
       |[(rid & p & st & _ & _ & _ & -> & -> & ->)
        |[(f & ms & -> & -> & -> & _)|(p & -> & -> & ->)]]].
  - done.
  - split; [|done]. intros h t.
    destruct (pollIntervals s !! key p); simpl; [|by eauto].
    intros [_ ?]%lookup_delete_Some. eauto.
  - split; [|split; [|done]].
    + intros h t [[<- _]|[_ ?]]%lookup_insert_Some; [lia|].
      apply Nat.lt_lt_succ_r. eauto.
    + intros k h ?. apply Nat.lt_lt_succ_r. eauto.
  - split; [|split].
    + intros h t [[<- _]|[_ ?]]%lookup_insert_Some; [lia|].
      apply Nat.lt_lt_succ_r. eauto.
    + intros k h [[_ <-]|[_ ?]]%lookup_insert_Some; [lia|].
      apply Nat.lt_lt_succ_r. eauto.
    + intros k k' h [[<- <-]|[Hk H1]]%lookup_insert_Some
                    [[<- Hh]|[Hk' H2]]%lookup_insert_Some; try done.
      * apply Hp in H2. lia.
      * apply Hp in H1. lia.
      * eauto.
Qed.

Lemma wb_reachable_handles_ok (s : State) : reachable s → handles_ok s.
Proof.
  intros (es & ->). induction es as [|e es IH] using rev_ind.
  - repeat split; simpl; intros *; by rewrite lookup_empty.
  - unfold run. rewrite foldl_app. simpl. by apply wb_handles_ok_step.
Qed.

(** *** Independence of the poll timers *)

(** C9: the key of a poll is determined by, and determines, the pair of
    document id and batch index; [pollBatchStatus] allocates a timer that
    did not exist, with a period of 500 ms, stores its handle under the
    poll's key and touches no other key and no other timer; and a status
    answer for one poll, whatever it says, leaves the entry and the timer
    of every other key as they were. *)
Theorem C9_poll_timers_independent :
  (∀ (d1 d2 : string) (i1 i2 : nat),
     pollId d1 i1 = pollId d2 i2 ↔ d1 = d2 ∧ i1 = i2)
  ∧ (∀ (s : State) (p : Poll),
       reachable s →
       let s' := pollBatchStatus p s in
       let h := next_handle s in
       timers s !! h = None
       ∧ (∀ k, pollIntervals s !! k ≠ Some h)
       ∧ pollIntervals s' !! key p = Some h
       ∧ timers s' !! h = Some (Timer (CbPoll p) 500)
       ∧ (∀ k, k ≠ key p → pollIntervals s' !! k = pollIntervals s !! k)
       ∧ (∀ h', h' ≠ h → timers s' !! h' = timers s !! h'))
  ∧ (∀ (s : State) (rid : nat) (p : Poll) (st : Api.Status.t)
       (k' : string) (h' : nat),
       reachable s →
       pending s !! rid = Some (KStatus p) →
       k' ≠ key p →
       pollIntervals s !! k' = Some h' →
       let s' := step s (Response rid (RStatus st)) in
       pollIntervals s' !! k' = Some h'
       ∧ timers s' !! h' = timers s !! h').
Proof.
  split; [|split].
  - intros d1 d2 i1 i2. split; [apply pollId_inj|]. by intros [-> ->].
  - intros s p (Ht & Hp & _)%wb_reachable_handles_ok s' h. subst s' h.
    simpl. split.
    { destruct (timers s !! next_handle s) as [t|] eqn:E; [|done].
      apply Ht in E. lia. }
    split.
    { intros k E. apply Hp in E. lia. }
    rewrite !lookup_insert_eq. do 2 (split; [done|]).
    split; intros; by rewrite lookup_insert_ne.
  - intros s rid p st k' h' (_ & _ & Hinj)%wb_reachable_handles_ok Hk Hne Hk' s'.
    subst s'. rewrite (wb_response_eq _ _ _ _ Hk). simpl.
    destruct (decide (terminal (Api.Status.status st))) as [Hterm|Hterm].
    + rewrite wb_poll_body_terminal by done. simpl. split; [done|].
      destruct (pollIntervals s !! key p) as [h|] eqn:Hh; simpl; [|done].
      apply lookup_delete_ne. intros ->. by apply Hne, (Hinj _ _ h').
    + destruct (wb_poll_body_other p st
                  (set_pending (delete rid (pending s)) s) Hterm)
        as (-> & -> & _). done.
Qed.

Lemma C9_poll_timers_independent_witness :
  pollIntervals
    (pollBatchStatus {| docId := "d1"; batchIndex := 1; jobId := Some "jobB" |}
                     Scenario.workbench_polling)
    !! "d1_0"
  = pollIntervals Scenario.workbench_polling !! "d1_0".
Proof.
  destruct C9_poll_timers_independent as (_ & Hinstall & _).
  destruct (Hinstall Scenario.workbench_polling
              {| docId := "d1"; batchIndex := 1; jobId := Some "jobB" |})
    as (_ & _ & _ & _ & Hkeys & _).
  - eexists. reflexivity.
  - apply Hkeys. vm_compute. discriminate.
Defined.

(** *** Polling *)

Lemma wb_poll_failure (s : State) (rid : nat) (p : Poll) (m : string) :
  pending s !! rid = Some (KStatus p) →
  step s (Response rid (RThrow m))
  = log ConsoleError (set_pending (delete rid (pending s)) s).
Proof. intros Hk. by rewrite (wb_response_eq _ _ _ _ Hk). Qed.

Lemma wb_tick_live (s : State) (h ms : nat) (p : Poll) :
  timers s !! h = Some (Timer (CbPoll p) ms) →
  step s (Tick h) = fetch (ReqStatus (interp (jobId p))) (KStatus p) s.
Proof. intros Ht. simpl. by rewrite Ht. Qed.

Lemma wb_tick_dead (s : State) (h : nat) :
  timers s !! h = None → step s (Tick h) = s.
Proof. intros Ht. simpl. by rewrite Ht. Qed.

(** A timer whose handle is not the one stored under the poll's key
    survives the answer to that poll. *)
Lemma wb_unkeyed_timer_survives (s : State) (rid h : nat) (p : Poll)
    (st : Api.Status.t) (t : timer Callback) :
  pending s !! rid = Some (KStatus p) →
  timers s !! h = Some t →
  pollIntervals s !! key p ≠ Some h →
  timers (step s (Response rid (RStatus st))) !! h = Some t.
Proof.
  intros Hk Ht Hslot. rewrite (wb_response_eq _ _ _ _ Hk). simpl.
  destruct (decide (terminal (Api.Status.status st))) as [Hterm|Hterm].
  - rewrite wb_poll_body_terminal by done. simpl.
    destruct (pollIntervals s !! key p) as [h'|]; simpl; [|done].
    rewrite lookup_delete_ne by congruence. done.
  - destruct (wb_poll_body_other p st
                (set_pending (delete rid (pending s)) s) Hterm) as (-> & _).
    done.
Qed.

(** A live timer disappears only in the step that reads a terminal status
    out of a status body. *)
Lemma wb_stop_only_terminal (s : State) (e : event) (h : nat) :
  is_Some (timers s !! h) → timers (step s e) !! h = None →
  ∃ rid st p, e = Response rid (RStatus st)
              ∧ pending s !! rid = Some (KStatus p)
              ∧ terminal (Api.Status.status st).
Proof.
  intros [t Ht] Hgone.
  destruct (wb_step_handles s e)
    as [(E & _)
       |[(rid & p & st & -> & ? & ? & _)
        |[(f & ms & _ & E & _)|(p & _ & E & _)]]].
  - rewrite E in Hgone. congruence.
  - by exists rid, st, p.
  - rewrite E in Hgone. apply lookup_insert_None in Hgone as [? _]. congruence.
  - rewrite E in Hgone. apply lookup_insert_None in Hgone as [? _]. congruence.
Qed.

(** Every poll timer of the page has a period of 500 ms. *)
Lemma wb_poll_timers_500 (s : State) (h : nat) (t : timer Callback) :
  reachable s → timers s !! h = Some t → is_poll t → delay t = 500.
Proof.
  intros (es & ->). revert h t.
  induction es as [|e es IH] using rev_ind; intros h t.
  - simpl. by rewrite lookup_empty.
  - unfold run. rewrite foldl_app. simpl. fold (run init es).
    set (s := run init es) in *. clearbody s.
    destruct (wb_step_handles s e)
      as [(-> & _)
         |[(rid & p & st & _ & _ & _ & _ & _ & ->)
          |[(f & ms & _ & -> & _ & Hms)|(p & _ & -> & _)]]].
    + apply IH.
    + destruct (pollIntervals s !! key p); simpl; [|apply IH].
      intros [_ ?]%lookup_delete_Some ?. eauto.
    + intros [[_ <-]|[_ ?]]%lookup_insert_Some; [|by eauto].
      unfold is_poll. simpl. by destruct Hms as [->| ->].
    + intros [[_ <-]|[_ ?]]%lookup_insert_Some; [done|by eauto].
Qed.

(** *** Refresh after a job ends *)



End WorkbenchPage.

(** ** Properties that span the pages *)
Section AcrossPages.
Import Js.

(** C1: evaluation of the two scenarios in which a second poll is started
    under a slot that still holds the handle of a running one
    ([statusPollInterval] on the quick page, [pollIntervals[pollId]] on
    the workbench).  When the first job is then seen complete, the handle
    found in the slot is the second timer's: that one is cleared, the
    timer that read the terminal status stays live, and its next tick
    queries the finished job again. *)
Theorem C1_overwritten_slot_keeps_polling :
  (let q := Quick.run (Quick.init ∅) Scenario.quick_two_jobs in
   Quick.dom (Quick.run (Quick.init ∅) (take 4 Scenario.quick_two_jobs))
     !! ("processBtn", "disabled") = Some (VBool false)
   ∧ Quick.statusPollInterval q = Some 2
   ∧ Quick.timers q !! 1 = Some (Timer "jobA" 500)
   ∧ Quick.timers q !! 2 = None
   ∧ Quick.status_queries (Quick.trace q) = ["jobA"]
   ∧ Quick.status_queries (Quick.trace (Quick.step q (Quick.Tick 1)))
     = ["jobA"; "jobA"])
  ∧ (let w := Workbench.run Workbench.init Scenario.workbench_double_click in
     let pA := {| Workbench.docId := "d1"; Workbench.batchIndex := 0;
                  Workbench.jobId := Some "jobA" |} in
     Workbench.documentsList
       (Workbench.run Workbench.init (take 3 Scenario.workbench_double_click))
     = Some (Workbench.HDocuments [Scenario.doc_one "pending"])
     ∧ Workbench.pollIntervals w !! pollId "d1" 0 = Some 3
     ∧ Workbench.timers w !! 2 = Some (Timer (Workbench.CbPoll pA) 500)
     ∧ Workbench.timers w !! 3 = None
     ∧ Workbench.status_queries (Workbench.trace w) = ["jobA"]
     ∧ Workbench.status_queries
         (Workbench.trace (Workbench.step w (Workbench.Tick 2)))
       = ["jobA"; "jobA"]).
Proof. vm_compute. repeat split; reflexivity. Qed.




(** C8: when the first selected or dropped file is absent or is not of
    type ['application/pdf'], [handleFileSelect] changes nothing at all and
    [handleDrop] only removes the drag highlight: the selected file, the
    disabled flag of the process button (a disabled button stays
    disabled), the requests and the timers are as before; and on both
    pages every file ever selected or sent to the server is a PDF. *)
Theorem C8_non_pdf_rejected (files : list File)
    (Hnp : ∀ f, head files = Some f → file_type f ≠ PDF) :
  (∀ s : Quick.State, Quick.handleFileSelect files s = s)
  ∧ (∀ s : Batch.State, Batch.handleFileSelect files s = s)
  ∧ (∀ s : Quick.State,
       Quick.dom s !! ("processBtn", "disabled") = Some (VBool true) →
       Quick.dom (Quick.handleFileSelect files s) !! ("processBtn", "disabled")
       = Some (VBool true)
       ∧ Quick.dom (Quick.handleDrop files s) !! ("processBtn", "disabled")
         = Some (VBool true))
  ∧ (∀ s : Batch.State,
       Batch.dom s !! ("processBtn", "disabled") = Some (VBool true) →
       Batch.dom (Batch.handleFileSelect files s) !! ("processBtn", "disabled")
       = Some (VBool true)
       ∧ Batch.dom (Batch.handleDrop files s) !! ("processBtn", "disabled")
         = Some (VBool true))
  ∧ (∀ s : Quick.State,
       let s' := Quick.handleDrop files s in
       Quick.selectedFile s' = Quick.selectedFile s
       ∧ Quick.dom s' !! ("processBtn", "disabled")
         = Quick.dom s !! ("processBtn", "disabled")
       ∧ Quick.trace s' = Quick.trace s ∧ Quick.pending s' = Quick.pending s
       ∧ Quick.timers s' = Quick.timers s
       ∧ Quick.statusPollInterval s' = Quick.statusPollInterval s)
  ∧ (∀ s : Batch.State,
       let s' := Batch.handleDrop files s in
       Batch.selectedFile s' = Batch.selectedFile s
       ∧ Batch.dom s' !! ("processBtn", "disabled")
         = Batch.dom s !! ("processBtn", "disabled")
       ∧ Batch.trace s' = Batch.trace s ∧ Batch.pending s' = Batch.pending s
       ∧ Batch.timers s' = Batch.timers s
       ∧ Batch.currentDocument s' = Batch.currentDocument s
       ∧ Batch.pollIntervals s' = Batch.pollIntervals s)
  ∧ (∀ s : Quick.State,
       Quick.reachable s →
       (∀ f, Quick.selectedFile s = Some f → file_type f = PDF)
       ∧ ∀ rid f, Quick.Fetch rid (Quick.ReqProcess f) ∈ Quick.trace s →
                  file_type f = PDF)
  ∧ (∀ s : Batch.State,
       Batch.reachable s →
       (∀ f, Batch.selectedFile s = Some f → file_type f = PDF)
       ∧ ∀ rid f bs m,
           Batch.Fetch rid (Batch.ReqUpload f bs m) ∈ Batch.trace s →
           file_type f = PDF).
Proof.
  split; [by intros s; apply quick_handleFileSelect_reject|].
  split; [by intros s; apply batch_handleFileSelect_reject|].
  split.
  { intros s Hbtn. rewrite quick_handleFileSelect_reject by done.
    split; [done|]. rewrite quick_handleDrop_reject by done. simpl.
    by rewrite lookup_insert_ne. }
  split.
  { intros s Hbtn. rewrite batch_handleFileSelect_reject by done.
    split; [done|]. rewrite batch_handleDrop_reject by done. simpl.
    by rewrite lookup_insert_ne. }
  split.
  { intros s. rewrite quick_handleDrop_reject by done. simpl.
    by rewrite lookup_insert_ne. }
  split.
  { intros s. rewrite batch_handleDrop_reject by done. simpl.
    by rewrite lookup_insert_ne. }
  split.
  { intros s Hs. by apply quick_reachable_pdf_only. }
  intros s [Hsel Hup]%batch_reachable_pdf_only. split; [done|].
  intros rid f bs m Hin. rewrite Forall_forall in Hup. apply Hup.
  unfold Batch.uploads. apply list_elem_of_omap. by eexists.
Qed.

Lemma C8_non_pdf_rejected_witness :
  Quick.handleFileSelect [Scenario.photo] Scenario.quick_polling
  = Scenario.quick_polling
  ∧ Batch.handleFileSelect [Scenario.photo] Scenario.batch_dispatching
    = Scenario.batch_dispatching.
Proof.
  destruct (C8_non_pdf_rejected [Scenario.photo]) as (Hq & Hb & _).
  - intros f Hf. simpl in Hf. injection Hf as <-. vm_compute. discriminate.
  - split; [apply Hq|apply Hb].
Defined.

(** C10: a status query that fails in transport is caught and logged:
    the timers and the slot are untouched, and the next tick of any live
    timer sends its query again.  A live timer goes away only in a step
    that reads ['complete'] or ['error'] out of a status body. *)
Theorem C10_failed_query_keeps_polling :
  (∀ (s : Quick.State) (rid : nat) (j : string),
     Quick.pending s !! rid = Some (Quick.KStatus j) →
     let s' := Quick.step s (Quick.Response rid Quick.RThrow) in
     Quick.timers s' = Quick.timers s
     ∧ Quick.statusPollInterval s' = Quick.statusPollInterval s
     ∧ Quick.trace s' = Quick.trace s ++ [Quick.ConsoleError]
     ∧ ∀ h t, Quick.timers s !! h = Some t →
              Quick.trace (Quick.step s' (Quick.Tick h))
              = Quick.trace s'
                ++ [Quick.Fetch (Quick.next_req s')
                                (Quick.ReqStatus (callback t))])
  ∧ (∀ (s : Quick.State) (e : Quick.event) (h : nat),
       is_Some (Quick.timers s !! h) →
       Quick.timers (Quick.step s e) !! h = None →
       ∃ rid st j, e = Quick.Response rid (Quick.RStatus st)
                   ∧ Quick.pending s !! rid = Some (Quick.KStatus j)
                   ∧ terminal (Api.Status.status st))
  ∧ (∀ (s : Workbench.State) (rid : nat) (p : Workbench.Poll) (m : string),
       Workbench.pending s !! rid = Some (Workbench.KStatus p) →
       let s' := Workbench.step s (Workbench.Response rid (Workbench.RThrow m)) in
       Workbench.timers s' = Workbench.timers s
       ∧ Workbench.pollIntervals s' = Workbench.pollIntervals s
       ∧ Workbench.trace s' = Workbench.trace s ++ [Workbench.ConsoleError]
       ∧ ∀ h ms p', Workbench.timers s !! h
                    = Some (Timer (Workbench.CbPoll p') ms) →
                    Workbench.trace (Workbench.step s' (Workbench.Tick h))
                    = Workbench.trace s'
                      ++ [Workbench.Fetch (Workbench.next_req s')
                            (Workbench.ReqStatus (interp (Workbench.jobId p')))])
  ∧ (∀ (s : Workbench.State) (e : Workbench.event) (h : nat),
       is_Some (Workbench.timers s !! h) →
       Workbench.timers (Workbench.step s e) !! h = None →
       ∃ rid st p, e = Workbench.Response rid (Workbench.RStatus st)
                   ∧ Workbench.pending s !! rid = Some (Workbench.KStatus p)
                   ∧ terminal (Api.Status.status st)).
Proof.
  split; [|split; [|split]].
  - intros s rid j Hk s'. subst s'. rewrite (quick_poll_failure _ _ _ Hk).
    do 3 (split; [done|]). intros h t Ht.
    by rewrite (quick_tick_live _ h t).
  - apply quick_stop_only_terminal.
  - intros s rid p m Hk s'. subst s'. rewrite (wb_poll_failure _ _ _ _ Hk).
    do 3 (split; [done|]). intros h ms p' Ht.
    by rewrite (wb_tick_live _ h ms p').
  - apply wb_stop_only_terminal.
Qed.

Lemma C10_failed_query_keeps_polling_witness :
  Workbench.timers
    (Workbench.step Scenario.workbench_polling
       (Workbench.Response 2 (Workbench.RThrow "Failed to fetch")))
  = Workbench.timers Scenario.workbench_polling.
Proof.
  destruct C10_failed_query_keeps_polling as (_ & _ & Hwb & _).
  destruct (Hwb Scenario.workbench_polling 2
              {| Workbench.docId := "d1"; Workbench.batchIndex := 0;
                 Workbench.jobId := Some "jobA" |} "Failed to fetch")
    as (Ht & _).
  - vm_compute. reflexivity.
  - exact Ht.
Defined.

End AcrossPages.

(** Lookups in a DOM after a chain of property writes. *)
Ltac dom_norm :=
  repeat first [rewrite lookup_insert_eq | rewrite lookup_insert_ne by done].

(** ** More on the quick-process page *)
Section QuickMore.
Import Js Quick.

(** How a step can touch the timers and the slot: not at all, by clearing
    the handle in the slot, or by starting a timer under a new handle and
    putting that handle in the slot. *)
Lemma quick_step_handles (s : State) (e : event) :
  (timers (step s e) = timers s
   ∧ statusPollInterval (step s e) = statusPollInterval s
   ∧ next_handle (step s e) = next_handle s)
  ∨ (timers (step s e) = clearInterval (statusPollInterval s) (timers s)
     ∧ statusPollInterval (step s e) = statusPollInterval s
     ∧ next_handle (step s e) = next_handle s)
  ∨ (∃ j, timers (step s e) = <[next_handle s := Timer j 500]> (timers s)
          ∧ statusPollInterval (step s e) = Some (next_handle s)
          ∧ next_handle (step s e) = S (next_handle s)).
Proof.
  destruct e as [files| | |files| |h|rid r]; simpl.
  - left. unfold handleFileSelect. by repeat case_match.
  - by left.
  - by left.
  - left. unfold handleDrop. by repeat case_match.
  - left. unfold processFile. by repeat case_match.
  - left. by repeat case_match.
  - destruct (pending s !! rid) as [k|]; [|by left].
    destruct k as [|j], r as [res|st|]; simpl; try (by left).
    + unfold processFile_body.
      destruct (Api.Job.success res), (truthy (Api.Job.job_id res));
        simpl; try (by left).
      right; right. by eexists.
    + unfold pollStatus_body. repeat case_decide; simpl;
        try (by left); by (right; left).
Qed.

Lemma quick_handles_ok_step (s : State) (e : event) :
  handles_ok s → handles_ok (step s e).
Proof.
  unfold handles_ok. intros [Ht Hs].
  destruct (quick_step_handles s e)
    as [(-> & -> & ->)|[(-> & -> & ->)|(j & -> & -> & ->)]].
  - done.
  - split; [|done]. intros h t.
    destruct (statusPollInterval s); simpl; [|by eauto].
    intros [_ ?]%lookup_delete_Some. eauto.
  - split.
    + intros h t [[<- _]|[_ ?]]%lookup_insert_Some; [lia|].
      apply Nat.lt_lt_succ_r. eauto.
    + intros h [= <-]. lia.
Qed.

Lemma quick_reachable_handles_ok (s : State) : reachable s → handles_ok s.
Proof.
  intros (d & es & ->). induction es as [|e es IH] using rev_ind.
  - split; simpl; [intros ??; by rewrite lookup_empty|done].
  - unfold run. rewrite foldl_app. simpl. by apply quick_handles_ok_step.
Qed.

Lemma quick_orphan_step (s : State) (e : event) (h : nat) (t : timer string) :
  handles_ok s → timers s !! h = Some t → statusPollInterval s ≠ Some h →
  timers (step s e) !! h = Some t ∧ statusPollInterval (step s e) ≠ Some h.
Proof.
  intros [Ht Hs] Hlive Hslot.
  destruct (quick_step_handles s e)
    as [(-> & -> & _)|[(-> & -> & _)|(j & -> & -> & _)]].
  - done.
  - split; [|done]. destruct (statusPollInterval s) as [h'|]; simpl; [|done].
    rewrite lookup_delete_ne by congruence. done.
  - apply Ht in Hlive as Hlt. split.
    + rewrite lookup_insert_ne by lia. done.
    + intros [= <-]. lia.
Qed.

(** X1: a running timer whose handle is not the one in
    [statusPollInterval] can never be stopped: whatever happens next it
    stays live, the slot never holds its handle again, and each of its
    ticks sends another status query for its job. *)
Theorem quick_orphan_timer_polls_forever
    (s : State) (h : nat) (t : timer string) (es : list event)
    (Hs : reachable s)
    (Hlive : timers s !! h = Some t)
    (Hslot : statusPollInterval s ≠ Some h) :
  let s' := run s es in
  timers s' !! h = Some t
  ∧ statusPollInterval s' ≠ Some h
  ∧ trace (step s' (Tick h))
    = trace s' ++ [Fetch (next_req s') (ReqStatus (callback t))].
Proof.
  intros s'. subst s'.
  assert (Hinv : handles_ok (run s es)
                 ∧ timers (run s es) !! h = Some t
                 ∧ statusPollInterval (run s es) ≠ Some h).
  { apply quick_reachable_handles_ok in Hs.
    induction es as [|e es IH] using rev_ind; [done|].
    unfold run. rewrite foldl_app. simpl. fold (run s es).
    destruct IH as (Hok & Hl & Hsl).
    split; [by apply quick_handles_ok_step|by apply quick_orphan_step]. }
  destruct Hinv as (_ & Hl & Hsl). split; [done|]. split; [done|].
  by rewrite (quick_tick_live _ h t).
Qed.

Lemma quick_orphan_timer_polls_forever_witness :
  let s := Quick.run (Quick.init ∅) Scenario.quick_two_jobs in
  statusPollInterval
    (run s [Tick 1; Response 3 (RStatus (Scenario.job_status "error" 0 0))])
  ≠ Some 1.
Proof.
  intros s.
  assert (Hlive : timers s !! 1 = Some (Timer "jobA" 500))
    by (vm_compute; reflexivity).
  assert (Hslot : statusPollInterval s ≠ Some 1)
    by (vm_compute; discriminate).
  assert (Hs : reachable s) by (eexists _, _; reflexivity).
  exact (proj1 (proj2 (quick_orphan_timer_polls_forever s 1 _
    [Tick 1; Response 3 (RStatus (Scenario.job_status "error" 0 0))]
    Hs Hlive Hslot))).
Defined.

Lemma quick_panels_exclusive_step (s : State) (e : event) :
  panels_exclusive s → panels_exclusive (step s e).
Proof.
  unfold panels_exclusive, shown. intros Hex.
  destruct e as [files| | |files| |h|rid r]; simpl.
  - unfold handleFileSelect. repeat case_match; simpl; dom_norm; done.
  - by dom_norm.
  - by dom_norm.
  - unfold handleDrop. repeat case_match; simpl; dom_norm; done.
  - unfold processFile. destruct (selectedFile s); [|done]. simpl. dom_norm.
    repeat split; intros [??]; congruence.
  - by destruct (timers s !! h).
  - destruct (pending s !! rid) as [k|]; [|done].
    destruct k as [|j], r as [res|st|]; simpl; try done.
    + unfold processFile_body.
      destruct (Api.Job.success res), (truthy (Api.Job.job_id res));
        simpl; dom_norm; try done; repeat split; intros [??]; congruence.
    + dom_norm. repeat split; intros [??]; congruence.
    + unfold pollStatus_body. repeat case_decide; simpl; dom_norm; try done;
        repeat split; intros [??]; congruence.
Qed.

(** X2: if no two of the processing, success and error panels are shown,
    no sequence of events makes two of them show together. *)
Theorem quick_panels_stay_exclusive (s : State) (es : list event)
    (Hex : panels_exclusive s) :
  panels_exclusive (run s es).
Proof.
  induction es as [|e es IH] using rev_ind; [done|].
  unfold run. rewrite foldl_app. simpl. by apply quick_panels_exclusive_step.
Qed.

Lemma quick_panels_stay_exclusive_witness :
  panels_exclusive (run (init ∅) Scenario.quick_two_jobs).
Proof.
  apply quick_panels_stay_exclusive.
  unfold panels_exclusive, shown. simpl.
  repeat split; intros [H _]; by rewrite lookup_empty in H.
Defined.

Lemma quick_link_ok_step (s : State) (e : event) :
  link_ok s → link_ok (step s e).
Proof.
  unfold link_ok. intros Hl.
  destruct e as [files| | |files| |h|rid r]; simpl.
  - unfold handleFileSelect. repeat case_match; simpl; dom_norm; done.
  - by dom_norm.
  - by dom_norm.
  - unfold handleDrop. repeat case_match; simpl; dom_norm; done.
  - unfold processFile. destruct (selectedFile s); [|done]. simpl. by dom_norm.
  - by destruct (timers s !! h).
  - destruct (pending s !! rid) as [k|]; [|done].
    destruct k as [|j], r as [res|st|]; simpl; try done.
    + unfold processFile_body.
      destruct (Api.Job.success res), (truthy (Api.Job.job_id res));
        simpl; dom_norm; done.
    + by dom_norm.
    + unfold pollStatus_body. repeat case_decide; simpl; dom_norm; try done.
      intros f Hf. by rewrite Hf.
Qed.

(** X3: whenever a result file name is remembered for the preview, the
    download link on the page points at that same file. *)
Theorem quick_download_link_matches_result (s : State) (f : string)
    (Hs : reachable s)
    (Hf : currentResultFilename s = Some f) :
  dom s !! ("downloadLink", "href") = Some (VStr ("/download/" +:+ f)).
Proof.
  revert f Hf. change (link_ok s). destruct Hs as (d & es & ->).
  induction es as [|e es IH] using rev_ind; [done|].
  unfold run. rewrite foldl_app. simpl. by apply quick_link_ok_step.
Qed.

Lemma quick_download_link_matches_result_witness :
  dom Scenario.quick_done !! ("downloadLink", "href")
  = Some (VStr ("/download/" +:+ "paper.md")).
Proof.
  apply quick_download_link_matches_result.
  - eexists _, _. reflexivity.
  - vm_compute. reflexivity.
Defined.


(** The check of a bound covers every pair of counts below it. *)
Lemma width64_ok_upto_spec (n cur tot : Z) :
  width64_ok_upto n = true →
  (0 < tot ≤ n)%Z → (0 ≤ cur ≤ tot)%Z →
  width64_ok cur tot = true.
Proof.
  unfold width64_ok_upto. intros Hall Htot Hcur.
  rewrite forallb_forall in Hall.
  specialize (Hall tot). rewrite forallb_forall in Hall.
  apply Hall; apply list_elem_of_In, elem_of_seqZ; lia.
Qed.

Lemma width64_checked : width64_ok_upto 300 = true.
Proof. vm_compute. reflexivity. Qed.

(** The range of the width as the script computes it, rounding included,
    for documents of up to 300 pages (by evaluation of every case): the
    bounds proved below in exact arithmetic hold of the binary64 value
    too. *)
Lemma quick_width64_in_range (st : Api.Status.t) :
  (0 < Api.Status.total_pages st ≤ 300)%Z →
  (0 ≤ Api.Status.current_page st ≤ Api.Status.total_pages st)%Z →
  PrimFloat.leb (js_number 0) (progress64 st) = true
  ∧ PrimFloat.leb (progress64 st) (js_number 100) = true
  ∧ (PrimFloat.eqb (progress64 st) (js_number 100) = true
     ↔ Api.Status.current_page st = Api.Status.total_pages st).
Proof.
  intros Htot Hcur.
  pose proof (width64_ok_upto_spec 300 _ _ width64_checked Htot Hcur) as Hok.
  unfold width64_ok in Hok. fold (progress64 st) in Hok.
  apply andb_prop in Hok as [Hok Heq]. apply andb_prop in Hok as [H0 H100].
  apply bool_decide_eq_true in Heq.
  split; [done|]. split; [done|]. rewrite Heq.
  apply bool_decide_eq_true.
Qed.



End QuickMore.

(** ** More on the workbench page *)
Section WorkbenchMore.
Import Js Workbench.

Lemma wb_unkeyed_step (s : State) (e : event) (h : nat) (t : timer Callback) :
  handles_ok s → timers s !! h = Some t →
  (∀ k, pollIntervals s !! k ≠ Some h) →
  timers (step s e) !! h = Some t
  ∧ ∀ k, pollIntervals (step s e) !! k ≠ Some h.
Proof.
  intros (Ht & Hp & _) Hlive Hkeys. apply Ht in Hlive as Hlt.
  destruct (wb_step_handles s e)
    as [(-> & -> & _)
       |[(rid & p & st & _ & _ & _ & -> & _ & ->)
        |[(f & ms & -> & -> & _)|(p & -> & -> & _)]]].
  - done.
  - split; [|done]. destruct (pollIntervals s !! key p) as [h'|] eqn:E; [|done].
    simpl. rewrite lookup_delete_ne; [done|]. intros ->. by apply (Hkeys (key p)).
  - split; [|done]. rewrite lookup_insert_ne by lia. done.
  - split; [rewrite lookup_insert_ne by lia; done|].
    intros k [[_ ?]|[_ ?]]%lookup_insert_Some; [lia|]. by apply (Hkeys k).
Qed.

(** A running timer whose handle is stored under no key stays live. *)
Lemma wb_unkeyed_timer_runs_forever
    (s : State) (h : nat) (t : timer Callback) (es : list event) :
  reachable s → timers s !! h = Some t →
  (∀ k, pollIntervals s !! k ≠ Some h) →
  timers (run s es) !! h = Some t
  ∧ ∀ k, pollIntervals (run s es) !! k ≠ Some h.
Proof.
  intros Hs Hlive Hkeys.
  assert (Hinv : handles_ok (run s es)
                 ∧ timers (run s es) !! h = Some t
                 ∧ ∀ k, pollIntervals (run s es) !! k ≠ Some h).
  { apply wb_reachable_handles_ok in Hs.
    induction es as [|e es IH] using rev_ind; [done|].
    unfold run. rewrite foldl_app. simpl. fold (run s es).
    destruct IH as (Hok & Hl & Hk).
    split; [by apply wb_handles_ok_step|by apply wb_unkeyed_step]. }
  by destruct Hinv as (_ & ? & ?).
Qed.

(** X5: the automatic refresh started when the page loads is never
    stopped: whatever is dispatched, polled or answered afterwards, its
    5-second timer stays live and each of its ticks requests the document
    list. *)
Theorem wb_auto_refresh_never_stops (s : State) (es : list event)
    (Hs : reachable s) :
  let s' := run (step s DOMContentLoaded) es in
  timers s' !! next_handle s = Some (Timer CbLoadDocuments 5000)
  ∧ trace (step s' (Tick (next_handle s)))
    = trace s' ++ [Fetch (next_req s') ReqDocuments].
Proof.
  intros s'.
  assert (Hlive : timers s' !! next_handle s = Some (Timer CbLoadDocuments 5000)).
  { apply wb_unkeyed_timer_runs_forever.
    - destruct Hs as (es0 & ->). exists (es0 ++ [DOMContentLoaded]).
      unfold run. by rewrite foldl_app.
    - simpl. apply lookup_insert_eq.
    - intros k Hk. apply wb_reachable_handles_ok in Hs as (_ & Hp & _).
      simpl in Hk. apply Hp in Hk. lia. }
  split; [done|]. simpl. by rewrite Hlive.
Qed.

Lemma wb_auto_refresh_never_stops_witness :
  timers (run (step init DOMContentLoaded) (tail Scenario.workbench_double_click))
    !! next_handle init
  = Some (Timer CbLoadDocuments 5000).
Proof.
  apply (wb_auto_refresh_never_stops init (tail Scenario.workbench_double_click)).
  exists []. reflexivity.
Defined.

(** *** The document list *)

Lemma wb_poll_body_docs (p : Poll) (st : Api.Status.t) (s : State) :
  documents (poll_body p st s) = documents s
  ∧ documentsList (poll_body p st s) = documentsList s.
Proof.
  unfold poll_body.
  destruct (decide (Api.Status.status st = "processing")).
  - destruct (Doc.find_doc _ _) as [doc|]; [|done].
    destruct (Doc.batches doc !! _); [|done].
    by destruct (progress s !! _).
  - by case_decide.
Qed.

Lemma wb_rendered_ok_step (s : State) (e : event) :
  rendered_ok s → rendered_ok (step s e).
Proof.
  unfold rendered_ok. intros Hr.
  destruct e as [|files bsz|d i|h|rid r]; simpl.
  - done.
  - unfold uploadDocument. by destruct (files !! 0).
  - done.
  - destruct (timers s !! h) as [[[|p] ms]|]; done.
  - destruct (pending s !! rid) as [k|]; [|done].
    destruct k as [| |d i|p], r as [res|res|st|docs|m]; simpl; try done.
    + by intros h [= <-].
    + by destruct (Api.Upload.success res).
    + by destruct (Api.Job.success res).
    + destruct (wb_poll_body_docs p st (set_pending (delete rid (pending s)) s))
        as [-> ->]. done.
Qed.

(** X6: the cached document list changes only when a request for the
    document list is answered, and then it becomes the answer; and the
    list on screen is always the rendering of the cached list. *)
Theorem wb_cache_changes_only_by_reload (s : State) (e : event)
    (Hs : reachable s) :
  rendered_ok (step s e)
  ∧ (documents (step s e) ≠ documents s →
     ∃ rid docs, e = Response rid (RDocuments docs)
                 ∧ pending s !! rid = Some KLoad
                 ∧ documents (step s e) = docs).
Proof.
  split.
  - apply wb_rendered_ok_step. destruct Hs as (es & ->).
    induction es as [|e' es IH] using rev_ind; [by intros ?|].
    unfold run. rewrite foldl_app. simpl. by apply wb_rendered_ok_step.
  - destruct e as [|files bsz|d i|h|rid r]; simpl; try done.
    + unfold uploadDocument. by destruct (files !! 0).
    + destruct (timers s !! h) as [[[|p] ms]|]; done.
    + destruct (pending s !! rid) as [k|] eqn:Hk; [|done].
      destruct k as [| |d i|p], r as [res|res|st|docs|m]; simpl; try done.
      * intros _. by exists rid, docs.
      * by destruct (Api.Upload.success res).
      * by destruct (Api.Job.success res).
      * destruct (wb_poll_body_docs p st (set_pending (delete rid (pending s)) s))
          as [-> _]. done.
Qed.

Lemma wb_cache_changes_only_by_reload_witness :
  rendered_ok
    (step (step init DOMContentLoaded)
          (Response 0 (RDocuments [Scenario.doc_one "pending"]))).
Proof.
  apply (wb_cache_changes_only_by_reload (step init DOMContentLoaded)
           (Response 0 (RDocuments [Scenario.doc_one "pending"]))).
  exists [DOMContentLoaded]. reflexivity.
Defined.

(** *** Progress bars *)

Lemma append_inj_l (a x y : string) : a +:+ x = a +:+ y → x = y.
Proof.
  induction a as [|c a IH]; [done|].
  change (String c (a +:+ x) = String c (a +:+ y) → x = y).
  intros [= H]. by apply IH.
Qed.

Lemma progress_id_inj (d1 d2 : string) (i1 i2 : nat) :
  progress_id d1 i1 = progress_id d2 i2 → d1 = d2 ∧ i1 = i2.
Proof.
  unfold progress_id. intros H%append_inj_l. by apply pollId_inj.
Qed.

(** The containers of a rendering: one for each listed batch in
    ['processing'], at 0% and showing the batch's page bounds. *)
Lemma containers_spec (docs : list Doc.Document) (d : string) (i : nat) :
  (∀ v, containers docs !! progress_id d i = Some v →
        ∃ doc b, doc ∈ docs ∧ Doc.doc_id doc = d
                 ∧ Doc.batches doc !! i = Some b
                 ∧ Doc.status b = "processing"
                 ∧ v = (JNum (Qc_of_Z 0),
                        "Page " +:+ pretty (Doc.start b) +:+ " of "
                        +:+ pretty (Doc.end_ b)))
  ∧ (∀ doc b, doc ∈ docs → Doc.doc_id doc = d →
              Doc.batches doc !! i = Some b →
              Doc.status b = "processing" →
              is_Some (containers docs !! progress_id d i)).
Proof.
  change (containers docs)
    with (list_to_map (docs ≫= containers_of_doc) : gmap string (jsnum * string)).
  split.
  - intros v Hv%elem_of_list_to_map_2.
    apply list_elem_of_bind in Hv as (doc & Hv & Hdoc).
    unfold containers_of_doc in Hv.
    apply list_elem_of_omap in Hv as ([j b] & Hjb & Hf).
    apply elem_of_lookup_imap in Hjb as (j' & b' & [= -> ->] & Hb).
    simpl in Hf. case_decide as Hst; [|done]. injection Hf as Hid <-.
    change (pollId (Doc.doc_id doc) j' = pollId d i) in Hid.
    apply pollId_inj in Hid as [<- <-]. by exists doc, b'.
  - intros doc b Hdoc Hd Hb Hst.
    destruct (list_to_map _ !! _) as [v|] eqn:E; [by eexists|].
    apply not_elem_of_list_to_map_2 in E. destruct E.
    apply list_elem_of_fmap.
    exists (progress_id d i,
            (JNum (Qc_of_Z 0),
             "Page " +:+ pretty (Doc.start b) +:+ " of " +:+ pretty (Doc.end_ b))).
    split; [done|]. apply list_elem_of_bind. exists doc. split; [|done].
    unfold containers_of_doc. apply list_elem_of_omap. exists (i, b).
    split; [by apply (elem_of_lookup_imap_2 (λ i b, (i, b)))|].
    simpl. rewrite decide_True by done. by rewrite Hd.
Qed.

(** X7: every answered request for the document list, the 5-second
    refresh included, rebuilds the progress bars: after it there is a bar
    for a batch exactly when some listed document shows that batch as
    ['processing'], and every bar is back at 0% with the batch's page
    bounds as text. *)
Theorem wb_reload_rebuilds_progress
    (s : State) (rid : nat) (docs : list Doc.Document) (d : string) (i : nat)
    (Hk : pending s !! rid = Some KLoad) :
  let s' := step s (Response rid (RDocuments docs)) in
  (∀ v, progress s' !! progress_id d i = Some v →
        ∃ doc b, doc ∈ docs ∧ Doc.doc_id doc = d
                 ∧ Doc.batches doc !! i = Some b
                 ∧ Doc.status b = "processing"
                 ∧ v = (JNum (Qc_of_Z 0),
                        "Page " +:+ pretty (Doc.start b) +:+ " of "
                        +:+ pretty (Doc.end_ b)))
  ∧ (∀ doc b, doc ∈ docs → Doc.doc_id doc = d →
              Doc.batches doc !! i = Some b →
              Doc.status b = "processing" →
              is_Some (progress s' !! progress_id d i)).
Proof.
  intros s'. subst s'. rewrite (wb_response_eq _ _ _ _ Hk).
  change (progress (default s (resume KLoad (RDocuments docs)
                                 (set_pending (delete rid (pending s)) s))))
    with (containers docs).
  apply containers_spec.
Qed.

Lemma wb_reload_rebuilds_progress_witness :
  is_Some
    (progress (step (step init DOMContentLoaded)
                    (Response 0 (RDocuments [Scenario.doc_one "processing"])))
       !! progress_id "d1" 0).
Proof.
  destruct (wb_reload_rebuilds_progress (step init DOMContentLoaded) 0
              [Scenario.doc_one "processing"] "d1" 0) as [_ Hex].
  - vm_compute. reflexivity.
  - apply (Hex (Scenario.doc_one "processing") (Scenario.batch 1 10 "processing")).
    + apply list_elem_of_singleton. reflexivity.
    + reflexivity.
    + reflexivity.
    + reflexivity.
Defined.



Lemma wb_progress_ok_step (s : State) (e : event) :
  progress_ok s → progress_ok (step s e).
Proof.
  unfold progress_ok. intros Hp.
  destruct e as [|files bsz|d i|h|rid r]; simpl.
  - done.
  - unfold uploadDocument. by destruct (files !! 0).
  - done.
  - destruct (timers s !! h) as [[[|p] ms]|]; done.
  - destruct (pending s !! rid) as [k|]; [|done].
    destruct k as [| |d i|p], r as [res|res|st|docs|m]; simpl; try done.
    + by destruct (Api.Upload.success res).
    + by destruct (Api.Job.success res).
    + destruct (wb_poll_body_docs p st (set_pending (delete rid (pending s)) s))
        as [-> _]. simpl.
      unfold poll_body.
      destruct (decide (Api.Status.status st = "processing")); [|by case_decide].
      simpl. destruct (Doc.find_doc _ _) as [doc|]; [|done].
      destruct (Doc.batches doc !! _); [|done].
      destruct (progress s !! progress_id (docId p) (batchIndex p)) eqn:E;
        [|done].
      simpl. intros id [v Hv]. apply Hp.
      apply lookup_insert_Some in Hv as [[<- _]|[_ Hv]]; by eexists.
Qed.

Lemma wb_reachable_progress_ok (s : State) : reachable s → progress_ok s.
Proof.
  intros (es & ->). induction es as [|e es IH] using rev_ind.
  - intros id [v Hv]. simpl in Hv. by rewrite lookup_empty in Hv.
  - unfold run. rewrite foldl_app. simpl. by apply wb_progress_ok_step.
Qed.

(** X9: a ['processing'] report moves a progress bar only if the cached
    document list shows that batch as ['processing']; for a batch the
    cache still lists otherwise (as right after its dispatch, until the
    next refresh) the report changes no bar. *)
Theorem wb_progress_needs_cached_processing
    (s : State) (rid : nat) (p : Poll) (st : Api.Status.t)
    (Hs : reachable s)
    (Hk : pending s !! rid = Some (KStatus p))
    (Hst : Api.Status.status st = "processing")
    (Hmoved : progress (step s (Response rid (RStatus st))) ≠ progress s) :
  ∃ doc b, doc ∈ documents s ∧ Doc.doc_id doc = docId p
           ∧ Doc.batches doc !! batchIndex p = Some b
           ∧ Doc.status b = "processing".
Proof.
  rewrite (wb_response_eq _ _ _ _ Hk) in Hmoved. simpl in Hmoved.
  unfold poll_body in Hmoved. rewrite decide_True in Hmoved by done.
  simpl in Hmoved.
  destruct (Doc.find_doc _ _) as [doc|]; [|done].
  destruct (Doc.batches doc !! _); [|done].
  destruct (progress s !! progress_id (docId p) (batchIndex p)) as [v|] eqn:E;
    [|done].
  apply wb_reachable_progress_ok in Hs.
  destruct (Hs _ (ex_intro _ v E)) as [w Hw].
  apply containers_spec in Hw as (doc' & b' & ? & ? & ? & ? & _).
  by exists doc', b'.
Qed.

Lemma wb_progress_needs_cached_processing_witness :
  ∃ doc b, doc ∈ documents Scenario.workbench_processing
           ∧ Doc.doc_id doc = "d1"
           ∧ Doc.batches doc !! 0 = Some b
           ∧ Doc.status b = "processing".
Proof.
  apply (wb_progress_needs_cached_processing Scenario.workbench_processing 3
           {| docId := "d1"; batchIndex := 0; jobId := Some "jobA" |}
           (Scenario.job_status "processing" 4 10)).
  - eexists. reflexivity.
  - vm_compute. reflexivity.
  - reflexivity.
  - intros H.
    apply (f_equal (λ m, snd <$> m !! progress_id "d1" 0)) in H.
    vm_compute in H. discriminate H.
Defined.

(** The same report while the cache still lists the batch as pending
    changes nothing on screen. *)
Example wb_report_before_refresh_is_dropped :
  progress (step Scenario.workbench_polling
              (Response 2 (RStatus (Scenario.job_status "processing" 4 10))))
  = progress Scenario.workbench_polling.
Proof. vm_compute. reflexivity. Qed.

End WorkbenchMore.

(** ** More on the batch page *)
Section BatchMore.
Import Js Batch.

(** *** What the page leaves alone in a document *)

Lemma with_status_layout (st : string) (b : Doc.Batch) :
  Doc.with_status "" (Doc.with_status st b) = Doc.with_status "" b.
Proof. done. Qed.

Lemma set_status_layout (i : nat) (st : string) (s s' : State) (d : Doc.Document) :
  set_status i st s = Some s' → currentDocument s = Some d →
  ∃ d', currentDocument s' = Some d' ∧ layout d' = layout d.
Proof.
  intros (d0 & b & Hd0 & Hb & ->)%set_status_Some Hd.
  rewrite Hd in Hd0. injection Hd0 as <-.
  eexists. split; [done|]. unfold layout. simpl. f_equal.
  rewrite list_fmap_insert, with_status_layout.
  apply list_insert_id. by rewrite list_lookup_fmap, Hb.
Qed.

Lemma processBatch_body_layout (dk : string) (i : nat) (r : option Api.Job.t)
    (s : State) (d : Doc.Document) :
  currentDocument s = Some d →
  ∃ d', currentDocument (processBatch_body dk i r s).1 = Some d'
        ∧ layout d' = layout d.
Proof.
  intros Hd.
  assert (Hset : ∀ st s1, set_status i st s = Some s1 →
            ∃ d', currentDocument (renderBatchProgress s1) = Some d'
                  ∧ layout d' = layout d).
  { intros st s1 H1.
    destruct (set_status_layout _ _ _ _ _ H1 Hd) as (d' & Hd' & Hl).
    exists d'. split; [|done].
    by destruct (renderBatchProgress_frame s1) as (_ & -> & _). }
  assert (Hcatch : ∃ d', currentDocument (processBatch_catch i s).1 = Some d'
                         ∧ layout d' = layout d).
  { unfold processBatch_catch.
    destruct (set_status i "error" s) as [s1|] eqn:H1; simpl; [eauto|].
    by exists d. }
  unfold processBatch_body. destruct r as [res|]; [|done].
  destruct (Api.Job.success res).
  - destruct (set_status i "processing" s) as [s1|] eqn:H1; [|done].
    simpl. eauto.
  - destruct (set_status i "error" s) as [s1|] eqn:H1; [simpl; eauto|done].
Qed.

(** X10: once a document is current there is always a current document,
    and apart from the two steps that install a document sent by the
    server (an accepted upload, or a refresh that finds the document), no
    step changes its id, file name, page count, number of batches, or any
    field of a batch other than its status. *)
Theorem batch_only_status_is_written
    (s : State) (e : event) (d : Doc.Document)
    (Hd : currentDocument s = Some d) :
  ∃ d', currentDocument (step s e) = Some d'
        ∧ (layout d' = layout d
           ∨ (∃ rid res, e = Response rid (RUpload res)
                         ∧ pending s !! rid = Some KUpload
                         ∧ Api.Upload.success res = true)
           ∨ (∃ rid p docs, e = Response rid (RDocuments docs)
                            ∧ pending s !! rid = Some (KDocuments p)
                            ∧ Doc.find_doc (docId p) docs = Some d')).
Proof.
  assert (Hsame : ∀ t : State, currentDocument t = currentDocument s →
            ∃ d', currentDocument t = Some d'
                  ∧ (layout d' = layout d
                     ∨ (∃ rid res, e = Response rid (RUpload res)
                                   ∧ pending s !! rid = Some KUpload
                                   ∧ Api.Upload.success res = true)
                     ∨ (∃ rid p docs, e = Response rid (RDocuments docs)
                                      ∧ pending s !! rid = Some (KDocuments p)
                                      ∧ Doc.find_doc (docId p) docs = Some d'))).
  { intros t Ht. exists d. split; [by rewrite Ht|by left]. }
  destruct e as [files| | |files|el v| |h|rid r].
  - apply Hsame. simpl. unfold handleFileSelect. by repeat case_match.
  - by apply Hsame.
  - by apply Hsame.
  - apply Hsame. simpl. unfold handleDrop. by repeat case_match.
  - by apply Hsame.
  - apply Hsame. simpl. unfold processFile. by destruct (selectedFile s).
  - apply Hsame. simpl. by destruct (timers s !! h).
  - destruct (pending s !! rid) as [k|] eqn:Hk;
      [|apply Hsame; simpl; by rewrite Hk].
    rewrite (batch_response_eq _ _ _ _ Hk).
    set (s0 := set_pending (delete rid (pending s)) s).
    assert (Hd0 : currentDocument s0 = Some d) by done.
    assert (Hbatch : ∀ dk i o,
              ∃ d', currentDocument (processBatch_resume dk i o s0) = Some d'
                    ∧ layout d' = layout d).
    { intros dk i o. unfold processBatch_resume.
      destruct (processBatch_body_layout dk i o s0 d Hd0) as (d' & Hd' & Hl).
      destruct (processBatch_body dk i o s0) as [s1 [|]]; simpl in *.
      - exists d'. split; [|done].
        by destruct (loop_from_frame (S i) s1) as (_ & -> & _).
      - by exists d'. }
    destruct k as [|dk i|p|p], r as [res|res|st|docs|]; simpl;
      try (by apply Hsame).
    + unfold processFile_body. destruct (Api.Upload.success res) eqn:Hres;
        [|by apply Hsame].
      eexists. split.
      * unfold processAllBatches.
        destruct (renderBatchProgress_frame
                    (set_currentDocument
                       (Some {| Doc.doc_id := Api.Upload.doc_id res;
                                Doc.filename := Api.Upload.filename res;
                                Doc.total_pages := Api.Upload.total_pages res;
                                Doc.batch_size := None;
                                Doc.batches := Api.Upload.batches res |}) s0))
          as (_ & Hc & _).
        rewrite Hc. simpl.
        destruct (loop_from_frame 0 (renderBatchProgress
                    (set_currentDocument
                       (Some {| Doc.doc_id := Api.Upload.doc_id res;
                                Doc.filename := Api.Upload.filename res;
                                Doc.total_pages := Api.Upload.total_pages res;
                                Doc.batch_size := None;
                                Doc.batches := Api.Upload.batches res |}) s0)))
          as (_ & -> & _).
        exact Hc.
      * right; left. by exists rid, res.
    + destruct (Hbatch dk i (Some res)) as (d' & ? & ?). exists d'. auto.
    + destruct (Hbatch dk i None) as (d' & ? & ?). exists d'. auto.
    + unfold poll_body. repeat case_decide; [by apply Hsame| |by apply Hsame].
      set (s1 := set_timers _ s0).
      destruct (set_status (batchIndex p) "error" s1) as [s2|] eqn:H2;
        [|by apply Hsame].
      destruct (set_status_layout _ _ _ _ _ H2 Hd0) as (d' & Hd' & Hl).
      exists d'. split; [|by left].
      by destruct (renderBatchProgress_frame s2) as (_ & -> & _).
    + unfold refresh_body. destruct (Doc.find_doc _ _) as [u|] eqn:Hu;
        [|by apply Hsame].
      exists u. split.
      * unfold renderBatchProgress. simpl.
        by destruct (Doc.all_completed _).
      * right; right. by exists rid, p, docs.
Qed.

Lemma batch_only_status_is_written_witness :
  ∃ d', currentDocument
          (step Scenario.batch_two_polling
             (Response 3 (RStatus (Scenario.job_status "error" 4 10))))
        = Some d'.
Proof.
  assert (Hd : currentDocument Scenario.batch_two_polling
               = Some {| Doc.doc_id := "d1"; Doc.filename := "paper.pdf";
                         Doc.total_pages := 20; Doc.batch_size := None;
                         Doc.batches := [Scenario.batch 1 10 "processing";
                                         Scenario.batch 11 20 "processing"] |}).
  { vm_compute. reflexivity. }
  destruct (batch_only_status_is_written Scenario.batch_two_polling
              (Response 3 (RStatus (Scenario.job_status "error" 4 10))) _ Hd)
    as (d' & Hd' & _).
  by exists d'.
Defined.

(** X11: when the answer to a dispatch arrives and the current document
    has no batch at that index (or there is no current document), the
    handler and its [catch] block both throw: nothing is written, no poller
    is started even if the server accepted the job, and the loop over the
    remaining batches is abandoned. *)
Theorem batch_dispatch_answer_without_batch
    (s : State) (rid : nat) (d : string) (i : nat) (r : response)
    (Hk : pending s !! rid = Some (KProcessBatch d i))
    (Hr : is_job_answer r)
    (Hmissing : status_at i s = None) :
  step s (Response rid r) = set_pending (delete rid (pending s)) s.
Proof.
  rewrite (batch_response_eq _ _ _ _ Hk).
  set (s0 := set_pending (delete rid (pending s)) s).
  assert (Hset : ∀ st, set_status i st s0 = None).
  { intros st. unfold set_status, status_at in *. simpl.
    destruct (currentDocument s) as [d0|]; [|done]. simpl in Hmissing.
    by destruct (Doc.batches d0 !! i). }
  assert (Hbody : ∀ o, processBatch_resume d i o s0 = s0).
  { intros o. unfold processBatch_resume, processBatch_body, processBatch_catch.
    destruct o as [res|]; [destruct (Api.Job.success res)|];
      by rewrite ?Hset. }
  destruct r; simpl in *; try done; by rewrite Hbody.
Qed.

Lemma batch_dispatch_answer_without_batch_witness :
  step Scenario.batch_superseded (Response 2 (RJob (Scenario.job_ok "j1")))
  = set_pending (delete 2 (pending Scenario.batch_superseded))
                Scenario.batch_superseded.
Proof.
  apply (batch_dispatch_answer_without_batch Scenario.batch_superseded 2 "d1" 1).
  - vm_compute. reflexivity.
  - exact I.
  - vm_compute. reflexivity.
Defined.

(** *** The completion message *)

Lemma completions_snoc_other (tr : list action) (a : action) :
  a ≠ ShowCompletion → completions (tr ++ [a]) = completions tr.
Proof.
  intros Ha. unfold completions. rewrite omap_app. simpl.
  destruct a; simpl; rewrite ?app_nil_r; done.
Qed.

Lemma loop_from_completions (k : nat) (s : State) :
  completions (trace (loop_from k s)) = completions (trace s).
Proof.
  destruct (loop_from_cases k s) as [->|(d & j & _ & _ & ->)]; [done|].
  simpl. by apply completions_snoc_other.
Qed.

Lemma processBatch_resume_completions (d : string) (i : nat)
    (r : option Api.Job.t) (s : State) :
  completions (trace (processBatch_resume d i r s)) = completions (trace s).
Proof.
  unfold processBatch_resume.
  pose proof (processBatch_body_files d i r s) as [_ Ht].
  destruct (processBatch_body d i r s) as [s1 [|]]; simpl in *.
  - by rewrite loop_from_completions, Ht.
  - by rewrite Ht.
Qed.

(** X12: the completion message appears only in the step that receives
    the refreshed document list, finds the document in it, and finds every
    batch of it ['completed']; no other handler, and no local status write,
    ever shows it. *)
Theorem batch_completion_only_after_full_refresh
    (s : State) (e : event)
    (Hshown : completions (trace (step s e)) ≠ completions (trace s)) :
  ∃ rid p docs u,
    e = Response rid (RDocuments docs)
    ∧ pending s !! rid = Some (KDocuments p)
    ∧ Doc.find_doc (docId p) docs = Some u
    ∧ Forall (λ b, Doc.status b = "completed") (Doc.batches u)
    ∧ currentDocument (step s e) = Some u.
Proof.
  destruct e as [files| | |files|el v| |h|rid r].
  - destruct Hshown. simpl. unfold handleFileSelect. by repeat case_match.
  - by destruct Hshown.
  - by destruct Hshown.
  - destruct Hshown. simpl. unfold handleDrop. by repeat case_match.
  - by destruct Hshown.
  - destruct Hshown. simpl. unfold processFile.
    destruct (selectedFile s); [|done]. simpl. by apply completions_snoc_other.
  - destruct Hshown. simpl. destruct (timers s !! h); [|done].
    simpl. by apply completions_snoc_other.
  - destruct (pending s !! rid) as [k|] eqn:Hk;
      [|destruct Hshown; simpl; by rewrite Hk].
    rewrite (batch_response_eq _ _ _ _ Hk) in *.
    set (s0 := set_pending (delete rid (pending s)) s) in *.
    destruct k as [|dk i|p|p], r as [res|res|st|docs|]; simpl in *;
      try (by destruct Hshown).
    + destruct Hshown. unfold processFile_body.
      destruct (Api.Upload.success res); [|done].
      unfold processAllBatches.
      set (s1 := renderBatchProgress _).
      assert (trace s1 = trace s) as H1.
      { subst s1. by destruct (render_files (set_currentDocument
          (Some {| Doc.doc_id := Api.Upload.doc_id res;
                   Doc.filename := Api.Upload.filename res;
                   Doc.total_pages := Api.Upload.total_pages res;
                   Doc.batch_size := None;
                   Doc.batches := Api.Upload.batches res |}) s0)). }
      clearbody s1.
      destruct (currentDocument s1); [|by rewrite H1].
      by rewrite loop_from_completions, H1.
    + destruct Hshown. exact (processBatch_resume_completions dk i _ s0).
    + destruct Hshown. exact (processBatch_resume_completions dk i _ s0).
    + destruct Hshown. unfold poll_body. repeat case_decide; simpl; [| |done].
      * by apply completions_snoc_other.
      * destruct (set_status _ _ _) as [s1|] eqn:H1.
        -- destruct (set_status_files _ _ _ _ H1) as [_ Hb].
           destruct (render_files s1) as [_ Hd]. simpl in *. by rewrite Hd, Hb.
        -- by apply completions_snoc_other.
    + destruct Hshown. by apply completions_snoc_other.
    + unfold refresh_body in *.
      destruct (Doc.find_doc (docId p) docs) as [u|] eqn:Hu;
        [|by destruct Hshown].
      destruct (Doc.all_completed (Doc.batches u)) eqn:Hall.
      * exists rid, p, docs, u. split; [done|]. split; [done|].
        split; [done|]. split; [by apply all_completed_Forall|].
        unfold renderBatchProgress. done.
      * destruct Hshown. unfold renderBatchProgress. done.
    + destruct Hshown. by apply completions_snoc_other.
Qed.

Lemma batch_completion_only_after_full_refresh_witness :
  let docs := [ {| Doc.doc_id := "d1"; Doc.filename := "paper.pdf";
                   Doc.total_pages := 20; Doc.batch_size := Some 10%Z;
                   Doc.batches := [Scenario.batch 1 10 "completed";
                                   Scenario.batch 11 20 "completed"] |} ] in
  let s := step Scenario.batch_two_polling
             (Response 3 (RStatus (Scenario.job_status "complete" 10 10))) in
  ∃ u, currentDocument (step s (Response 4 (RDocuments docs))) = Some u
       ∧ Forall (λ b, Doc.status b = "completed") (Doc.batches u).
Proof.
  intros docs s.
  destruct (batch_completion_only_after_full_refresh s
              (Response 4 (RDocuments docs)))
    as (rid & p & docs' & u & _ & _ & _ & Hall & Hu).
  - vm_compute. discriminate.
  - by exists u.
Defined.

(** *** The batch list on screen *)

Lemma render_rendered_ok (s : State) : rendered_ok (renderBatchProgress s).
Proof.
  intros d. unfold renderBatchProgress.
  destruct (currentDocument s) as [d0|] eqn:E; simpl; rewrite E; [|done].
  intros [= <-]. apply lookup_insert_eq.
Qed.

Lemma rendered_ok_frame (s s' : State) :
  currentDocument s' = currentDocument s →
  dom s' !! ("batchList", "innerHTML") = dom s !! ("batchList", "innerHTML") →
  rendered_ok s → rendered_ok s'.
Proof. unfold rendered_ok. intros -> ->. done. Qed.

Lemma loop_from_rendered_ok (k : nat) (s : State) :
  rendered_ok s → rendered_ok (loop_from k s).
Proof.
  apply rendered_ok_frame.
  - apply loop_from_frame.
  - by destruct (loop_from_frame k s) as (_ & _ & _ & _ & _ & ->).
Qed.

Lemma processBatch_resume_rendered_ok (d : string) (i : nat)
    (r : option Api.Job.t) (s : State) :
  rendered_ok s → rendered_ok (processBatch_resume d i r s).
Proof.
  intros Hr.
  assert (Hbody : rendered_ok (processBatch_body d i r s).1).
  { assert (Hcatch : rendered_ok (processBatch_catch i s).1).
    { unfold processBatch_catch.
      destruct (set_status i "error" s); simpl; [apply render_rendered_ok|done]. }
    unfold processBatch_body. destruct r as [res|]; [|done].
    destruct (Api.Job.success res).
    - destruct (set_status i "processing" s) as [s1|]; [|done]. simpl.
      by apply (rendered_ok_frame (renderBatchProgress s1));
        [..|apply render_rendered_ok].
    - destruct (set_status i "error" s); [simpl; apply render_rendered_ok|done]. }
  unfold processBatch_resume.
  destruct (processBatch_body d i r s) as [s1 [|]]; simpl in *; [|done].
  by apply loop_from_rendered_ok.
Qed.

Lemma batch_rendered_ok_step (s : State) (e : event) :
  rendered_ok s → rendered_ok (step s e).
Proof.
  intros Hr.
  destruct e as [files| | |files|el v| |h|rid r]; simpl.
  - unfold handleFileSelect. repeat case_match; try done.
    apply (rendered_ok_frame s); [done| |done]. simpl. by dom_norm.
  - apply (rendered_ok_frame s); [done| |done]. simpl. by dom_norm.
  - apply (rendered_ok_frame s); [done| |done]. simpl. by dom_norm.
  - unfold handleDrop.
    repeat case_match; (apply (rendered_ok_frame s); [done| |done]);
      simpl; by dom_norm.
  - apply (rendered_ok_frame s); [done| |done]. simpl. by dom_norm.
  - unfold processFile. destruct (selectedFile s); [|done].
    apply (rendered_ok_frame s); [done| |done]. simpl. by dom_norm.
  - by destruct (timers s !! h).
  - destruct (pending s !! rid) as [k|]; [|done].
    set (s0 := set_pending (delete rid (pending s)) s).
    assert (H0 : rendered_ok s0) by done.
    destruct k as [|dk i|p|p], r as [res|res|st|docs|]; simpl; try done.
    + unfold processFile_body. destruct (Api.Upload.success res).
      * unfold processAllBatches.
        destruct (currentDocument (renderBatchProgress _));
          [apply loop_from_rendered_ok|]; apply render_rendered_ok.
      * apply (rendered_ok_frame s0); [done| |done]. simpl. by dom_norm.
    + apply (rendered_ok_frame s0); [done| |done]. simpl. by dom_norm.
    + by apply processBatch_resume_rendered_ok.
    + by apply processBatch_resume_rendered_ok.
    + unfold poll_body. repeat case_decide; simpl; try done.
      destruct (set_status _ _ _); [apply render_rendered_ok|done].
    + unfold refresh_body. destruct (Doc.find_doc _ _) as [u|]; [|done].
      set (s1 := renderBatchProgress _).
      assert (H1 : rendered_ok s1) by apply render_rendered_ok.
      clearbody s1.
      destruct (Doc.all_completed _); [|done].
      apply (rendered_ok_frame s1); [done| |done]. simpl. by dom_norm.
Qed.

(** X13: the batch list on screen is never stale: in every reachable
    state it is the rendering of the current document, whose every change
    (installation or status write) is followed by a re-render in the same
    step. *)
Theorem batch_list_never_stale (s : State) (d : Doc.Document)
    (Hs : reachable s)
    (Hd : currentDocument s = Some d) :
  dom s !! ("batchList", "innerHTML")
  = Some (VHtml (HBatchList (Doc.doc_id d) (Doc.batches d))).
Proof.
  revert d Hd. change (rendered_ok s). destruct Hs as (d0 & es & ->).
  induction es as [|e es IH] using rev_ind; [by intros ?|].
  unfold run. rewrite foldl_app. simpl. by apply batch_rendered_ok_step.
Qed.

Lemma batch_list_never_stale_witness :
  dom Scenario.batch_two_polling !! ("batchList", "innerHTML")
  = Some (VHtml (HBatchList "d1" [Scenario.batch 1 10 "processing";
                                  Scenario.batch 11 20 "processing"])).
Proof.
  apply (batch_list_never_stale Scenario.batch_two_polling
           {| Doc.doc_id := "d1"; Doc.filename := "paper.pdf";
              Doc.total_pages := 20; Doc.batch_size := None;
              Doc.batches := [Scenario.batch 1 10 "processing";
                              Scenario.batch 11 20 "processing"] |}).
  - eexists _, _. reflexivity.
  - vm_compute. reflexivity.
Defined.

End BatchMore.

(** ** The sign-in page *)
Section AuthPage.
Import Js Auth.
Variable tabs : gset string.

Lemma auth_response_eq (s : State) (rid : nat) (k : cont) (r : response) :
  pending s !! rid = Some k →
  step tabs s (Response rid r)
  = default s (resume k r (set_pending (delete rid (pending s)) s)).
Proof. intros Hk. simpl. by rewrite Hk. Qed.

(** X14: the store is written only by the answer to a login that reports
    success and carries a session; that step writes both tokens, shows the
    success message and schedules the redirect 1000 ms later.  No other
    answer (refused login, success without session, failed request, any
    signup answer) and no other handler touches the store. *)
Theorem auth_store_written_only_by_login (s : State) (e : event)
    (Hch : localStorage (step tabs s e) ≠ localStorage s) :
  ∃ rid d sess,
    e = Response rid (RLogin d)
    ∧ pending s !! rid = Some KLogin
    ∧ Login.success d = true
    ∧ Login.session_ d = Some sess
    ∧ localStorage (step tabs s e)
      = <["refresh_token" := interp (Login.refresh_token sess)]>
          (<["access_token" := interp (Login.access_token sess)]>
             (localStorage s))
    ∧ timeouts (step tabs s e) !! next_handle s = Some (Timer CbRedirect 1000)
    ∧ message_kind (step tabs s e) = Some Success.
Proof.
  destruct e as [target tab| | | |h|rid r].
  - destruct Hch. simpl. done.
  - by destruct Hch.
  - by destruct Hch.
  - by destruct Hch.
  - destruct Hch. simpl. destruct (timeouts s !! h) as [[[|email] ms]|]; done.
  - destruct (pending s !! rid) as [k|] eqn:Hk;
      [|destruct Hch; simpl; by rewrite Hk].
    rewrite (auth_response_eq _ _ _ _ Hk) in *.
    destruct k as [|email], r as [d|d|]; simpl in *; try (by destruct Hch).
    + unfold handleLogin_body in *.
      destruct (Login.success d) eqn:Hs; [|by destruct Hch].
      destruct (Login.session_ d) as [sess|] eqn:Hsess; [|by destruct Hch].
      exists rid, d, sess. simpl. rewrite lookup_insert_eq. done.
    + destruct Hch. unfold handleSignup_body. by destruct (Signup.success d).
Qed.

Lemma auth_redirect_ok_step (s : State) (e : event) :
  redirect_ok s ∧ (∀ l, location s = Some l → l = "/") →
  redirect_ok (step tabs s e)
  ∧ (∀ l, location (step tabs s e) = Some l → l = "/").
Proof.
  unfold redirect_ok. intros [Hr Hl].
  destruct e as [target tab| | | |h|rid r]; simpl; try done.
  - destruct (timeouts s !! h) as [[[|email] ms]|] eqn:Hh; simpl; [| |done].
    + split; [|by intros l [= <-]]. intros _. apply Hr. left. by exists h, ms.
    + split; [|done]. intros [(h' & ms' & [_ H]%lookup_delete_Some)|H];
        apply Hr; [left; by exists h', ms'|by right].
  - destruct (pending s !! rid) as [k|]; [|done].
    destruct k as [|email], r as [d|d|]; simpl; try done.
    + unfold handleLogin_body.
      destruct (Login.success d); [|done].
      destruct (Login.session_ d) as [sess|]; [|done]. simpl.
      split; [|done]. intros _.
      split; [rewrite lookup_insert_ne by done|]; by rewrite lookup_insert_eq.
    + unfold handleSignup_body. destruct (Signup.success d); [|done]. simpl.
      split; [|done].
      intros [(h' & ms' & [[_ [=]]|[_ H]]%lookup_insert_Some)|H];
        apply Hr; [left; by exists h', ms'|by right].
Qed.

(** X15: the page navigates away only to ["/"], and only when both
    tokens are in the store: from the page as loaded, every assignment to
    [window.location.href] comes from the timer of a successful login. *)
Theorem auth_redirect_only_with_tokens
    (act : gset string) (lh sh : bool) (store : gmap string string)
    (es : list event) (l : string)
    (Hloc : location (run tabs (init act lh sh store) es) = Some l) :
  l = "/"
  ∧ is_Some (localStorage (run tabs (init act lh sh store) es) !! "access_token")
  ∧ is_Some (localStorage (run tabs (init act lh sh store) es) !! "refresh_token").
Proof.
  assert (Hinv : redirect_ok (run tabs (init act lh sh store) es)
                 ∧ ∀ l, location (run tabs (init act lh sh store) es) = Some l
                        → l = "/").
  { clear Hloc. induction es as [|e es IH] using rev_ind.
    - split; [|done]. intros [(h & ms & H)|[x H]]; [|done].
      simpl in H. by rewrite lookup_empty in H.
    - unfold run. rewrite foldl_app. simpl. by apply auth_redirect_ok_step. }
  destruct Hinv as [Hr Hl]. split; [by apply Hl|].
  apply Hr. right. by eexists.
Qed.

(** The delayed switch to the login tab: the tabs lose ['active'] and the
    callback stops there. *)
Lemma auth_to_login_timer (s : State) (h ms : nat) (email : string) :
  timeouts s !! h = Some (Timer (CbToLogin email) ms) →
  step tabs s (Timeout h)
  = set_active (active s ∖ tabs) (set_timeouts (delete h (timeouts s)) s).
Proof. intros Hh. simpl. by rewrite Hh. Qed.

(** X16: after a signup that the server accepts, the switch to the login
    tab announced for 2 s later does not take place: when the timer fires,
    [switchTab] runs outside any event handler, throws at [event.target]
    after removing ['active'] from the tabs, and the rest is skipped.  The
    forms are shown or hidden as before the signup, the login email field
    is not filled in, and no tab is active. *)
Theorem auth_signup_switch_does_not_happen (s : State) (d : Signup.t)
    (Hd : Signup.success d = true) :
  let s1 := step tabs s SubmitSignup in
  let s2 := step tabs s1 (Response (next_req s) (RSignup d)) in
  let s3 := step tabs s2 (Timeout (next_handle s)) in
  timeouts s2 !! next_handle s
  = Some (Timer (CbToLogin (getv "signupEmail" s)) 2000)
  ∧ loginForm_hidden s3 = loginForm_hidden s
  ∧ signupForm_hidden s3 = signupForm_hidden s
  ∧ inputs s3 = inputs s
  ∧ active s3 = active s ∖ tabs
  ∧ (∀ t, t ∈ tabs → t ∉ active s3)
  ∧ location s3 = location s.
Proof.
  intros s1 s2 s3.
  assert (H2 : s2 = handleSignup_body (getv "signupEmail" s) d
                      (set_pending (delete (next_req s) (pending s1)) s1)).
  { subst s2 s1. simpl. by rewrite lookup_insert_eq. }
  assert (Ht : timeouts s2 !! next_handle s
               = Some (Timer (CbToLogin (getv "signupEmail" s)) 2000)).
  { rewrite H2. unfold handleSignup_body. rewrite Hd. simpl.
    apply lookup_insert_eq. }
  split; [done|]. subst s3. rewrite (auth_to_login_timer _ _ _ _ Ht).
  rewrite H2. unfold handleSignup_body. rewrite Hd. simpl.
  repeat split; try done. intros t Htab [_ Hnot]%elem_of_difference. done.
Qed.

(** X17: the two forms are never shown together: if at most one of them
    is visible, that stays so whatever tab is asked for, by a click or by a
    timer. *)
Theorem auth_forms_never_both_visible (s : State) (es : list event)
    (Hone : loginForm_hidden s = true ∨ signupForm_hidden s = true) :
  loginForm_hidden (run tabs s es) = true
  ∨ signupForm_hidden (run tabs s es) = true.
Proof.
  induction es as [|e es IH] using rev_ind; [done|].
  unfold run. rewrite foldl_app. simpl. fold (run tabs s es).
  set (t := run tabs s es) in *. clearbody t.
  destruct e as [target tab| | | |h|rid r]; simpl; try done.
  - destruct (decide (tab = "login")) as [->|Hne].
    + right. by apply bool_decide_eq_true.
    + left. by apply bool_decide_eq_true.
  - destruct (timeouts t !! h) as [[[|email] ms]|]; done.
  - destruct (pending t !! rid) as [k|]; [|done].
    destruct k as [|email], r as [d|d|]; simpl; try done.
    + unfold handleLogin_body.
      destruct (Login.success d); [|done]. by destruct (Login.session_ d).
    + unfold handleSignup_body. by destruct (Signup.success d).
Qed.

End AuthPage.

Lemma auth_store_written_only_by_login_witness :
  Auth.message_kind
    (Auth.step Scenario.auth_tabs
       (Auth.step Scenario.auth_tabs Scenario.auth_loaded Auth.SubmitLogin)
       (Auth.Response 0 (Auth.RLogin Scenario.login_ok)))
  = Some Auth.Success.
Proof.
  destruct (auth_store_written_only_by_login Scenario.auth_tabs
              (Auth.step Scenario.auth_tabs Scenario.auth_loaded Auth.SubmitLogin)
              (Auth.Response 0 (Auth.RLogin Scenario.login_ok)))
    as (rid & d & sess & _ & _ & _ & _ & _ & _ & Hmsg).
  - intros H.
    apply (f_equal (λ m : gmap string string, m !! "access_token")) in H.
    vm_compute in H. discriminate H.
  - exact Hmsg.
Defined.

Lemma auth_redirect_only_with_tokens_witness :
  is_Some
    (Auth.localStorage
       (Auth.run Scenario.auth_tabs (Auth.init {["tabLogin"]} false true ∅)
          [Auth.SubmitLogin; Auth.Response 0 (Auth.RLogin Scenario.login_ok);
           Auth.Timeout 1])
       !! "access_token").
Proof.
  destruct (auth_redirect_only_with_tokens Scenario.auth_tabs
              {["tabLogin"]} false true ∅
              [Auth.SubmitLogin; Auth.Response 0 (Auth.RLogin Scenario.login_ok);
               Auth.Timeout 1] "/") as (_ & Ha & _).
  - vm_compute. reflexivity.
  - exact Ha.
Defined.

Lemma auth_signup_switch_does_not_happen_witness :
  let s := Scenario.auth_loaded in
  let s3 := Auth.run Scenario.auth_tabs s
              [Auth.SubmitSignup; Auth.Response 0 (Auth.RSignup Scenario.signup_ok);
               Auth.Timeout 1] in
  Auth.signupForm_hidden s3 = Auth.signupForm_hidden s
  ∧ Auth.inputs s3 = Auth.inputs s.
Proof.
  destruct (auth_signup_switch_does_not_happen Scenario.auth_tabs
              Scenario.auth_loaded Scenario.signup_ok eq_refl)
    as (_ & _ & Hs & Hi & _).
  exact (conj Hs Hi).
Defined.

Lemma auth_forms_never_both_visible_witness :
  Auth.loginForm_hidden
    (Auth.run Scenario.auth_tabs Scenario.auth_loaded
       [Auth.ClickTab "tabSignup" "signup"]) = true
  ∨ Auth.signupForm_hidden
      (Auth.run Scenario.auth_tabs Scenario.auth_loaded
         [Auth.ClickTab "tabSignup" "signup"]) = true.
Proof.
  apply auth_forms_never_both_visible. right. reflexivity.
Defined.

(** ** The preview modal of the quick-process page *)
Section QuickViewPage.
Import Js QuickView.

Lemma quickview_page_reachable (d : gmap (string * string) (value Empty_set))
    (es : list event) :
  Quick.reachable (page (run (init d) es)).
Proof.
  induction es as [|e es IH] using rev_ind.
  - exists d, []. reflexivity.
  - unfold run. rewrite foldl_app. simpl. fold (run (init d) es).
    set (s := run (init d) es) in *. clearbody s.
    destruct e as [e| | |rid a]; simpl.
    + destruct IH as (d0 & es0 & ->). exists d0, (es0 ++ [e]).
      unfold Quick.run. by rewrite foldl_app.
    + unfold previewResult. by destruct (truthy _).
    + done.
    + case_decide; [|done]. by destruct a.
Qed.

(** X18: a click on Preview asks the server for exactly the file the
    download link points to, and asks for nothing while no result file is
    known (before a job has completed, or when the complete status carried
    no file name). *)
Theorem quickview_preview_matches_download_link
    (d : gmap (string * string) (value Empty_set)) (es : list event) :
  let s := run (init d) es in
  let s' := step s PreviewResult in
  (truthy (Quick.currentResultFilename (page s)) = None → s' = s)
  ∧ ∀ f, truthy (Quick.currentResultFilename (page s)) = Some f →
         requested s' = requested s ++ ["/download/" +:+ f]
         ∧ Quick.dom (page s) !! ("downloadLink", "href")
           = Some (VStr ("/download/" +:+ f))
         ∧ page s' = page s.
Proof.
  intros s s'. subst s'. simpl. unfold previewResult. split.
  - by intros ->.
  - intros f Hf. rewrite Hf. simpl. split; [done|]. split; [|done].
    apply quick_download_link_matches_result;
      [apply quickview_page_reachable|].
    unfold truthy in Hf.
    destruct (Quick.currentResultFilename (page s)) as [g|]; [|done].
    by case_decide; simplify_eq.
Qed.

Lemma quickview_preview_matches_download_link_witness :
  requested (step (run (init ∅) Scenario.quick_view_done) PreviewResult)
  = ["/download/paper.md"]
  ∧ Quick.dom (page (run (init ∅) Scenario.quick_view_done))
      !! ("downloadLink", "href")
    = Some (VStr "/download/paper.md").
Proof.
  assert (Hf : truthy (Quick.currentResultFilename
                         (page (run (init ∅) Scenario.quick_view_done)))
               = Some "paper.md") by (vm_compute; reflexivity).
  assert (Hr : requested (run (init ∅) Scenario.quick_view_done) = [])
    by (vm_compute; reflexivity).
  destruct (quickview_preview_matches_download_link ∅ Scenario.quick_view_done)
    as [_ H].
  destruct (H "paper.md" Hf) as (H1 & H2 & _).
  split; [|exact H2].
  rewrite H1, Hr. reflexivity.
Defined.

End QuickViewPage.
